(** * bootstrap.py: a shallow embedding and its checked properties

    The toolchain bootstrapper [bootstrap.py] is embedded function by
    function.  Python [str] values are lists of Unicode code points, the
    override map is a [gmap], the directory tree is an inductive tree whose
    directories list their entries, and the side effects (printing,
    subprocesses, downloads, directory creation, copies) are threaded
    through a small monad that carries the world, raises exceptions and
    records what was done, in order. *)

From Stdlib Require Import ZArith NArith List String Ascii Bool Lia.
From stdpp Require Import base option list gmap.

Local Open Scope N_scope.

(** ** Text *)

(** A Python [str] is a sequence of code points. *)
Abbreviation str := (list N).

(** [u "abc"] is the [str] of an ASCII literal. *)
Fixpoint u (s : string) : str :=
  match s with
  | EmptyString => []
  | String a s' => N_of_ascii a :: u s'
  end.

Definition LF : N := 10.
Definition CR : N := 13.
Definition HASH : N := 35.
Definition EQUALS : N := 61.
Definition APOSTROPHE : N := 39.
Definition QUOTE : N := 34.

(** The characters [str.strip()] removes: those for which [str.isspace]
    holds (tab to carriage return, the four separators 0x1c to 0x1f, space,
    NEL, no-break space and the Unicode space separators). *)
Definition is_space (c : N) : bool :=
  ((9 <=? c) && (c <=? 13)) || ((28 <=? c) && (c <=? 32))
  || (c =? 133) || (c =? 160) || (c =? 5760)
  || ((8192 <=? c) && (c <=? 8202))
  || (c =? 8232) || (c =? 8233) || (c =? 8239) || (c =? 8287)
  || (c =? 12288).

(** The line boundaries of [str.splitlines()]. *)
Definition is_linebreak (c : N) : bool :=
  ((10 <=? c) && (c <=? 13)) || ((28 <=? c) && (c <=? 30))
  || (c =? 133) || (c =? 8232) || (c =? 8233).

Fixpoint lstrip_with (p : N -> bool) (s : str) : str :=
  match s with
  | [] => []
  | c :: s' => if p c then lstrip_with p s' else s
  end.

Definition rstrip_with (p : N -> bool) (s : str) : str :=
  rev (lstrip_with p (rev s)).

(** [s.strip(chars)] for the set of characters [p]. *)
Definition strip_with (p : N -> bool) (s : str) : str :=
  rstrip_with p (lstrip_with p s).

(** [s.strip()] *)
Definition strip (s : str) : str := strip_with is_space s.

(** [s.strip(c)] for a one-character argument. *)
Definition strip_char (c : N) (s : str) : str := strip_with (N.eqb c) s.

(** [s.startswith(c)] for a one-character prefix. *)
Definition startswith_char (c : N) (s : str) : bool :=
  match s with
  | [] => false
  | c' :: _ => c' =? c
  end.

(** [c in s] *)
Definition contains_char (c : N) (s : str) : bool := existsb (N.eqb c) s.

(** [s.split(c, 1)] read as a pair: the text before the first [c] and the
    text after it.  The source unpacks the result into two names and only
    calls it when [c in s]; without a [c] the pair is [(s, [])]. *)
Fixpoint split1 (c : N) (s : str) : str * str :=
  match s with
  | [] => ([], [])
  | x :: s' =>
      if x =? c then ([], s')
      else let '(k, v) := split1 c s' in (x :: k, v)
  end.

(** [s.splitlines()]: [cur] is the line being read, newest character
    first.  A carriage return followed by a line feed is one boundary; a
    final line without a boundary is kept, an empty one is not. *)
Fixpoint splitlines_from (cur : str) (s : str) : list str :=
  match s with
  | [] => match cur with [] => [] | _ => [rev cur] end
  | c :: s' =>
      if c =? CR then
        match s' with
        | c' :: s'' =>
            if c' =? LF then rev cur :: splitlines_from [] s''
            else rev cur :: splitlines_from [] s'
        | [] => rev cur :: splitlines_from [] s'
        end
      else if is_linebreak c then rev cur :: splitlines_from [] s'
      else splitlines_from (c :: cur) s'
  end.

Definition splitlines (s : str) : list str := splitlines_from [] s.

(** ** The override file: [load_env_file] *)

(** One turn of the loop body of [load_env_file]: [None] is the
    [continue], [Some (k, v)] the assignment [m[k] = v]. *)
Definition parse_line (line : str) : option (str * str) :=
  let s := strip line in
  if match s with [] => true | _ => false end
     || startswith_char HASH s
     || negb (contains_char EQUALS s)
  then None
  else
    let '(k, v) := split1 EQUALS s in
    let v := strip_char QUOTE (strip_char APOSTROPHE (strip v)) in
    Some (strip k, v).

(** The [for] loop over the lines, on the dict [m]. *)
Definition load_lines (lines : list str) (m : gmap str str) : gmap str str :=
  fold_left
    (fun m line =>
       match parse_line line with
       | None => m
       | Some (k, v) => <[k := v]> m
       end)
    lines m.

(** [env_map.get(k, d)] *)
Definition dict_get (m : gmap str str) (k d : str) : str :=
  default d (m !! k).

(** ** The directory tree *)

(** A regular file with its text, or a directory with its entries in the
    order [iterdir] yields them.  A name is looked up at its first entry. *)
#[local] Unset Elimination Schemes.
Inductive node : Type :=
| File (data : str)
| Dir (entries : list (str * node)).
#[local] Set Elimination Schemes.

Abbreviation entries := (list (str * node)).

(** A [pathlib.Path]: the components below the file-system root.
    [p / "x"] is [p ++ [x]]. *)
Abbreviation Path := (list str).

Fixpoint lookup_entry (n : str) (d : entries) : option node :=
  match d with
  | [] => None
  | (n', x) :: d' => if decide (n' = n) then Some x else lookup_entry n d'
  end.

(** Put [x] at name [n]: in place of the entry of that name, or as a new
    last entry. *)
Fixpoint set_entry (n : str) (x : node) (d : entries) : entries :=
  match d with
  | [] => [(n, x)]
  | (n', y) :: d' =>
      if decide (n' = n) then (n, x) :: d' else (n', y) :: set_entry n x d'
  end.

Fixpoint find_node (p : Path) (x : node) : option node :=
  match p with
  | [] => Some x
  | n :: p' =>
      match x with
      | File _ => None
      | Dir d =>
          match lookup_entry n d with
          | Some y => find_node p' y
          | None => None
          end
      end
  end.

(** What is at [p] below the directory with entries [d]. *)
Definition find (p : Path) (d : entries) : option node := find_node p (Dir d).

(** [p.exists()] *)
Definition exists_in (p : Path) (d : entries) : bool :=
  match find p d with Some _ => true | None => false end.

(** [p.mkdir(parents=True, exist_ok=True)] below the directory [d]:
    [None] is the [FileExistsError] or [NotADirectoryError] raised when a
    component of [p] is a regular file. *)
Fixpoint mkdir_p (p : Path) (d : entries) : option entries :=
  match p with
  | [] => Some d
  | n :: p' =>
      match lookup_entry n d with
      | Some (File _) => None
      | Some (Dir s) =>
          match mkdir_p p' s with
          | Some s' => Some (set_entry n (Dir s') d)
          | None => None
          end
      | None =>
          match mkdir_p p' [] with
          | Some s' => Some (set_entry n (Dir s') d)
          | None => None
          end
      end
  end.

(** Replace the entries of the directory at [p] by [s]; nothing changes
    when [p] is not a directory. *)
Fixpoint put_dir (p : Path) (s : entries) (d : entries) : entries :=
  match p with
  | [] => s
  | n :: p' =>
      match lookup_entry n d with
      | Some (Dir s0) => set_entry n (Dir (put_dir p' s s0)) d
      | _ => d
      end
  end.

(** [p.parent] *)
Definition parent (p : Path) : Path := removelast p.

(** ** Copying: [shutil.copy2] and [shutil.copytree] *)

(** [shutil.copy2(item, dst)] for a regular file [item] of text [data]
    whose name is the last component of [dst]; [d] holds the entries of the
    directory [dst] lies in.  When [dst] is a directory the file goes into
    it under its own name.  [None] is the [IsADirectoryError] of opening a
    directory for writing. *)
Definition copy2 (name data : str) (d : entries) : option entries :=
  match lookup_entry name d with
  | Some (Dir sub) =>
      match lookup_entry name sub with
      | Some (Dir _) => None
      | _ => Some (set_entry name (Dir (set_entry name (File data) sub)) d)
      end
  | _ => Some (set_entry name (File data) d)
  end.

(** Copy [item] to the name [name] of the directory with entries [d]: a
    regular file by [copy2], a directory by
    [shutil.copytree(item, dst, dirs_exist_ok=True)].  [copytree] first
    makes the destination directory ([os.makedirs] refuses an existing
    regular file), then copies every entry, directories by itself and files
    by [copy2]; it notes the errors of its entries, goes on, and raises at
    its end when it noted one.  The boolean tells that an error is raised;
    the entries are what is on disk then. *)
Fixpoint copy_node (name : str) (item : node) (d : entries) {struct item}
  : entries * bool :=
  match item with
  | File data =>
      match copy2 name data d with
      | Some d' => (d', false)
      | None => (d, true)
      end
  | Dir es =>
      match lookup_entry name d with
      | Some (File _) => (d, true)
      | o =>
          let sub0 := match o with Some (Dir s) => s | _ => [] end in
          let '(sub, failed) :=
            (fix each (es : entries) (acc : entries * bool) {struct es}
               : entries * bool :=
               match es with
               | [] => acc
               | (n, c) :: es' =>
                   let '(s, f) := copy_node n c (fst acc) in
                   each es' (s, snd acc || f)
               end) es (sub0, false) in
          (set_entry name (Dir sub) d, failed)
      end
  end.

(** The loop of [copytree] over the entries of its source. *)
Fixpoint copy_each (es : entries) (acc : entries * bool) : entries * bool :=
  match es with
  | [] => acc
  | (n, c) :: es' =>
      let '(s, f) := copy_node n c (fst acc) in
      copy_each es' (s, snd acc || f)
  end.

(** ** The world, exceptions and effects *)

(** One subprocess call: [Popen]'s [cmd], [env], [cwd] and the bytes
    given to [communicate]. *)
Record call : Type := Call {
  argv : list str;
  call_env : option (gmap str str);
  call_cwd : option str;
  call_input : option str;
}.

(** How a call went: the process ran and left an exit code and its merged
    output (already decoded), or [Popen] itself raised [OSError]. *)
Inductive outcome : Type :=
| Exited (returncode : Z) (output : str)
| NotStarted (why : str).

Record World : Type := MkWorld {
  fs : entries;                 (* the root directory *)
  environ : gmap str str;       (* os.environ *)
  on_path : list str;           (* the commands shutil.which finds *)
  cwd : Path;                   (* Path.cwd() *)
}.

Definition with_fs (d : entries) (w : World) : World :=
  {| fs := d; environ := environ w; on_path := on_path w; cwd := cwd w |}.

(** What the program takes from its host: the operating system family
    and its path syntax, Python's printing of a list, and the behaviour of
    the subprocesses, the network and the zip format. *)
Record Host : Type := MkHost {
  is_windows : bool;                       (* is_windows() *)
  path_str : Path -> str;                  (* str(path) *)
  str_path : str -> Path;                  (* Path(text) *)
  pathsep : str;                           (* os.pathsep *)
  repr_list : list str -> str;             (* the text of a list in an f-string *)
  spawn : call -> World -> outcome * World;
  urlretrieve : str -> World -> option str;    (* None: URLError *)
  zip_tree : str -> option entries;            (* None: BadZipFile *)
}.

Inductive exn : Type :=
| RuntimeError (msg : str)
| SystemExit (msg : str)
| CalledProcessError (returncode : Z)
| OSError (msg : str)
| BadZipFile.

(** [isinstance(e, Exception)]: what [except Exception] catches. *)
Definition is_Exception (e : exn) : bool :=
  match e with
  | SystemExit _ => false
  | _ => true
  end.

(** [str(e)] *)
Definition exn_str (e : exn) : str :=
  match e with
  | RuntimeError m | SystemExit m | OSError m => m
  | CalledProcessError _ => u "Command returned non-zero exit status"
  | BadZipFile => u "File is not a zip file"
  end.

Inductive event : Type :=
| Log (msg : str)                  (* print(msg) *)
| Err (msg : str)                  (* print(msg, file=sys.stderr) *)
| Out (text : str)                 (* sys.stdout.write(text) *)
| Spawn (c : call) (o : outcome)   (* Popen(c) and communicate *)
| Mkdir (p : Path)                 (* p.mkdir(parents=True, exist_ok=True) *)
| Download (url : str)             (* urlretrieve(url, ...) *)
| Unzip                            (* ZipFile.extractall *)
| Copy (dst : Path).               (* copytree or copy2 to dst *)

Inductive res (A : Type) : Type :=
| Ret (a : A)
| Raise (e : exn).
Arguments Ret {A} a.
Arguments Raise {A} e.

(** A computation runs in a world and yields a value or an exception, the
    world it leaves, and the events it caused, oldest first. *)
Definition M (A : Type) : Type := World -> res A * World * list event.

Definition ret {A} (a : A) : M A := fun w => (Ret a, w, []).

Definition raise {A} (e : exn) : M A := fun w => (Raise e, w, []).

Definition bind {A B} (m : M A) (k : A -> M B) : M B :=
  fun w =>
    let '(r, w1, t1) := m w in
    match r with
    | Ret a => let '(r2, w2, t2) := k a w1 in (r2, w2, t1 ++ t2)
    | Raise e => (Raise e, w1, t1)
    end.

(** [try: m  except Exception as e: h e] *)
Definition try_except {A} (m : M A) (h : exn -> M A) : M A :=
  fun w =>
    let '(r, w1, t1) := m w in
    match r with
    | Ret a => (Ret a, w1, t1)
    | Raise e =>
        if is_Exception e
        then let '(r2, w2, t2) := h e w1 in (r2, w2, t1 ++ t2)
        else (Raise e, w1, t1)
    end.

Declare Scope m_scope.
Delimit Scope m_scope with M.
Notation "'let*' x ':=' m 'in' k" := (bind m (fun x => k))
  (at level 10, x name, m at level 100, k at level 200) : m_scope.
Notation "m >> k" := (bind m (fun _ => k))
  (at level 90, right associativity) : m_scope.
Local Open Scope m_scope.

Definition emit (e : event) : M unit := fun w => (Ret tt, w, [e]).
Definition log (msg : str) : M unit := emit (Log msg).
Definition err (msg : str) : M unit := emit (Err msg).

Definition get_world : M World := fun w => (Ret w, w, []).

(** ** Utility helpers *)

Definition popen (h : Host) (c : call) : M outcome :=
  fun w => let '(o, w') := spawn h c w in (Ret o, w', [Spawn c o]).

(** [run_checked(cmd, env, cwd, input_bytes)] for a list [cmd]. *)
Definition run_checked (h : Host) (c : call) : M unit :=
  let* o := popen h c in
  match o with
  | NotStarted why => raise (OSError why)
  | Exited returncode text =>
      if negb (returncode =? 0)%Z then
        err text >>
        raise (RuntimeError (u "Command failed: " ++ repr_list h (argv c)))
      else emit (Out text)
  end.

(** A call with only its command, as [run_checked(cmd)] makes it. *)
Definition cmd (args : list str) : call :=
  {| argv := args; call_env := None; call_cwd := None; call_input := None |}.

Definition have_cmd (name : str) : M bool :=
  fun w => (Ret (bool_decide (name ∈ on_path w)), w, []).

Definition path_exists (p : Path) : M bool :=
  fun w => (Ret (exists_in p (fs w)), w, []).

Definition mkdir (p : Path) : M unit :=
  fun w =>
    match mkdir_p p (fs w) with
    | Some d => (Ret tt, with_fs d w, [Mkdir p])
    | None => (Raise (OSError (u "FileExistsError")), w, [Mkdir p])
    end.

(** [load_env_file(path)]; the file holds its text as [read_text] decodes
    it: a [File] of the tree is a regular file whose bytes are text in
    UTF-8, and what is said of a [File] is said of such a file.  Reading a
    directory raises. *)
Definition load_env_file (path : Path) : M (gmap str str) :=
  fun w =>
    match find path (fs w) with
    | None => (Ret ∅, w, [])
    | Some (File text) => (Ret (load_lines (splitlines text) ∅), w, [])
    | Some (Dir _) => (Raise (OSError (u "IsADirectoryError")), w, [])
    end.

(** [download(url, dest)] into the temporary directory, which is fresh
    and removed when its [with] block ends: what is in it is a local value
    here, the bytes fetched. *)
Definition download (h : Host) (url : str) : M str :=
  log (u "Downloading: " ++ url) >>
  fun w =>
    match urlretrieve h url w with
    | Some data => (Ret data, w, [Download url])
    | None => (Raise (OSError (u "URLError")), w, [Download url])
    end.

(** [unzip(zip_path, dest)] into the temporary directory: the tree the
    archive expands to. *)
Definition unzip (h : Host) (data : str) : M entries :=
  match zip_tree h data with
  | Some t => emit Unzip >> ret t
  | None => emit Unzip >> raise BadZipFile
  end.

(** [flutter_bin(flutter_root)], as a path; the source passes its text
    around and turns it back into a path to test it. *)
Definition flutter_bin (h : Host) (flutter_root : Path) : Path :=
  flutter_root ++ [u "bin"; if is_windows h then u "flutter.bat" else u "flutter"].

Definition sdkmanager_bin (h : Host) (android_sdk_root : Path) : Path :=
  let base := android_sdk_root ++ [u "cmdline-tools"; u "latest"; u "bin"] in
  base ++ [if is_windows h then u "sdkmanager.bat" else u "sdkmanager"].

(** ** Install steps *)

Definition git_missing : str :=
  u "Git not found. Install Git and re-run." ++ [LF]
  ++ u "Windows: winget install -e --id Git.Git" ++ [LF]
  ++ u "Linux: sudo apt install git".

Definition java_missing : str :=
  u "Java 17 not found on PATH. Install JDK 17 and re-run." ++ [LF]
  ++ u "Linux: sudo apt install openjdk-17-jdk".

Definition winget_openjdk : list str :=
  [u "winget"; u "install"; u "-e"; u "--id"; u "Microsoft.OpenJDK.17";
   u "--silent"; u "--accept-package-agreements";
   u "--accept-source-agreements"].

Definition ensure_prereqs (h : Host) : M unit :=
  let* git := have_cmd (u "git") in
  if negb git then raise (SystemExit git_missing)
  else
    let* java := have_cmd (u "java") in
    if negb java then
      let* winget :=
        if is_windows h then have_cmd (u "winget") else ret false in
      (if winget then
         log (u "Java 17 not found. Installing Microsoft OpenJDK 17 via winget...") >>
         try_except (run_checked h (cmd winget_openjdk)) (fun _ => ret tt)
       else ret tt) >>
      let* java := have_cmd (u "java") in
      if negb java then raise (SystemExit java_missing) else ret tt
    else ret tt.

Definition flutter_repo : str := u "https://github.com/flutter/flutter".

Definition git_clone_default (h : Host) (flutter_root : Path) : call :=
  cmd [u "git"; u "clone"; u "--depth"; u "1"; flutter_repo;
       path_str h flutter_root].

Definition git_fetch_ref (h : Host) (flutter_root : Path) (ref : str) : call :=
  {| argv := [u "git"; u "fetch"; u "origin"; ref; u "--depth"; u "1"];
     call_env := None; call_cwd := Some (path_str h flutter_root);
     call_input := None |}.

Definition git_checkout_ref (h : Host) (flutter_root : Path) (ref : str) : call :=
  {| argv := [u "git"; u "checkout"; ref];
     call_env := None; call_cwd := Some (path_str h flutter_root);
     call_input := None |}.

Definition git_clone_channel (h : Host) (flutter_root : Path) (channel : str)
  : call :=
  cmd [u "git"; u "clone"; u "--depth"; u "1"; u "-b"; channel; flutter_repo;
       path_str h flutter_root].

Definition install_flutter (h : Host) (flutter_root : Path)
    (env_map : gmap str str) : M unit :=
  let flutter_exe := flutter_bin h flutter_root in
  let* present := path_exists flutter_exe in
  if present then
    log (u "Flutter already present at " ++ path_str h flutter_root)
  else
    let channel := dict_get env_map (u "FLUTTER_CHANNEL") (u "stable") in
    let ref := strip (dict_get env_map (u "FLUTTER_REF") []) in
    log (u "Installing Flutter into " ++ path_str h flutter_root ++ u " ...") >>
    mkdir (parent flutter_root) >>
    match ref with
    | _ :: _ =>
        run_checked h (git_clone_default h flutter_root) >>
        run_checked h (git_fetch_ref h flutter_root ref) >>
        run_checked h (git_checkout_ref h flutter_root ref)
    | [] => run_checked h (git_clone_channel h flutter_root channel)
    end.

(** One turn of the placement loop of [install_android_cmdline]:
    [shutil.copytree(item, dst, dirs_exist_ok=True)] for a directory and
    [shutil.copy2(item, dst)] for a file, with [dst = latest / name].  The
    choice between the two is the one [copy_node] makes.  Without the
    directory [latest] there is nothing to copy into; the step has made it
    just before. *)
Definition place_item (latest : Path) (name : str) (item : node) : M unit :=
  fun w =>
    match find latest (fs w) with
    | Some (Dir d) =>
        let '(d', failed) := copy_node name item d in
        let w' := with_fs (put_dir latest d' (fs w)) w in
        if failed
        then (Raise (OSError (u "copy failed")), w', [Copy (latest ++ [name])])
        else (Ret tt, w', [Copy (latest ++ [name])])
    | _ => (Raise (OSError (u "FileNotFoundError")), w, [Copy (latest ++ [name])])
    end.

(** [for item in src.iterdir(): ...] *)
Fixpoint place_items (latest : Path) (items : entries) : M unit :=
  match items with
  | [] => ret tt
  | (name, item) :: rest =>
      place_item latest name item >> place_items latest rest
  end.

(** [src.iterdir()] in the extracted tree. *)
Definition iterdir (p : Path) (tree : entries) : M entries :=
  match find p tree with
  | Some (Dir es) => ret es
  | Some (File _) => raise (OSError (u "NotADirectoryError"))
  | None => raise (OSError (u "FileNotFoundError"))
  end.

Definition cmdline_tools_url (h : Host) (cmd_ver : str) : str :=
  let base := if is_windows h then u "win" else u "linux" in
  u "https://dl.google.com/android/repository/commandlinetools-"
  ++ base ++ u "-" ++ cmd_ver ++ u "_latest.zip".

Definition install_android_cmdline (h : Host) (android_sdk : Path)
    (env_map : gmap str str) : M unit :=
  let sdk_mgr := sdkmanager_bin h android_sdk in
  let* present := path_exists sdk_mgr in
  if present then log (u "Android cmdline-tools already present.")
  else
    let cmd_ver := dict_get env_map (u "ANDROID_CMDLINE_TOOLS") (u "11076708") in
    let url := cmdline_tools_url h cmd_ver in
    log (u "Installing Android cmdline-tools " ++ cmd_ver ++ u " into "
         ++ path_str h android_sdk ++ u " ...") >>
    mkdir android_sdk >>
    let latest := android_sdk ++ [u "cmdline-tools"; u "latest"] in
    mkdir latest >>
    let* zdata := download h url in
    let* tmp_extract := unzip h zdata in
    let* items := iterdir [u "cmdline-tools"] tmp_extract in
    place_items latest items.

(** The environment [install_android_packages] gives its subprocesses. *)
Definition android_env (h : Host) (android_sdk : Path) (environ : gmap str str)
  : gmap str str :=
  let env := environ in
  let env := <[u "ANDROID_SDK_ROOT" := path_str h android_sdk]> env in
  let env := <[u "ANDROID_HOME" := path_str h android_sdk]> env in
  <[u "PATH" :=
      path_str h (android_sdk ++ [u "cmdline-tools"; u "latest"; u "bin"])
      ++ pathsep h
      ++ path_str h (android_sdk ++ [u "platform-tools"])
      ++ pathsep h
      ++ dict_get env (u "PATH") []]> env.

Definition sdk_root_arg (h : Host) (android_sdk : Path) : str :=
  u "--sdk_root=" ++ path_str h android_sdk.

(** ["y\n" * 200] *)
Definition yes_lines : str := concat (repeat [121; LF] 200).

Definition licenses_call (h : Host) (android_sdk : Path) (env : gmap str str)
  : call :=
  {| argv := [path_str h (sdkmanager_bin h android_sdk);
              sdk_root_arg h android_sdk; u "--licenses"];
     call_env := Some env; call_cwd := None; call_input := Some yes_lines |}.

Definition android_pkgs (env_map : gmap str str) : list str :=
  let platform_id := dict_get env_map (u "ANDROID_PLATFORM") (u "android-34") in
  let build_tools_id := dict_get env_map (u "ANDROID_BUILD_TOOLS") (u "34.0.0") in
  let ndk_id := dict_get env_map (u "ANDROID_NDK") (u "26.1.10909125") in
  let cmake_id := dict_get env_map (u "ANDROID_CMAKE") (u "3.22.1") in
  [u "platform-tools";
   u "platforms;" ++ platform_id;
   u "build-tools;" ++ build_tools_id;
   u "cmake;" ++ cmake_id;
   u "ndk;" ++ ndk_id].

Definition packages_call (h : Host) (android_sdk : Path)
    (env_map env : gmap str str) : call :=
  {| argv := path_str h (sdkmanager_bin h android_sdk)
             :: sdk_root_arg h android_sdk :: android_pkgs env_map;
     call_env := Some env; call_cwd := None; call_input := None |}.

Definition flutter_config_call (h : Host) (android_sdk flutter_root : Path)
    (env : gmap str str) : call :=
  {| argv := [path_str h (flutter_bin h flutter_root); u "config";
              u "--android-sdk"; path_str h android_sdk];
     call_env := Some env; call_cwd := None; call_input := None |}.

Definition precache_args (h : Host) : list str :=
  [u "--android"] ++ (if is_windows h then [u "--windows"] else []).

Definition precache_call (h : Host) (flutter_root : Path) (env : gmap str str)
  : call :=
  {| argv := path_str h (flutter_bin h flutter_root) :: u "precache"
             :: precache_args h;
     call_env := Some env; call_cwd := None; call_input := None |}.

Definition install_android_packages (h : Host) (android_sdk : Path)
    (env_map : gmap str str) (flutter_root : Path) : M unit :=
  let* w := get_world in
  let env := android_env h android_sdk (environ w) in
  let sdkmanager := sdkmanager_bin h android_sdk in
  let* present := path_exists sdkmanager in
  if negb present then
    raise (RuntimeError (u "sdkmanager not found at " ++ path_str h sdkmanager))
  else
    log (u "Accepting Android licenses...") >>
    try_except
      (run_checked h (licenses_call h android_sdk env))
      (fun e => err (u "License acceptance had warnings: " ++ exn_str e)) >>
    log (u "Installing Android SDK components...") >>
    run_checked h (packages_call h android_sdk env_map env) >>
    log (u "Configuring Flutter and precaching artifacts...") >>
    run_checked h (flutter_config_call h android_sdk flutter_root env) >>
    run_checked h (precache_call h flutter_root env).

Definition vswhere_call (h : Host) (vswhere : Path) : call :=
  cmd [path_str h vswhere; u "-latest"; u "-products"; u "*"; u "-requires";
       u "Microsoft.VisualStudio.Component.VC.Tools.x86.x64"; u "-property";
       u "installationPath"].

Definition vctools_override : str :=
  u "--add Microsoft.VisualStudio.Workload.VCTools --includeRecommended --passive --norestart --wait".

Definition winget_buildtools : list str :=
  [u "winget"; u "install"; u "-e"; u "--id";
   u "Microsoft.VisualStudio.2022.BuildTools"; u "--override";
   vctools_override;
   u "--accept-package-agreements"; u "--accept-source-agreements"].

Definition winget_failed : str :=
  u "Winget installation failed or needs elevation. You can run this from an elevated PowerShell:"
  ++ [LF]
  ++ u "winget install -e --id Microsoft.VisualStudio.2022.BuildTools --override "
  ++ [QUOTE] ++ vctools_override ++ [QUOTE]
  ++ u " --accept-package-agreements --accept-source-agreements".

(** [subprocess.check_output(...).strip()] inside its [try]: whether the
    locator printed an installation path.  A non-zero exit is the
    [CalledProcessError] the source catches.  The output of an outcome is
    the text that text mode reads: what is said of [Exited] is said of a
    call whose output is text in the encoding of the host. *)
Definition vc_tools_detected (h : Host) (vswhere : Path) : M bool :=
  let* o := popen h (vswhere_call h vswhere) in
  match o with
  | NotStarted why => raise (OSError why)
  | Exited returncode text =>
      if negb (returncode =? 0)%Z then ret false
      else ret (match strip text with [] => false | _ => true end)
  end.

Definition ensure_msvc_on_windows (h : Host) : M unit :=
  if negb (is_windows h) then ret tt
  else
    let* w := get_world in
    let installer root :=
      str_path h root ++ [u "Microsoft Visual Studio"; u "Installer"; u "vswhere.exe"] in
    let vswhere_paths :=
      [installer (dict_get (environ w) (u "ProgramFiles(x86)") (u "C:\Program Files (x86)"));
       installer (dict_get (environ w) (u "ProgramFiles") (u "C:\Program Files"))] in
    let vswhere := List.find (fun p => exists_in p (fs w)) vswhere_paths in
    let* have_vc_tools :=
      match vswhere with
      | Some v => vc_tools_detected h v
      | None => ret false
      end in
    if have_vc_tools then log (u "MSVC Build Tools detected.")
    else
      log (u "MSVC Build Tools not found. Attempting installation via winget (requires Admin)...") >>
      let* winget := have_cmd (u "winget") in
      if negb winget then
        err (u "winget is not available. Please install Visual Studio 2022 Build Tools manually.")
      else
        try_except
          (run_checked h (cmd winget_buildtools) >>
           log (u "Winget install command issued. If it required elevation, re-run this script as Administrator or install manually."))
          (fun e => err winget_failed >> err (exn_str e)).

(** ** Main *)

Definition main (h : Host) : M unit :=
  let* w := get_world in
  let* env_map := load_env_file (cwd w ++ [u ".env"]) in
  let repo_root := cwd w in
  let tooling := repo_root ++ [u ".tooling"] in
  let flutter_root := tooling ++ [u "flutter"] in
  let android_sdk := tooling ++ [u "android-sdk"] in
  log (u "Tooling directory: " ++ path_str h tooling) >>
  mkdir tooling >>
  ensure_prereqs h >>
  install_flutter h flutter_root env_map >>
  install_android_cmdline h android_sdk env_map >>
  install_android_packages h android_sdk env_map flutter_root >>
  ensure_msvc_on_windows h >>
  log (LF :: u "Bootstrap complete.") >>
  log (u "Next steps:") >>
  log (u "  - Open VS Code here (settings already configured for local SDKs).") >>
  log (u "  - Run: flutter doctor -v") >>
  log (u "  - Android: flutter pub get && flutter build apk --release") >>
  if is_windows h then
    log (u "  - Windows: flutter config --enable-windows-desktop && flutter build windows --release")
  else ret tt.

(** ** Notions the properties are stated with *)

(** Neither the first nor the last character of [s] is in [p]. *)
Definition ends_free (p : N -> bool) (s : str) : bool :=
  match s, rev s with
  | a :: _, b :: _ => negb (p a) && negb (p b)
  | _, _ => true
  end.

(** No line of [ls] assigns the key [K]. *)
Definition no_line_for (K : str) (ls : list str) : Prop :=
  forall l V, In l ls -> parse_line l <> Some (K, V).

(** [pat in s] for texts. *)
Fixpoint has_prefix (pat s : str) : bool :=
  match pat, s with
  | [], _ => true
  | a :: pat', b :: s' => (a =? b) && has_prefix pat' s'
  | _ :: _, [] => false
  end.

Fixpoint is_infix (pat s : str) : bool :=
  has_prefix pat s
  || match s with
     | [] => false
     | _ :: s' => is_infix pat s'
     end.

(** The subprocess calls of a trace, in order. *)
Fixpoint spawned (t : list event) : list call :=
  match t with
  | [] => []
  | Spawn c _ :: t' => c :: spawned t'
  | _ :: t' => spawned t'
  end.

(** Every subprocess of the trace ran and exited with code 0. *)
Fixpoint all_exited_zero (t : list event) : bool :=
  match t with
  | [] => true
  | Spawn _ (Exited rc _) :: t' => (rc =? 0)%Z && all_exited_zero t'
  | Spawn _ (NotStarted _) :: _ => false
  | _ :: t' => all_exited_zero t'
  end.

(** The text of the regular file at [p] below [x], if there is one. *)
Definition file_at_node (p : Path) (x : node) : option str :=
  match find_node p x with
  | Some (File data) => Some data
  | _ => None
  end.

(** Whether there is a directory at [p] below [x]. *)
Definition dir_at_node (p : Path) (x : node) : bool :=
  match find_node p x with
  | Some (Dir _) => true
  | _ => false
  end.

Definition file_at (p : Path) (d : entries) : option str := file_at_node p (Dir d).
Definition dir_at (p : Path) (d : entries) : bool := dir_at_node p (Dir d).

(** Every directory of [x] holds at most one entry of a name, as the
    directories of a file system do. *)
Fixpoint unique_names (x : node) : bool :=
  match x with
  | File _ => true
  | Dir es =>
      bool_decide (NoDup (map fst es))
      && forallb (fun e => unique_names (snd e)) es
  end.

(** [item], placed at the name [name] of the directory with entries [d],
    meets only entries of its own kind: a file never meets a directory and
    a directory never a file, at any depth. *)
Fixpoint same_kinds (name : str) (item : node) (d : entries) : bool :=
  match item, lookup_entry name d with
  | _, None => true
  | File _, Some (File _) => true
  | File _, Some (Dir _) => false
  | Dir _, Some (File _) => false
  | Dir es, Some (Dir sub) => forallb (fun e => same_kinds (fst e) (snd e) sub) es
  end.

(** The entries of the directory at [p], none when there is no directory. *)
Definition entries_at (p : Path) (d : entries) : entries :=
  match find p d with
  | Some (Dir s) => s
  | _ => []
  end.

(** [android_sdk / "cmdline-tools" / "latest"] *)
Definition latest_dir (android_sdk : Path) : Path :=
  android_sdk ++ [u "cmdline-tools"; u "latest"].

(** No subprocess of the trace follows one that did not exit with
    code 0. *)
Fixpoint stops_at_failure (t : list event) : bool :=
  match t with
  | [] => true
  | Spawn _ (Exited rc _) :: t' =>
      if (rc =? 0)%Z then stops_at_failure t'
      else match spawned t' with [] => true | _ :: _ => false end
  | Spawn _ (NotStarted _) :: t' =>
      match spawned t' with [] => true | _ :: _ => false end
  | _ :: t' => stops_at_failure t'
  end.

(** The [Copy] events of a trace. *)
Fixpoint copies (t : list event) : list Path :=
  match t with
  | [] => []
  | Copy p :: t' => p :: copies t'
  | _ :: t' => copies t'
  end.

(** A test for [no_line_for] on given lines. *)
Definition skips_key (K : str) (ls : list str) : bool :=
  forallb (fun l => match parse_line l with
                    | Some (k, _) => negb (bool_decide (k = K))
                    | None => true
                    end) ls.

(** What [x'] holds is what [item] holds, and besides it what the node
    [o] that was there held. *)
Definition merged_at (item : node) (o : option node) (x' : node) : Prop :=
  forall p,
    file_at_node p x'
    = match file_at_node p item with
      | Some data => Some data
      | None => match o with Some y => file_at_node p y | None => None end
      end
    /\ dir_at_node p x'
       = dir_at_node p item
         || match o with Some y => dir_at_node p y | None => false end.

(** What a successful copy of [item] to [name] makes of [d]. *)
Definition copied (name : str) (item : node) (d d' : entries) : Prop :=
  copy_node name item d = (d', false)
  /\ (forall n, n <> name -> lookup_entry n d' = lookup_entry n d)
  /\ exists x', lookup_entry name d' = Some x'
                /\ merged_at item (lookup_entry name d) x'.

(** No character of [l] is a line boundary. *)
Definition one_line (l : str) : bool := forallb (fun c => negb (is_linebreak c)) l.

(** Directory, regular file, or nothing. *)
Definition kind_of (o : option node) : option bool :=
  match o with
  | Some (Dir _) => Some true
  | Some (File _) => Some false
  | None => None
  end.

(** Whatever is below [x] at some path is below [x'] at that path, and of
    the same kind. *)
Definition node_kept (x x' : node) : Prop :=
  forall p k, kind_of (find_node p x) = Some k -> kind_of (find_node p x') = Some k.

(** ** Sample hosts and worlds *)

(** The children of the wrapper directory of a small archive. *)
Definition sample_items : entries :=
  [(u "bin", Dir [(u "sdkmanager", File (u "#!/bin/sh"))]);
   (u "lib", Dir [(u "sdkmanager.jar", File (u "jar"))]);
   (u "NOTICE", File (u "notice"))].

Definition sample_archive : entries := [(u "cmdline-tools", Dir sample_items)].

(** A host with [/] between path components and a subprocess behaviour
    of one's choice; every download yields [sample_archive]. *)
Definition sample_host (windows : bool)
    (behaviour : call -> World -> outcome * World) : Host :=
  {| is_windows := windows;
     path_str := fun p => concat (map (fun c => u "/" ++ c) p);
     str_path := fun s => [s];
     pathsep := if windows then u ";" else u ":";
     repr_list := fun l => u "[" ++ concat (map (fun a => u "'" ++ a ++ u "', ") l) ++ u "]";
     spawn := behaviour;
     urlretrieve := fun _ _ => Some (u "PK");
     zip_tree := fun data => if decide (data = u "PK") then Some sample_archive else None |}.

(** Every subprocess exits with code 0 and changes nothing. *)
Definition all_succeed : call -> World -> outcome * World :=
  fun _ w => (Exited 0 [], w).

(** Every subprocess exits with code 1 and changes nothing. *)
Definition all_fail : call -> World -> outcome * World :=
  fun _ w => (Exited 1 (u "failed"), w).

(** The calls whose last argument is [last_arg] exit with code 1, the
    others with code 0. *)
Definition fail_on (last_arg : str) : call -> World -> outcome * World :=
  fun c w =>
    if decide (List.last (argv c) [] = last_arg)
    then (Exited 1 (u "failed"), w)
    else (Exited 0 [], w).

Definition sample_env_text : str :=
  u "# toolchain pins" ++ [LF] ++ [LF]
  ++ u "FLUTTER_CHANNEL=" ++ [QUOTE] ++ u "beta" ++ [QUOTE] ++ [LF]
  ++ u "ANDROID_NDK=25.0" ++ [LF]
  ++ u "not a pair" ++ [LF]
  ++ u "ANDROID_NDK = 27.0" ++ [LF].

(** A checkout with an override file and nothing installed. *)
Definition fresh_world : World :=
  {| fs := [(u "repo", Dir [(u ".env", File sample_env_text)])];
     environ := ∅;
     on_path := [u "git"; u "java"];
     cwd := [u "repo"] |}.

(** The same checkout after a bootstrap: both marker files are there. *)
Definition installed_world : World :=
  {| fs := [(u "repo",
             Dir [(u ".env", File sample_env_text);
                  (u ".tooling",
                   Dir [(u "flutter",
                         Dir [(u "bin", Dir [(u "flutter", File (u "#!/bin/sh"))])]);
                        (u "android-sdk",
                         Dir [(u "cmdline-tools",
                               Dir [(u "latest",
                                     Dir [(u "bin",
                                           Dir [(u "sdkmanager", File (u "#!/bin/sh"))])])])])])])];
     environ := ∅;
     on_path := [u "git"; u "java"];
     cwd := [u "repo"] |}.

Definition sample_flutter_root : Path := [u "repo"; u ".tooling"; u "flutter"].
Definition sample_android_sdk : Path := [u "repo"; u ".tooling"; u "android-sdk"].

(** The quoted line of the specification: [FOO], [=], and [bar] between
    two double quotes. *)
Definition foo_bar_line : str := u "FOO=" ++ [QUOTE] ++ u "bar" ++ [QUOTE].

Definition foo_bar_world : World :=
  {| fs := [(u ".env",
             File (u "  # comment" ++ [LF] ++ foo_bar_line ++ [LF] ++ u "plain" ++ [LF]))];
     environ := ∅; on_path := []; cwd := [] |}.

(** An environment map with a ref between blanks. *)
Definition ref_env : gmap str str := <[u "FLUTTER_REF" := u " 3.19.0 "]> ∅.

(** A windows-family checkout with the tools installed, and [winget] but
    no [java] on the path. *)
Definition windows_world : World :=
  {| fs := [(u "repo",
             Dir [(u ".tooling",
                   Dir [(u "flutter",
                         Dir [(u "bin", Dir [(u "flutter.bat", File (u "@echo off"))])]);
                        (u "android-sdk",
                         Dir [(u "cmdline-tools",
                               Dir [(u "latest",
                                     Dir [(u "bin",
                                           Dir [(u "sdkmanager.bat", File (u "@echo off"))])])])])])])];
     environ := ∅;
     on_path := [u "git"; u "winget"];
     cwd := [u "repo"] |}.

(** The destination of the specification's merge scenario: a [README]
    under [cmdline-tools/latest] and nothing else. *)
Definition readme_world : World :=
  {| fs := [(u "repo",
             Dir [(u ".tooling",
                   Dir [(u "android-sdk",
                         Dir [(u "cmdline-tools",
                               Dir [(u "latest",
                                     Dir [(u "README", File (u "read me"))])])])])])];
     environ := ∅;
     on_path := [u "git"; u "java"];
     cwd := [u "repo"] |}.

(** A destination with a directory [NOTICE] that holds a file [NOTICE]. *)
Definition notice_dir_world : World :=
  {| fs := [(u "repo",
             Dir [(u ".tooling",
                   Dir [(u "android-sdk",
                         Dir [(u "cmdline-tools",
                               Dir [(u "latest",
                                     Dir [(u "NOTICE",
                                           Dir [(u "NOTICE", File (u "old"))])])])])])])];
     environ := ∅;
     on_path := [u "git"; u "java"];
     cwd := [u "repo"] |}.

(** A destination with a regular file [lib]. *)
Definition lib_file_world : World :=
  {| fs := [(u "repo",
             Dir [(u ".tooling",
                   Dir [(u "android-sdk",
                         Dir [(u "cmdline-tools",
                               Dir [(u "latest",
                                     Dir [(u "lib", File (u "old"))])])])])])];
     environ := ∅;
     on_path := [u "git"; u "java"];
     cwd := [u "repo"] |}.

(** The host [h] with no network: every download fails. *)
Definition offline (h : Host) : Host :=
  {| is_windows := is_windows h;
     path_str := path_str h;
     str_path := str_path h;
     pathsep := pathsep h;
     repr_list := repr_list h;
     spawn := spawn h;
     urlretrieve := fun _ _ => None;
     zip_tree := zip_tree h |}.

(** The lines of the override file of [foo_bar_world]. *)
Definition foo_bar_lines : list str := [u "  # comment"; foo_bar_line; u "plain"].

(** [foo_bar_world] with the override file written on a windows-family
    host: every line ends with a carriage return and a line feed. *)
Definition foo_bar_crlf_world : World :=
  with_fs [(u ".env",
            File (concat (map (fun l => l ++ [CR; LF]) foo_bar_lines)))]
    foo_bar_world.

(** * Properties *)

(** ** Text *)

Example splitlines_mixed :
  splitlines (u "a" ++ [CR; LF] ++ u "b" ++ [LF; LF] ++ u "c" ++ [CR] ++ u "d" ++ [LF])
  = [u "a"; u "b"; []; u "c"; u "d"].
Proof. reflexivity. Qed.

Example strip_keeps_inner_blanks : strip (u "  a b " ++ [9; LF]) = u "a b".
Proof. reflexivity. Qed.

Example strip_char_takes_all : strip_char QUOTE ([QUOTE; QUOTE] ++ u "a" ++ [QUOTE]) = u "a".
Proof. reflexivity. Qed.

Example parse_line_spaced :
  parse_line (u " KEY = 'x = y'  ") = Some (u "KEY", u "x = y").
Proof. reflexivity. Qed.

Example parse_line_commented : parse_line (u "  # KEY=1") = None.
Proof. reflexivity. Qed.

Lemma lstrip_with_keep p c s : p c = false -> lstrip_with p (c :: s) = c :: s.
Proof. intros H. simpl. now rewrite H. Qed.

Lemma lstrip_with_drop p c s : p c = true -> lstrip_with p (c :: s) = lstrip_with p s.
Proof. intros H. simpl. now rewrite H. Qed.

Lemma rstrip_with_keep p c s : p c = false -> rstrip_with p (s ++ [c]) = s ++ [c].
Proof.
  intros H. unfold rstrip_with. rewrite rev_app_distr. simpl. rewrite H.
  simpl. now rewrite rev_involutive.
Qed.

Lemma rstrip_with_drop p c s : p c = true -> rstrip_with p (s ++ [c]) = rstrip_with p s.
Proof.
  intros H. unfold rstrip_with. rewrite rev_app_distr. simpl. now rewrite H.
Qed.


Lemma rev_cons_inv (s : str) b r : rev s = b :: r -> s = rev r ++ [b].
Proof.
  intros H. rewrite <- (rev_involutive s), H. reflexivity.
Qed.

Lemma strip_with_ends_free p s : ends_free p s = true -> strip_with p s = s.
Proof.
  unfold ends_free, strip_with. destruct s as [|a s]; [reflexivity|].
  destruct (rev (a :: s)) as [|b r] eqn:E.
  - apply (f_equal (@length N)) in E. rewrite length_rev in E. discriminate.
  - intros H. apply andb_true_iff in H as [Ha Hb].
    apply negb_true_iff in Ha, Hb.
    rewrite lstrip_with_keep by exact Ha.
    rewrite (rev_cons_inv _ _ _ E). now apply rstrip_with_keep.
Qed.

Lemma strip_with_wrapped p q t :
  p q = true -> ends_free p t = true -> strip_with p (q :: t ++ [q]) = t.
Proof.
  intros Hq H. unfold strip_with. rewrite lstrip_with_drop by exact Hq.
  destruct t as [|a t]; [simpl; rewrite Hq; reflexivity|].
  unfold ends_free in H.
  destruct (rev (a :: t)) as [|b r] eqn:E.
  - apply (f_equal (@length N)) in E. rewrite length_rev in E. discriminate.
  - apply andb_true_iff in H as [Ha Hb]. apply negb_true_iff in Ha, Hb.
    change ((a :: t) ++ [q]) with (a :: (t ++ [q])).
    rewrite lstrip_with_keep by exact Ha.
    change (a :: (t ++ [q])) with ((a :: t) ++ [q]).
    rewrite rstrip_with_drop by exact Hq.
    rewrite (rev_cons_inv _ _ _ E). now apply rstrip_with_keep.
Qed.

Lemma split1_first c k v :
  contains_char c k = false -> split1 c (k ++ c :: v) = (k, v).
Proof.
  induction k as [|x k IH]; simpl; intros H.
  - now rewrite N.eqb_refl.
  - apply orb_false_iff in H as [Hx Hk]. rewrite N.eqb_sym, Hx.
    now rewrite IH.
Qed.

Lemma contains_char_app c a b :
  contains_char c (a ++ b) = contains_char c a || contains_char c b.
Proof. unfold contains_char. apply existsb_app. Qed.

Lemma contains_char_here c k v : contains_char c (k ++ c :: v) = true.
Proof.
  rewrite contains_char_app. simpl. rewrite N.eqb_refl.
  now rewrite orb_true_r.
Qed.

Lemma lstrip_with_incl p c s :
  contains_char c (lstrip_with p s) = true -> contains_char c s = true.
Proof.
  induction s as [|x s IH]; simpl; [easy|].
  destruct (p x); simpl; [|easy]. intros H. rewrite IH by exact H.
  now rewrite orb_true_r.
Qed.

Lemma contains_char_rev c s : contains_char c (rev s) = contains_char c s.
Proof.
  induction s as [|x s IH]; [reflexivity|]. simpl rev.
  rewrite contains_char_app, IH. simpl. rewrite orb_false_r. apply orb_comm.
Qed.

Lemma strip_with_incl p c s :
  contains_char c (strip_with p s) = true -> contains_char c s = true.
Proof.
  unfold strip_with, rstrip_with. rewrite contains_char_rev. intros H.
  apply lstrip_with_incl in H. rewrite contains_char_rev in H.
  now apply lstrip_with_incl in H.
Qed.

(** ** One line of the override file *)

Lemma parse_line_blank line : strip line = [] -> parse_line line = None.
Proof. intros H. unfold parse_line. now rewrite H. Qed.

Lemma parse_line_comment line :
  startswith_char HASH (strip line) = true -> parse_line line = None.
Proof.
  intros H. unfold parse_line. rewrite H.
  now rewrite orb_true_r.
Qed.

Lemma parse_line_no_equals line :
  contains_char EQUALS line = false -> parse_line line = None.
Proof.
  intros H. unfold parse_line.
  destruct (contains_char EQUALS (strip line)) eqn:E.
  - apply strip_with_incl in E. congruence.
  - now rewrite orb_true_r.
Qed.

Lemma parse_line_splits line k v :
  strip line = k ++ EQUALS :: v ->
  contains_char EQUALS k = false ->
  startswith_char HASH (strip line) = false ->
  parse_line line
  = Some (strip k, strip_char QUOTE (strip_char APOSTROPHE (strip v))).
Proof.
  intros Hs Hk Hc. unfold parse_line. rewrite Hc. rewrite Hs.
  rewrite contains_char_here, split1_first by exact Hk.
  destruct k; reflexivity.
Qed.

Lemma is_space_quote q : (q = QUOTE \/ q = APOSTROPHE) -> is_space q = false.
Proof. now intros [-> | ->]. Qed.

Lemma ends_free_wrapped p q t : p q = false -> ends_free p (q :: t ++ [q]) = true.
Proof.
  intros H. unfold ends_free.
  change (q :: t ++ [q]) with ((q :: t) ++ [q]). rewrite rev_app_distr.
  simpl. now rewrite H.
Qed.

Lemma unquote_wrapped q t :
  (q = QUOTE \/ q = APOSTROPHE) ->
  ends_free (N.eqb QUOTE) t = true ->
  ends_free (N.eqb APOSTROPHE) t = true ->
  strip_char QUOTE (strip_char APOSTROPHE (strip (q :: t ++ [q]))) = t.
Proof.
  intros Hq H1 H2. unfold strip, strip_char.
  rewrite (strip_with_ends_free is_space)
    by (apply ends_free_wrapped, is_space_quote, Hq).
  destruct Hq as [-> | ->].
  - rewrite (strip_with_ends_free (N.eqb APOSTROPHE))
      by now apply ends_free_wrapped.
    now apply strip_with_wrapped.
  - rewrite (strip_with_wrapped (N.eqb APOSTROPHE)) by easy.
    now apply strip_with_ends_free.
Qed.

(** ** The loop over the lines *)

Lemma load_lines_app a b m : load_lines (a ++ b) m = load_lines b (load_lines a m).
Proof. unfold load_lines. apply fold_left_app. Qed.

Lemma load_lines_cons l ls m :
  load_lines (l :: ls) m
  = load_lines ls (match parse_line l with
                   | None => m
                   | Some (k, v) => <[k := v]> m
                   end).
Proof. reflexivity. Qed.

Lemma load_lines_skip a l b m :
  parse_line l = None -> load_lines (a ++ l :: b) m = load_lines (a ++ b) m.
Proof.
  intros H. rewrite !load_lines_app, load_lines_cons. now rewrite H.
Qed.


Lemma load_lines_absent K ls m :
  no_line_for K ls -> load_lines ls m !! K = m !! K.
Proof.
  revert m. induction ls as [|l ls IH]; intros m H; [reflexivity|].
  rewrite load_lines_cons, IH.
  - destruct (parse_line l) as [[k v]|] eqn:E; [|reflexivity].
    apply lookup_insert_ne. intros ->. apply (H l v); [now left | exact E].
  - intros l' V Hin. apply H. now right.
Qed.

Lemma load_lines_last K V before l after m :
  parse_line l = Some (K, V) ->
  no_line_for K after ->
  load_lines (before ++ l :: after) m !! K = Some V.
Proof.
  intros Hl Ha. rewrite load_lines_app, load_lines_cons, Hl.
  rewrite load_lines_absent by exact Ha. apply lookup_insert_eq.
Qed.

Lemma load_env_file_text path w text :
  find path (fs w) = Some (File text) ->
  load_env_file path w = (Ret (load_lines (splitlines text) ∅), w, []).
Proof. intros H. unfold load_env_file. now rewrite H. Qed.

(** ** Blanks around a key and a value *)

Lemma lstrip_with_split p s :
  exists a, s = a ++ lstrip_with p s /\ forallb p a = true.
Proof.
  induction s as [|c s IH]; [now exists []|].
  simpl. destruct (p c) eqn:E.
  - destruct IH as (a & Hs & Ha). exists (c :: a). simpl.
    rewrite E, Ha. split; [now f_equal | reflexivity].
  - now exists [].
Qed.

Lemma lstrip_with_head p s c r : lstrip_with p s = c :: r -> p c = false.
Proof.
  induction s as [|x s IH]; simpl; [discriminate|].
  destruct (p x) eqn:E; [exact IH|]. now intros [= <- _].
Qed.

Lemma rstrip_with_split p s :
  exists b, s = rstrip_with p s ++ b /\ forallb p b = true.
Proof.
  unfold rstrip_with. destruct (lstrip_with_split p (rev s)) as (a & Hs & Ha).
  exists (rev a). split.
  - rewrite <- rev_app_distr, <- Hs. now rewrite rev_involutive.
  - rewrite forallb_forall in *. intros x Hx. apply Ha. now apply in_rev.
Qed.

Lemma strip_with_clean p s : ends_free p (strip_with p s) = true.
Proof.
  unfold strip_with, ends_free.
  destruct (rstrip_with p (lstrip_with p s)) as [|a r] eqn:E; [reflexivity|].
  destruct (rev (a :: r)) as [|b r'] eqn:Er; [reflexivity|].
  apply andb_true_iff. split; apply negb_true_iff.
  - destruct (rstrip_with_split p (lstrip_with p s)) as (t & Hs & _).
    rewrite E in Hs. simpl in Hs. now apply (lstrip_with_head p s a (r ++ t)).
  - unfold rstrip_with in E. rewrite <- E, rev_involutive in Er.
    now apply (lstrip_with_head p _ _ _ Er).
Qed.

Lemma rstrip_with_keeps_head p c s :
  p c = false -> exists r, rstrip_with p (c :: s) = c :: r.
Proof.
  intros Hc. destruct (rstrip_with_split p (c :: s)) as (b & Hs & Hb).
  destruct (rstrip_with p (c :: s)) as [|x r].
  - simpl in Hs. subst b. simpl in Hb. now rewrite Hc in Hb.
  - injection Hs as <- _. now exists r.
Qed.

Lemma ends_free_head p c s : ends_free p (c :: s) = true -> p c = false.
Proof.
  unfold ends_free. destruct (rev (c :: s)) eqn:E.
  - apply (f_equal (@length N)) in E. rewrite length_rev in E. discriminate.
  - intros H. apply andb_true_iff in H as [H _]. now apply negb_true_iff.
Qed.

Lemma ends_free_between p x s z :
  ends_free p (x :: s ++ [z]) = negb (p x) && negb (p z).
Proof.
  unfold ends_free. change (x :: s ++ [z]) with ((x :: s) ++ [z]).
  now rewrite rev_app_distr.
Qed.

Lemma ends_free_one p x : ends_free p [x] = negb (p x) && negb (p x).
Proof. reflexivity. Qed.

Lemma ends_free_final p s z : ends_free p (s ++ [z]) = true -> p z = false.
Proof.
  destruct s as [|x s]; simpl app.
  - rewrite ends_free_one. intros H. apply andb_true_iff in H as [H _].
    now apply negb_true_iff.
  - rewrite ends_free_between. intros H. apply andb_true_iff in H as [_ H].
    now apply negb_true_iff.
Qed.

Lemma lstrip_with_blanks p a s :
  forallb p a = true -> lstrip_with p (a ++ s) = lstrip_with p s.
Proof.
  induction a as [|c a IH]; [reflexivity|]. simpl.
  intros H. apply andb_true_iff in H as [Hc Ha]. rewrite Hc. now apply IH.
Qed.

Lemma rstrip_with_blanks p b s :
  forallb p b = true -> rstrip_with p (s ++ b) = rstrip_with p s.
Proof.
  intros H. unfold rstrip_with. rewrite rev_app_distr.
  rewrite lstrip_with_blanks; [reflexivity|].
  rewrite forallb_forall in *. intros x Hx. apply H. now apply in_rev.
Qed.

(** [s.strip(chars)] is what is between the characters of [chars] at the
    two ends of [s]. *)
Lemma strip_with_between p a t b :
  forallb p a = true -> forallb p b = true -> ends_free p t = true ->
  strip_with p (a ++ t ++ b) = t.
Proof.
  intros Ha Hb Ht. unfold strip_with. rewrite lstrip_with_blanks by exact Ha.
  destruct t as [|c t].
  - simpl app. rewrite <- (app_nil_r b), lstrip_with_blanks by exact Hb.
    reflexivity.
  - change ((c :: t) ++ b) with (c :: (t ++ b)).
    rewrite lstrip_with_keep by now apply (ends_free_head p c t).
    change (c :: (t ++ b)) with ((c :: t) ++ b).
    rewrite rstrip_with_blanks by exact Hb.
    pose proof (strip_with_ends_free p (c :: t) Ht) as Hs.
    unfold strip_with in Hs.
    rewrite lstrip_with_keep in Hs by now apply (ends_free_head p c t).
    exact Hs.
Qed.

Lemma blanks_hold_no c a :
  is_space c = false -> forallb is_space a = true -> contains_char c a = false.
Proof.
  intros Hc Ha. unfold contains_char.
  destruct (existsb (N.eqb c) a) eqn:E; [|reflexivity].
  apply existsb_exists in E as (x & Hx & Hcx). apply N.eqb_eq in Hcx. subst x.
  rewrite forallb_forall in Ha. specialize (Ha c Hx). congruence.
Qed.

(** Two texts with the same characters, put together differently. *)
Ltac same_text :=
  repeat (progress (simpl app; rewrite <- ?app_assoc)); reflexivity.

(** The stripped form of a line that is a key and a value with blanks
    around them. *)
Lemma strip_key_value a k0 b c v0 d :
  forallb is_space a = true -> forallb is_space b = true ->
  forallb is_space c = true -> forallb is_space d = true ->
  ends_free is_space k0 = true -> ends_free is_space v0 = true ->
  exists b' c',
    forallb is_space b' = true /\ forallb is_space c' = true
    /\ (k0 = [] -> b' = [])
    /\ strip (a ++ k0 ++ b ++ EQUALS :: c ++ v0 ++ d)
       = (k0 ++ b') ++ EQUALS :: (c' ++ v0).
Proof.
  intros Ha Hb Hc Hd Hk Hv. unfold strip.
  assert (Hsplit : v0 = [] \/ exists v' z, v0 = v' ++ [z]).
  { destruct (rev v0) as [|z r] eqn:E.
    - left. now rewrite <- (rev_involutive v0), E.
    - right. exists (rev r), z. now apply rev_cons_inv. }
  assert (Happ : forall x y : str, forallb is_space x = true ->
                   forallb is_space y = true -> forallb is_space (x ++ y) = true).
  { intros x y Hx Hy. rewrite forallb_app. now rewrite Hx, Hy. }
  destruct k0 as [|x k'], Hsplit as [-> | (v' & z & ->)].
  - exists [], []. repeat split; try reflexivity.
    change (a ++ [] ++ b ++ EQUALS :: c ++ [] ++ d)
      with (a ++ b ++ [EQUALS] ++ c ++ d).
    replace (a ++ b ++ [EQUALS] ++ c ++ d) with ((a ++ b) ++ [EQUALS] ++ (c ++ d))
      by same_text.
    apply strip_with_between; auto.
  - exists [], c. repeat split; try reflexivity; try assumption.
    pose proof (ends_free_final _ _ _ Hv) as Hz.
    replace (a ++ [] ++ b ++ EQUALS :: c ++ (v' ++ [z]) ++ d)
      with ((a ++ b) ++ (EQUALS :: (c ++ v') ++ [z]) ++ d)
      by same_text.
    replace (([] ++ []) ++ EQUALS :: c ++ v' ++ [z])
      with (EQUALS :: (c ++ v') ++ [z])
      by same_text.
    apply strip_with_between; auto.
    rewrite ends_free_between, Hz. reflexivity.
  - exists b, []. repeat split; try reflexivity; try assumption; try discriminate.
    pose proof (ends_free_head _ _ _ Hk) as Hx.
    replace (a ++ (x :: k') ++ b ++ EQUALS :: c ++ [] ++ d)
      with (a ++ (x :: (k' ++ b) ++ [EQUALS]) ++ (c ++ d))
      by same_text.
    replace (((x :: k') ++ b) ++ EQUALS :: [] ++ [])
      with (x :: (k' ++ b) ++ [EQUALS])
      by same_text.
    apply strip_with_between; auto.
    rewrite ends_free_between, Hx. reflexivity.
  - exists b, c. repeat split; try reflexivity; try assumption; try discriminate.
    pose proof (ends_free_head _ _ _ Hk) as Hx.
    pose proof (ends_free_final _ _ _ Hv) as Hz.
    replace (a ++ (x :: k') ++ b ++ EQUALS :: c ++ (v' ++ [z]) ++ d)
      with (a ++ (x :: (k' ++ b ++ EQUALS :: c ++ v') ++ [z]) ++ d)
      by same_text.
    replace (((x :: k') ++ b) ++ EQUALS :: c ++ v' ++ [z])
      with (x :: (k' ++ b ++ EQUALS :: c ++ v') ++ [z])
      by same_text.
    apply strip_with_between; auto.
    rewrite ends_free_between, Hx, Hz. reflexivity.
Qed.

(** A key and a value with blanks around them and around the [=]. *)
Lemma parse_line_key_value a k0 b c v0 d :
  forallb is_space a = true -> forallb is_space b = true ->
  forallb is_space c = true -> forallb is_space d = true ->
  ends_free is_space k0 = true -> ends_free is_space v0 = true ->
  contains_char EQUALS k0 = false ->
  startswith_char HASH k0 = false ->
  parse_line (a ++ k0 ++ b ++ EQUALS :: c ++ v0 ++ d)
  = Some (k0, strip_char QUOTE (strip_char APOSTROPHE v0)).
Proof.
  intros Ha Hb Hc Hd Hk Hv Hne Hnh.
  destruct (strip_key_value a k0 b c v0 d Ha Hb Hc Hd Hk Hv)
    as (b' & c' & Hb' & Hc' & Hempty & Hs).
  assert (Hk' : strip (k0 ++ b') = k0)
    by (apply (strip_with_between is_space [] k0 b'); auto).
  assert (Hv' : strip (c' ++ v0) = v0).
  { rewrite <- (app_nil_r v0) at 1.
    apply (strip_with_between is_space c' v0 []); auto. }
  rewrite (parse_line_splits _ (k0 ++ b') (c' ++ v0) Hs).
  - now rewrite Hk', Hv'.
  - rewrite contains_char_app, Hne. now apply blanks_hold_no.
  - rewrite Hs. destruct k0 as [|x k']; [|exact Hnh].
    rewrite (Hempty eq_refl). reflexivity.
Qed.

(** A line that is a comment after blanks. *)
Lemma parse_line_hash a rest :
  forallb is_space a = true -> parse_line (a ++ HASH :: rest) = None.
Proof.
  intros Ha. apply parse_line_comment. unfold strip, strip_with.
  rewrite lstrip_with_blanks by exact Ha.
  rewrite lstrip_with_keep by reflexivity.
  destruct (rstrip_with_keeps_head is_space HASH rest eq_refl) as (r & ->).
  reflexivity.
Qed.

(** A line of blanks only. *)
Lemma parse_line_blanks l : forallb is_space l = true -> parse_line l = None.
Proof.
  intros H. apply parse_line_blank.
  rewrite <- (app_nil_r l).
  now apply (strip_with_between is_space l [] []).
Qed.

(** What is left of a value between two quotes of a kind. *)
Lemma unquote_between q t :
  (q = QUOTE /\ ends_free (N.eqb QUOTE) t = true)
  \/ (q = APOSTROPHE
      /\ ends_free (N.eqb QUOTE) t = true
      /\ ends_free (N.eqb APOSTROPHE) t = true) ->
  strip_char QUOTE (strip_char APOSTROPHE (q :: t ++ [q])) = t.
Proof.
  unfold strip_char. intros [[-> H1] | (-> & H1 & H2)].
  - rewrite (strip_with_ends_free (N.eqb APOSTROPHE))
      by now apply ends_free_wrapped.
    now apply strip_with_wrapped.
  - rewrite (strip_with_wrapped (N.eqb APOSTROPHE)) by easy.
    now apply strip_with_ends_free.
Qed.

(** ** The override file as a whole *)

(** C8.  The config loader on any file contents.  For every regular file
    at [path], the loader returns normally, and for every line [l] of the
    text: when [l] is blank, or its stripped form starts with [#], or it
    holds no [=], the mapping is the one loaded from the other lines; when
    the stripped line is [k = v] with no [=] in [k] and no [#] at its
    start, the line assigns the stripped [v] without its quotes to the
    stripped [k], so the first [=] splits; and a stripped value that is a
    text [t] between two double quotes, [t] having no double quote at
    either end, or between two apostrophes, [t] having neither kind of
    quote at either end, is assigned as [t].  In the characters of the
    line itself: a line of blanks and a line whose first character after
    blanks is [#] assign nothing, and a key and a value with blanks before,
    after and around the [=] are assigned without these blanks.  Stripping
    is what it is in the source: [strip] takes the blanks off both ends and
    [strip(q)] every [q] off both ends. *)
Theorem config_parsing path w text before l after :
  find path (fs w) = Some (File text) ->
  splitlines text = before ++ l :: after ->
  exists m,
    load_env_file path w = (Ret m, w, [])
    /\ (strip l = []
        \/ startswith_char HASH (strip l) = true
        \/ contains_char EQUALS l = false ->
        m = load_lines (before ++ after) ∅)
    /\ (forall k v,
          strip l = k ++ EQUALS :: v ->
          contains_char EQUALS k = false ->
          startswith_char HASH (strip l) = false ->
          m = load_lines after
                (<[strip k := strip_char QUOTE (strip_char APOSTROPHE (strip v))]>
                   (load_lines before ∅))
          /\ forall q t,
               strip v = q :: t ++ [q] ->
               (q = QUOTE /\ ends_free (N.eqb QUOTE) t = true)
               \/ (q = APOSTROPHE
                   /\ ends_free (N.eqb QUOTE) t = true
                   /\ ends_free (N.eqb APOSTROPHE) t = true) ->
               m = load_lines after (<[strip k := t]> (load_lines before ∅)))
    /\ parse_line (u "FOO=" ++ [QUOTE] ++ u "bar" ++ [QUOTE])
       = Some (u "FOO", u "bar")
    /\ (forallb is_space l = true -> m = load_lines (before ++ after) ∅)
    /\ (forall a rest,
          l = a ++ HASH :: rest ->
          forallb is_space a = true ->
          m = load_lines (before ++ after) ∅)
    /\ (forall a k0 b c v0 d,
          l = a ++ k0 ++ b ++ EQUALS :: c ++ v0 ++ d ->
          forallb is_space a = true -> forallb is_space b = true ->
          forallb is_space c = true -> forallb is_space d = true ->
          ends_free is_space k0 = true -> ends_free is_space v0 = true ->
          contains_char EQUALS k0 = false ->
          startswith_char HASH k0 = false ->
          m = load_lines after
                (<[k0 := strip_char QUOTE (strip_char APOSTROPHE v0)]>
                   (load_lines before ∅)))
    /\ (forall a t b,
          forallb is_space a = true -> forallb is_space b = true ->
          ends_free is_space t = true ->
          strip (a ++ t ++ b) = t)
    /\ (forall q a t b,
          forallb (N.eqb q) a = true -> forallb (N.eqb q) b = true ->
          ends_free (N.eqb q) t = true ->
          strip_char q (a ++ t ++ b) = t).
Proof.
  intros Hf Hl. exists (load_lines (splitlines text) ∅).
  split; [now apply load_env_file_text|]. rewrite Hl.
  split; [|split; [|split; [reflexivity|split; [|split; [|split; [|split]]]]]].
  - intros H. apply load_lines_skip.
    destruct H as [H | [H | H]].
    + now apply parse_line_blank.
    + now apply parse_line_comment.
    + now apply parse_line_no_equals.
  - intros k v Hs Hk Hc.
    pose proof (parse_line_splits l k v Hs Hk Hc) as Hp.
    split.
    + now rewrite load_lines_app, load_lines_cons, Hp.
    + intros q t Hv Hq.
      rewrite load_lines_app, load_lines_cons, Hp, Hv.
      now rewrite unquote_between.
  - intros H. apply load_lines_skip. now apply parse_line_blanks.
  - intros a rest -> Ha. apply load_lines_skip. now apply parse_line_hash.
  - intros a k0 b c v0 d -> Ha Hb Hc Hd Hk Hv Hne Hnh.
    rewrite load_lines_app, load_lines_cons.
    now rewrite (parse_line_key_value a k0 b c v0 d).
  - intros a t b. apply strip_with_between.
  - intros q a t b. apply strip_with_between.
Qed.


Lemma config_parsing_witness :
  exists m,
    load_env_file [u ".env"] foo_bar_world = (Ret m, foo_bar_world, [])
    /\ m !! u "FOO" = Some (u "bar").
Proof.
  destruct (config_parsing [u ".env"] foo_bar_world
              (u "  # comment" ++ [LF] ++ foo_bar_line ++ [LF] ++ u "plain" ++ [LF])
              [u "  # comment"] foo_bar_line [u "plain"]
              eq_refl eq_refl) as (m & Hm & _ & Hq & _).
  exists m. split; [exact Hm|].
  destruct (Hq (u "FOO") ([QUOTE] ++ u "bar" ++ [QUOTE]) eq_refl eq_refl eq_refl)
    as [_ Hbar].
  rewrite (Hbar QUOTE (u "bar") eq_refl (or_introl (conj eq_refl eq_refl))).
  vm_compute. reflexivity.
Defined.

(** C10.  A key on several lines: whatever the earlier lines assign, the
    mapping holds the value of the last line that assigns the key, and the
    loader returns normally without printing anything. *)
Theorem duplicate_key_last_wins path w text before l after K V :
  find path (fs w) = Some (File text) ->
  splitlines text = before ++ l :: after ->
  parse_line l = Some (K, V) ->
  no_line_for K after ->
  exists m,
    load_env_file path w = (Ret m, w, [])
    /\ m !! K = Some V.
Proof.
  intros Hf Hl Hp Ha. exists (load_lines (splitlines text) ∅).
  split; [now apply load_env_file_text|].
  rewrite Hl. now apply load_lines_last.
Qed.


Lemma skips_key_sound K ls : skips_key K ls = true -> no_line_for K ls.
Proof.
  unfold skips_key. rewrite forallb_forall. intros H l V Hin Hp.
  specialize (H l Hin). rewrite Hp in H.
  apply negb_true_iff, bool_decide_eq_false in H. now apply H.
Qed.

Lemma duplicate_key_last_wins_witness :
  exists m,
    load_env_file [u "repo"; u ".env"] fresh_world = (Ret m, fresh_world, [])
    /\ m !! u "ANDROID_NDK" = Some (u "27.0").
Proof.
  apply (duplicate_key_last_wins [u "repo"; u ".env"] fresh_world sample_env_text
           [u "# toolchain pins"; [];
            u "FLUTTER_CHANNEL=" ++ [QUOTE] ++ u "beta" ++ [QUOTE];
            u "ANDROID_NDK=25.0"; u "not a pair"]
           (u "ANDROID_NDK = 27.0") []).
  - reflexivity.
  - reflexivity.
  - reflexivity.
  - apply skips_key_sound. reflexivity.
Defined.

(** C4.  Overrides before defaults.  Without a file at [path] the loader
    returns the empty mapping and raises nothing, and [get] gives every
    key its default.  With a regular file there, [get K D] is [D] when no
    line of the file assigns [K], and it is [V] when a line assigns [V] to
    [K] and no later line assigns [K] again. *)
Theorem config_precedence path w K D :
  (find path (fs w) = None ->
   load_env_file path w = (Ret ∅, w, []) /\ dict_get ∅ K D = D)
  /\ (forall text,
        find path (fs w) = Some (File text) ->
        exists m,
          load_env_file path w = (Ret m, w, [])
          /\ (no_line_for K (splitlines text) -> dict_get m K D = D)
          /\ (forall before l after V,
                splitlines text = before ++ l :: after ->
                parse_line l = Some (K, V) ->
                no_line_for K after ->
                dict_get m K D = V)).
Proof.
  split.
  - intros H. unfold load_env_file. rewrite H. split; reflexivity.
  - intros text H. exists (load_lines (splitlines text) ∅).
    split; [now apply load_env_file_text|]. split.
    + intros Hn. unfold dict_get. now rewrite load_lines_absent.
    + intros before l after V Hl Hp Ha. unfold dict_get.
      rewrite Hl. now rewrite (load_lines_last K V).
Qed.

Lemma config_precedence_witness :
  (load_env_file [u "nowhere"] fresh_world = (Ret ∅, fresh_world, [])
   /\ dict_get ∅ (u "FLUTTER_CHANNEL") (u "stable") = u "stable")
  /\ exists m,
       load_env_file [u "repo"; u ".env"] fresh_world = (Ret m, fresh_world, [])
       /\ dict_get m (u "FLUTTER_CHANNEL") (u "stable") = u "beta".
Proof.
  destruct (config_precedence [u "nowhere"] fresh_world
              (u "FLUTTER_CHANNEL") (u "stable")) as [Hnone _].
  split; [exact (Hnone eq_refl)|].
  destruct (config_precedence [u "repo"; u ".env"] fresh_world
              (u "FLUTTER_CHANNEL") (u "stable")) as [_ Hsome].
  destruct (Hsome sample_env_text eq_refl) as (m & Hm & _ & Hlast).
  exists m. split; [exact Hm|].
  apply (Hlast [u "# toolchain pins"; []]
               (u "FLUTTER_CHANNEL=" ++ [QUOTE] ++ u "beta" ++ [QUOTE])
               [u "ANDROID_NDK=25.0"; u "not a pair"; u "ANDROID_NDK = 27.0"]).
  - reflexivity.
  - reflexivity.
  - apply skips_key_sound. reflexivity.
Defined.

(** ** Steps whose marker is present *)

Lemma install_flutter_present h flutter_root env_map w :
  exists_in (flutter_bin h flutter_root) (fs w) = true ->
  install_flutter h flutter_root env_map w
  = (Ret tt, w, [Log (u "Flutter already present at " ++ path_str h flutter_root)]).
Proof.
  intros H. unfold install_flutter, bind, path_exists. rewrite H. reflexivity.
Qed.

Lemma install_android_cmdline_present h android_sdk env_map w :
  exists_in (sdkmanager_bin h android_sdk) (fs w) = true ->
  install_android_cmdline h android_sdk env_map w
  = (Ret tt, w, [Log (u "Android cmdline-tools already present.")]).
Proof.
  intros H. unfold install_android_cmdline, bind, path_exists. rewrite H.
  reflexivity.
Qed.

(** C1.  A step whose marker path exists only prints that the tool is
    present: it returns at once, the world (the directory tree with it) is
    the one it started in, and its trace holds no subprocess, directory
    creation, download, extraction or copy.  So running the two steps over
    a tree that holds both markers leaves the tree as it was. *)
Theorem marker_present_skips h flutter_root android_sdk env_map w :
  (exists_in (flutter_bin h flutter_root) (fs w) = true ->
   install_flutter h flutter_root env_map w
   = (Ret tt, w,
      [Log (u "Flutter already present at " ++ path_str h flutter_root)]))
  /\ (exists_in (sdkmanager_bin h android_sdk) (fs w) = true ->
      install_android_cmdline h android_sdk env_map w
      = (Ret tt, w, [Log (u "Android cmdline-tools already present.")]))
  /\ (exists_in (flutter_bin h flutter_root) (fs w) = true ->
      exists_in (sdkmanager_bin h android_sdk) (fs w) = true ->
      (install_flutter h flutter_root env_map >>
       install_android_cmdline h android_sdk env_map) w
      = (Ret tt, w,
         [Log (u "Flutter already present at " ++ path_str h flutter_root);
          Log (u "Android cmdline-tools already present.")])).
Proof.
  split; [apply install_flutter_present|].
  split; [apply install_android_cmdline_present|].
  intros Hf Hs. unfold bind at 1.
  rewrite install_flutter_present by exact Hf.
  rewrite install_android_cmdline_present by exact Hs.
  reflexivity.
Qed.

Lemma marker_present_skips_witness :
  (install_flutter (sample_host false all_succeed) sample_flutter_root ∅ >>
   install_android_cmdline (sample_host false all_succeed) sample_android_sdk ∅)
    installed_world
  = (Ret tt, installed_world,
     [Log (u "Flutter already present at "
           ++ path_str (sample_host false all_succeed) sample_flutter_root);
      Log (u "Android cmdline-tools already present.")]).
Proof.
  apply (marker_present_skips (sample_host false all_succeed)
           sample_flutter_root sample_android_sdk ∅ installed_world);
    reflexivity.
Defined.

(** ** Subprocesses *)

Arguments u : simpl never.

Lemma pair_eta3 {A} (x : res A * World * list event) :
  (let '(r, w, t) := x in (r, w, [] ++ t)) = x.
Proof. now destruct x as [[r w] t]. Qed.

(** The three ways [run_checked] can go. *)
Lemma run_checked_cases h c w :
  (exists text w',
      spawn h c w = (Exited 0 text, w')
      /\ run_checked h c w = (Ret tt, w', [Spawn c (Exited 0 text); Out text]))
  \/ (exists rc text w',
         rc <> 0%Z
         /\ spawn h c w = (Exited rc text, w')
         /\ run_checked h c w
            = (Raise (RuntimeError (u "Command failed: " ++ repr_list h (argv c))),
               w', [Spawn c (Exited rc text); Err text]))
  \/ (exists why w',
         spawn h c w = (NotStarted why, w')
         /\ run_checked h c w
            = (Raise (OSError why), w', [Spawn c (NotStarted why)])).
Proof.
  unfold run_checked, bind, popen.
  destruct (spawn h c w) as [[rc text | why] w'] eqn:E.
  - destruct (Z.eqb_spec rc 0) as [-> | Hrc].
    + left. exists text, w'. split; reflexivity.
    + right; left. exists rc, text, w'.
      split; [exact Hrc | split; reflexivity].
  - right; right. exists why, w'. split; reflexivity.
Qed.

Ltac nonzero_codes :=
  repeat match goal with
         | H : _ <> 0%Z |- _ => apply Z.eqb_neq in H; rewrite ?H
         end.

(** Take the next [run_checked] of the goal apart. *)
Ltac run_checked_step :=
  match goal with
  | |- context [run_checked ?h ?c ?w] =>
      let text := fresh "text" in
      let w' := fresh "w" in
      let rc := fresh "rc" in
      let why := fresh "why" in
      let Hrc := fresh "Hrc" in
      let Hs := fresh "Hspawn" in
      let Hr := fresh "Hrun" in
      destruct (run_checked_cases h c w)
        as [(text & w' & Hs & Hr)
           | [(rc & text & w' & Hrc & Hs & Hr) | (why & w' & Hs & Hr)]];
      rewrite Hr; clear Hr; cbn [app spawned all_exited_zero]
  end.

Lemma channel_key_is_not_ref : u "FLUTTER_CHANNEL" <> u "FLUTTER_REF".
Proof. discriminate. Qed.

(** ** Installing the version-controlled tool *)

(** C6.  With the marker absent, the subprocesses of the step are
    these.  For a ref that is not empty after trimming: the depth-1 clone
    without a branch, then the depth-1 fetch of the ref, then its checkout,
    in this order and nothing else, none after one that did not exit with
    code 0; all three when the step returns; the clone for
    certain when the parent of the tool root can be made, and then the step
    returns exactly when every call exits with code 0; and the run is the
    same whatever the channel is.  For an empty ref: the one depth-1 clone
    of the channel branch.  The calls are spelled out: [git clone --depth 1]
    of the repository into the tool root, with [-b] and the channel only in
    the clone by channel; [git fetch origin] of the ref with [--depth 1] and
    [git checkout] of the ref, both run in the tool root; none of them is
    given an environment or an input. *)
Theorem ref_takes_precedence h flutter_root env_map w :
  exists_in (flutter_bin h flutter_root) (fs w) = false ->
  let ref := strip (dict_get env_map (u "FLUTTER_REF") []) in
  let channel := dict_get env_map (u "FLUTTER_CHANNEL") (u "stable") in
  let run := install_flutter h flutter_root env_map w in
  let r := fst (fst run) in
  let t := snd run in
  let by_ref :=
    [git_clone_default h flutter_root;
     git_fetch_ref h flutter_root ref;
     git_checkout_ref h flutter_root ref] in
  let by_channel := [git_clone_channel h flutter_root channel] in
  stops_at_failure t = true
  /\ (ref <> [] ->
   (exists n, spawned t = firstn n by_ref)
   /\ (r = Ret tt -> spawned t = by_ref)
   /\ (forall d,
         mkdir_p (parent flutter_root) (fs w) = Some d ->
         (exists n, spawned t = firstn (S n) by_ref)
         /\ (all_exited_zero t = true -> r = Ret tt))
   /\ forall c,
        install_flutter h flutter_root (<[u "FLUTTER_CHANNEL" := c]> env_map) w
        = run)
  /\ (ref = [] ->
      (exists n, spawned t = firstn n by_channel)
      /\ (r = Ret tt -> spawned t = by_channel)
      /\ (forall d,
            mkdir_p (parent flutter_root) (fs w) = Some d ->
            spawned t = by_channel
            /\ (all_exited_zero t = true -> r = Ret tt)))
  /\ map argv by_ref
     = [[u "git"; u "clone"; u "--depth"; u "1";
         u "https://github.com/flutter/flutter"; path_str h flutter_root];
        [u "git"; u "fetch"; u "origin"; ref; u "--depth"; u "1"];
        [u "git"; u "checkout"; ref]]
  /\ map call_cwd by_ref
     = [None; Some (path_str h flutter_root); Some (path_str h flutter_root)]
  /\ map argv by_channel
     = [[u "git"; u "clone"; u "--depth"; u "1"; u "-b"; channel;
         u "https://github.com/flutter/flutter"; path_str h flutter_root]]
  /\ map call_cwd by_channel = [None]
  /\ map call_env (by_ref ++ by_channel) = [None; None; None; None]
  /\ map call_input (by_ref ++ by_channel) = [None; None; None; None].
Proof.
  intros Hm. cbv zeta.
  remember (strip (dict_get env_map (u "FLUTTER_REF") [])) as ref eqn:Eref.
  assert (Hrun : forall m,
             strip (dict_get m (u "FLUTTER_REF") []) = ref ->
             install_flutter h flutter_root m w
             = (log (u "Installing Flutter into " ++ path_str h flutter_root ++ u " ...") >>
                mkdir (parent flutter_root) >>
                match ref with
                | _ :: _ =>
                    run_checked h (git_clone_default h flutter_root) >>
                    run_checked h (git_fetch_ref h flutter_root ref) >>
                    run_checked h (git_checkout_ref h flutter_root ref)
                | [] =>
                    run_checked h
                      (git_clone_channel h flutter_root
                         (dict_get m (u "FLUTTER_CHANNEL") (u "stable")))
                end) w).
  { intros m Hmref. unfold install_flutter. unfold bind at 1.
    unfold path_exists at 1. rewrite Hm. rewrite Hmref. apply pair_eta3. }
  split; [|split; [|split; [|repeat split]]].
  - rewrite (Hrun env_map (eq_sym Eref)).
    unfold bind, log, emit, mkdir.
    destruct (mkdir_p (parent flutter_root) (fs w)) as [d0|]; [|reflexivity].
    destruct ref as [|a ref'].
    + run_checked_step; cbn; nonzero_codes; reflexivity.
    + run_checked_step; [run_checked_step; [run_checked_step | | ] | | ].
      all: cbn; nonzero_codes; reflexivity.
  - intros Href.
    assert (Hsame : forall c,
               install_flutter h flutter_root (<[u "FLUTTER_CHANNEL" := c]> env_map) w
               = install_flutter h flutter_root env_map w).
    { intros c. rewrite !Hrun.
      - destruct ref; [congruence | reflexivity].
      - now symmetry.
      - unfold dict_get.
        rewrite lookup_insert_ne by apply channel_key_is_not_ref.
        now symmetry. }
    split; [|split; [|split; [|exact Hsame]]].
    all: rewrite (Hrun env_map (eq_sym Eref)).
    all: destruct ref as [|a ref']; [congruence|].
    all: unfold bind, log, emit, mkdir.
    all: destruct (mkdir_p (parent flutter_root) (fs w)) as [d0|];
      [| cbn; try solve [exists 0%nat; reflexivity]; intros; discriminate].
    all: try (intros d _).
    all: run_checked_step; [run_checked_step; [run_checked_step | | ] | | ].
    all: cbn; nonzero_codes; cbn.
    all: try solve [intros; congruence].
    all: try solve [exists 3%nat; reflexivity].
    all: try solve [exists 2%nat; reflexivity].
    all: try solve [exists 1%nat; reflexivity].
    all: split; try solve [intros; congruence].
    all: try solve [exists 2%nat; reflexivity].
    all: try solve [exists 1%nat; reflexivity].
    all: try solve [exists 0%nat; reflexivity].
  - intros Href. rewrite (Hrun env_map (eq_sym Eref)). rewrite Href.
    unfold bind, log, emit, mkdir.
    destruct (mkdir_p (parent flutter_root) (fs w)) as [d0|].
    + run_checked_step; cbn; nonzero_codes; cbn.
      all: split; [exists 1%nat; reflexivity|].
      all: split; [intros; congruence|].
      all: intros d _; split; [reflexivity | intros; congruence].
    + cbn. split; [exists 0%nat; reflexivity|].
      split; [discriminate|]. discriminate.
Qed.

(** ** Installing the SDK components *)

(** The step once [sdkmanager] is found. *)
Lemma install_android_packages_found h android_sdk env_map flutter_root w :
  exists_in (sdkmanager_bin h android_sdk) (fs w) = true ->
  let env := android_env h android_sdk (environ w) in
  install_android_packages h android_sdk env_map flutter_root w
  = (log (u "Accepting Android licenses...") >>
     try_except
       (run_checked h (licenses_call h android_sdk env))
       (fun e => err (u "License acceptance had warnings: " ++ exn_str e)) >>
     log (u "Installing Android SDK components...") >>
     run_checked h (packages_call h android_sdk env_map env) >>
     log (u "Configuring Flutter and precaching artifacts...") >>
     run_checked h (flutter_config_call h android_sdk flutter_root env) >>
     run_checked h (precache_call h flutter_root env)) w.
Proof.
  intros H env. unfold install_android_packages.
  unfold bind at 1. unfold get_world at 1. unfold bind at 1.
  unfold path_exists at 1. rewrite H. cbn [negb].
  rewrite !pair_eta3. reflexivity.
Qed.

Lemma install_android_packages_not_found h android_sdk env_map flutter_root w :
  exists_in (sdkmanager_bin h android_sdk) (fs w) = false ->
  install_android_packages h android_sdk env_map flutter_root w
  = (Raise (RuntimeError (u "sdkmanager not found at "
                          ++ path_str h (sdkmanager_bin h android_sdk))),
     w, []).
Proof.
  intros H. unfold install_android_packages.
  unfold bind at 1. unfold get_world at 1. unfold bind at 1.
  unfold path_exists at 1. rewrite H. reflexivity.
Qed.

(** Go through the whole step, one subprocess after the other. *)
Ltac walk_packages h android_sdk w :=
  destruct (exists_in (sdkmanager_bin h android_sdk) (fs w)) eqn:?Hfound;
  [ rewrite install_android_packages_found by assumption;
    unfold bind, try_except, log, err, emit;
    run_checked_step;
    cbn [is_Exception exn_str app];
    (run_checked_step;
     [ run_checked_step; [ run_checked_step | | ] | | ])
  | rewrite install_android_packages_not_found by assumption ];
  cbn [fst snd app spawned all_exited_zero In].

(** Two calls of the step are never the same call. *)
Ltac distinct_calls :=
  unfold licenses_call, packages_call, flutter_config_call, precache_call,
    precache_args, android_pkgs in *;
  match goal with
  | h : Host |- _ => destruct (is_windows h)
  end;
  cbn [app] in *; congruence.

(** C2.  In an execution of the step whose package-installation
    subprocess exits with a code other than 0, the step raises the
    [RuntimeError] of [run_checked] and whatever follows the step does not
    run; the subprocesses of the step are the licence call and the package
    call only, so neither the [config] nor the [precache] call of the tool
    is among them. *)
Theorem package_failure_aborts h android_sdk env_map flutter_root w rc text :
  let env := android_env h android_sdk (environ w) in
  let pkgs := packages_call h android_sdk env_map env in
  let run := install_android_packages h android_sdk env_map flutter_root w in
  let failure :=
    RuntimeError (u "Command failed: " ++ repr_list h (argv pkgs)) in
  In (Spawn pkgs (Exited rc text)) (snd run) ->
  rc <> 0%Z ->
  fst (fst run) = Raise failure
  /\ spawned (snd run) = [licenses_call h android_sdk env; pkgs]
  /\ ~ In (flutter_config_call h android_sdk flutter_root env) (spawned (snd run))
  /\ ~ In (precache_call h flutter_root env) (spawned (snd run))
  /\ forall (B : Type) (rest : unit -> M B),
       bind (install_android_packages h android_sdk env_map flutter_root) rest w
       = (Raise failure, snd (fst run), snd run).
Proof.
  cbv zeta. intros Hin Hrc.
  assert (Hgoal :
    fst (fst (install_android_packages h android_sdk env_map flutter_root w))
    = Raise (RuntimeError
               (u "Command failed: "
                ++ repr_list h
                     (argv (packages_call h android_sdk env_map
                              (android_env h android_sdk (environ w))))))
    /\ spawned (snd (install_android_packages h android_sdk env_map flutter_root w))
       = [licenses_call h android_sdk (android_env h android_sdk (environ w));
          packages_call h android_sdk env_map
            (android_env h android_sdk (environ w))]).
  { revert Hin. walk_packages h android_sdk w.
    all: intros Hin.
    all: try solve [split; reflexivity].
    all: exfalso.
    all: repeat match goal with
                | H : _ \/ _ |- _ => destruct H as [H | H]
                | H : False |- _ => destruct H
                end.
    all: try discriminate.
    all: try (match goal with
              | H : Spawn _ _ = Spawn _ _ |- _ => injection H as Hc Ho
              end).
    all: try congruence.
    all: try solve [exfalso; distinct_calls]. }
  destruct Hgoal as [Hr Hs].
  split; [exact Hr|]. split; [exact Hs|].
  split; [|split].
  - rewrite Hs. cbn [In]. intros [H | [H | []]]; distinct_calls.
  - rewrite Hs. cbn [In]. intros [H | [H | []]]; distinct_calls.
  - intros B rest. unfold bind.
    destruct (install_android_packages h android_sdk env_map flutter_root w)
      as [[r w'] t].
    cbn [fst snd] in *. now rewrite Hr.
Qed.

(** C3.  In an execution of the step whose licence-acceptance
    subprocess exits with a code other than 0, the step goes on: its trace
    starts with the licence call, the output and the warning on the error
    stream, and then the package-installation call; and when every later
    subprocess exits with code 0 the step returns normally. *)
Theorem license_failure_contained h android_sdk env_map flutter_root w rc text :
  let env := android_env h android_sdk (environ w) in
  let lic := licenses_call h android_sdk env in
  let run := install_android_packages h android_sdk env_map flutter_root w in
  In (Spawn lic (Exited rc text)) (snd run) ->
  rc <> 0%Z ->
  exists o rest,
    snd run
    = [Log (u "Accepting Android licenses...");
       Spawn lic (Exited rc text);
       Err text;
       Err (u "License acceptance had warnings: "
            ++ u "Command failed: " ++ repr_list h (argv lic));
       Log (u "Installing Android SDK components...");
       Spawn (packages_call h android_sdk env_map env) o] ++ rest
    /\ (all_exited_zero (Spawn (packages_call h android_sdk env_map env) o :: rest)
        = true ->
        fst (fst run) = Ret tt).
Proof.
  cbv zeta. walk_packages h android_sdk w.
  all: intros Hin Hnz.
  all: repeat match goal with
              | H : _ \/ _ |- _ => destruct H as [H | H]
              | H : False |- _ => destruct H
              end.
  all: try discriminate.
  all: try (match goal with
            | H : Spawn _ _ = Spawn _ _ |- _ => injection H; clear H; intros
            end).
  all: try congruence.
  all: try solve [exfalso; distinct_calls].
  all: subst.
  all: do 2 eexists; (split; [reflexivity|]).
  all: cbn [all_exited_zero]; nonzero_codes; cbn; congruence.
Qed.

Lemma precache_args_flags h :
  In (u "--android") (precache_args h)
  /\ (In (u "--windows") (precache_args h) <-> is_windows h = true).
Proof.
  unfold precache_args. destruct (is_windows h); cbn [app In].
  - split; [now left|]. split; [reflexivity | intros _; right; now left].
  - split; [now left|]. split; [|discriminate].
    intros [H | []]. discriminate H.
Qed.

(** C9.  The [precache] call of the step.  Its flags always hold the
    mobile one and hold the desktop one exactly on a windows-family host,
    where they are both; every subprocess of the step whose first argument
    is [precache] is this call; and a step that returns has run it last. *)
Theorem precache_flags h android_sdk env_map flutter_root w :
  let env := android_env h android_sdk (environ w) in
  let run := install_android_packages h android_sdk env_map flutter_root w in
  let precache := precache_call h flutter_root env in
  argv precache
  = path_str h (flutter_bin h flutter_root) :: u "precache" :: precache_args h
  /\ In (u "--android") (precache_args h)
  /\ (In (u "--windows") (precache_args h) <-> is_windows h = true)
  /\ (is_windows h = true -> precache_args h = [u "--android"; u "--windows"])
  /\ (forall c o,
        In (Spawn c o) (snd run) ->
        nth 1 (argv c) [] = u "precache" ->
        c = precache)
  /\ (fst (fst run) = Ret tt ->
      exists before text,
        snd run = before ++ [Spawn precache (Exited 0 text); Out text]).
Proof.
  cbv zeta. split; [reflexivity|].
  split; [apply precache_args_flags|]. split; [apply precache_args_flags|].
  split; [intros H; unfold precache_args; now rewrite H|].
  split.
  - intros c o. walk_packages h android_sdk w.
    all: intros Hin Hpre.
    all: repeat match goal with
                | H : _ \/ _ |- _ => destruct H as [H | H]
                | H : False |- _ => destruct H
                end.
    all: try discriminate.
    all: injection Hin as <- <-.
    all: try reflexivity.
    all: exfalso; revert Hpre.
    all: unfold licenses_call, packages_call, flutter_config_call,
           sdk_root_arg; cbn [argv nth].
    all: discriminate.
  - walk_packages h android_sdk w.
    all: try discriminate.
    all: intros _.
    all: match goal with
         | |- exists before text, ?l = _ =>
             exists (removelast (removelast l))
         end.
    all: eexists; cbn [removelast app]; reflexivity.
Qed.

(** ** Prerequisites *)

(** C7, what the code does.  With [git] found and [java] not found, also
    after the unattended install a windows-family host with [winget]
    attempts (however that attempt ends), the step exits with the message
    [java_missing].  That message names the install command of the other
    family only: it holds no [winget] command and no [Windows:] line,
    unlike [git_missing], which names one command per family. *)
Theorem java_missing_names_one_command h w :
  u "git" ∈ on_path w ->
  u "java" ∉ on_path w ->
  let attempt := is_windows h && bool_decide (u "winget" ∈ on_path w) in
  let w' := if attempt then snd (spawn h (cmd winget_openjdk) w) else w in
  u "java" ∉ on_path w' ->
  fst (fst (ensure_prereqs h w)) = Raise (SystemExit java_missing)
  /\ snd (fst (ensure_prereqs h w)) = w'
  /\ is_infix (u "Linux: sudo apt install openjdk-17-jdk") java_missing = true
  /\ is_infix (u "winget") java_missing = false
  /\ is_infix (u "Windows") java_missing = false
  /\ is_infix (u "Windows: winget install -e --id Git.Git") git_missing = true
  /\ is_infix (u "Linux: sudo apt install git") git_missing = true.
Proof.
  intros Hgit Hjava. cbv zeta. intros Hstill.
  split; [|split; [|repeat split; vm_compute; reflexivity]].
  all: revert Hstill.
  all: unfold ensure_prereqs, bind, have_cmd.
  all: rewrite (bool_decide_eq_true_2 _ Hgit); cbn [negb].
  all: rewrite (bool_decide_eq_false_2 _ Hjava); cbn [negb].
  all: destruct (is_windows h); cbn [andb].
  all: try destruct (bool_decide (u "winget" ∈ on_path w)).
  all: unfold try_except, log, emit, ret.
  all: try run_checked_step.
  all: try (rewrite Hspawn).
  all: cbn [is_Exception snd fst].
  all: intros Hstill; rewrite (bool_decide_eq_false_2 _ Hstill).
  all: reflexivity.
Qed.

(** ** The directory tree *)

Lemma node_induction (P : node -> Prop) :
  (forall data, P (File data)) ->
  (forall es, Forall (fun e => P (snd e)) es -> P (Dir es)) ->
  forall x, P x.
Proof.
  intros HF HD. fix IH 1. intros [data | es].
  - apply HF.
  - apply HD. induction es as [|[n c] es IHes].
    + constructor.
    + constructor; [apply IH | exact IHes].
Qed.

Lemma lookup_set_entry_eq n x d : lookup_entry n (set_entry n x d) = Some x.
Proof.
  induction d as [|[n' y] d IH]; simpl.
  - now rewrite decide_True.
  - destruct (decide (n' = n)) as [-> | Hne]; simpl.
    + now rewrite decide_True.
    + now rewrite decide_False.
Qed.

Lemma lookup_set_entry_ne n n' x d :
  n <> n' -> lookup_entry n' (set_entry n x d) = lookup_entry n' d.
Proof.
  intros Hne. induction d as [|[m y] d IH]; simpl.
  - now rewrite decide_False.
  - destruct (decide (m = n)) as [-> | Hm]; simpl.
    + now rewrite !decide_False.
    + destruct (decide (m = n')); [reflexivity | exact IH].
Qed.

Lemma set_entry_same n x d : lookup_entry n d = Some x -> set_entry n x d = d.
Proof.
  induction d as [|[m y] d IH]; simpl; [discriminate|].
  destruct (decide (m = n)) as [-> | Hm].
  - now intros [= ->].
  - intros H. now rewrite IH.
Qed.

Lemma lookup_entry_In n x d : lookup_entry n d = Some x -> In (n, x) d.
Proof.
  induction d as [|[m y] d IH]; simpl; [discriminate|].
  destruct (decide (m = n)) as [-> | Hm].
  - intros [= ->]. now left.
  - intros H. right. now apply IH.
Qed.

Lemma lookup_entry_None n d : lookup_entry n d = None -> ~ In n (map fst d).
Proof.
  induction d as [|[m y] d IH]; simpl; [tauto|].
  destruct (decide (m = n)) as [-> | Hm]; [discriminate|].
  intros H [Hm' | Hin]; [congruence | now apply IH].
Qed.

Lemma lookup_entry_not_In n d : ~ In n (map fst d) -> lookup_entry n d = None.
Proof.
  induction d as [|[m y] d IH]; simpl; [reflexivity|].
  intros H. rewrite decide_False by tauto. apply IH. tauto.
Qed.

Lemma find_app p q d :
  find (p ++ q) d
  = match find p d with
    | Some x => find_node q x
    | None => None
    end.
Proof.
  unfold find. generalize (Dir d) as x.
  induction p as [|n p IH]; intros x; [reflexivity|].
  simpl. destruct x as [data | s]; [reflexivity|].
  destruct (lookup_entry n s); [apply IH | reflexivity].
Qed.

(** ** Copying a tree *)

Lemma copy_node_dir name es d :
  copy_node name (Dir es) d
  = match lookup_entry name d with
    | Some (File _) => (d, true)
    | o =>
        let sub0 := match o with Some (Dir s) => s | _ => [] end in
        let '(sub, failed) := copy_each es (sub0, false) in
        (set_entry name (Dir sub) d, failed)
    end.
Proof.
  assert (Heach : forall es acc,
             (fix each (es : entries) (acc : entries * bool) {struct es}
                : entries * bool :=
                match es with
                | [] => acc
                | (n, c) :: es' =>
                    let '(s, f) := copy_node n c (fst acc) in
                    each es' (s, snd acc || f)
                end) es acc = copy_each es acc).
  { clear. induction es as [|[n c] es IH]; intros acc; [reflexivity|].
    simpl. destruct (copy_node n c (fst acc)). apply IH. }
  simpl. rewrite Heach. reflexivity.
Qed.

Lemma file_at_node_cons n p s :
  file_at_node (n :: p) (Dir s)
  = match lookup_entry n s with
    | Some y => file_at_node p y
    | None => None
    end.
Proof. unfold file_at_node. simpl. now destruct (lookup_entry n s). Qed.

Lemma dir_at_node_cons n p s :
  dir_at_node (n :: p) (Dir s)
  = match lookup_entry n s with
    | Some y => dir_at_node p y
    | None => false
    end.
Proof. unfold dir_at_node. simpl. now destruct (lookup_entry n s). Qed.


Lemma same_kinds_ext name item d1 d2 :
  lookup_entry name d1 = lookup_entry name d2 ->
  same_kinds name item d1 = same_kinds name item d2.
Proof. intros H. destruct item; simpl; now rewrite H. Qed.

Lemma same_kinds_nil name item : same_kinds name item [] = true.
Proof. now destruct item. Qed.

Lemma copy_each_merges es :
  Forall (fun e => forall name d,
              unique_names (snd e) = true ->
              same_kinds name (snd e) d = true ->
              exists d', copied name (snd e) d d') es ->
  forall s0,
    NoDup (map fst es) ->
    forallb (fun e => unique_names (snd e)) es = true ->
    forallb (fun e => same_kinds (fst e) (snd e) s0) es = true ->
    exists s',
      copy_each es (s0, false) = (s', false)
      /\ (forall n, ~ In n (map fst es) -> lookup_entry n s' = lookup_entry n s0)
      /\ (forall n c, In (n, c) es ->
            exists x', lookup_entry n s' = Some x'
                       /\ merged_at c (lookup_entry n s0) x').
Proof.
  induction 1 as [|[n c] es Hc Hes IH]; intros s0 Hnd Hun Hsk.
  - exists s0. split; [reflexivity | split; [reflexivity | intros n c []]].
  - simpl in Hnd, Hun, Hsk. apply NoDup_cons in Hnd as [Hn Hnd].
    rewrite list_elem_of_In in Hn.
    apply andb_true_iff in Hun as [Hunc Hun].
    apply andb_true_iff in Hsk as [Hskc Hsk].
    destruct (Hc n s0 Hunc Hskc) as (s1 & Hcopy & Hframe & x' & Hx' & Hm).
    simpl in Hcopy, Hm, Hx'.
    assert (Hsame : forall m, In m (map fst es) ->
                               lookup_entry m s1 = lookup_entry m s0).
    { intros m Hin. apply Hframe. intros ->. contradiction. }
    destruct (IH s1 Hnd Hun) as (s' & Heach & Hout & Hin').
    { apply forallb_forall. intros [m y] Hin.
      rewrite forallb_forall in Hsk. rewrite <- (Hsk (m, y) Hin). simpl.
      apply same_kinds_ext, Hsame. now apply (in_map fst) in Hin. }
    exists s'. split; [|split].
    + simpl. rewrite Hcopy. exact Heach.
    + intros m Hm'. simpl in Hm'. rewrite Hout by tauto.
      apply Hframe. intros ->. tauto.
    + intros m y [[= <- <-] | Hin].
      * exists x'. split; [|exact Hm]. now rewrite Hout.
      * destruct (Hin' m y Hin) as (y' & Hy' & Hmy).
        exists y'. split; [exact Hy'|].
        rewrite <- (Hsame m); [exact Hmy|]. now apply (in_map fst) in Hin.
Qed.

Lemma merged_at_dir es o s' :
  match o with Some (File _) => False | _ => True end ->
  (forall n, ~ In n (map fst es) ->
             lookup_entry n s'
             = lookup_entry n (match o with Some (Dir s) => s | _ => [] end)) ->
  (forall n c, In (n, c) es ->
     exists x', lookup_entry n s' = Some x'
                /\ merged_at c
                     (lookup_entry n (match o with Some (Dir s) => s | _ => [] end))
                     x') ->
  merged_at (Dir es) o (Dir s').
Proof.
  intros Ho Hout Hin [|n p].
  - destruct o as [[data | s]|]; [contradiction | now split | now split].
  - rewrite !file_at_node_cons, !dir_at_node_cons.
    assert (Hold :
      match o with Some y => file_at_node (n :: p) y | None => None end
      = match lookup_entry n (match o with Some (Dir s) => s | _ => [] end) with
        | Some y => file_at_node p y
        | None => None
        end
      /\ match o with Some y => dir_at_node (n :: p) y | None => false end
         = match lookup_entry n (match o with Some (Dir s) => s | _ => [] end) with
           | Some y => dir_at_node p y
           | None => false
           end).
    { destruct o as [[data | s]|]; [contradiction | | now split].
      now rewrite file_at_node_cons, dir_at_node_cons. }
    destruct Hold as [-> ->].
    destruct (lookup_entry n es) as [c|] eqn:E.
    + destruct (Hin n c (lookup_entry_In _ _ _ E)) as (x' & -> & Hm).
      apply Hm.
    + rewrite Hout by now apply lookup_entry_None.
      now split.
Qed.

(** A tree that meets only entries of its own kinds is copied without an
    error; the directory it is copied into keeps its other entries, and at
    the name of the copy holds the tree together with what was there. *)
Lemma copy_node_merges item :
  forall name d,
    unique_names item = true ->
    same_kinds name item d = true ->
    exists d', copied name item d d'.
Proof.
  induction item as [data | es IH] using node_induction;
    intros name d Hun Hsk.
  - exists (set_entry name (File data) d). unfold copied.
    simpl in Hsk. simpl. unfold copy2.
    destruct (lookup_entry name d) as [[old | sub]|] eqn:E;
      [| discriminate |].
    all: split; [reflexivity|].
    all: split; [intros n Hn; now apply lookup_set_entry_ne|].
    all: exists (File data); split; [apply lookup_set_entry_eq|].
    all: intros [|n p]; now split.
  - simpl in Hun. apply andb_true_iff in Hun as [Hnd Hun].
    apply bool_decide_eq_true in Hnd.
    assert (Hkind : match lookup_entry name d with
                    | Some (File _) => False
                    | _ => True
                    end).
    { simpl in Hsk. now destruct (lookup_entry name d) as [[old | sub]|]. }
    assert (Hsk0 : forallb (fun e => same_kinds (fst e) (snd e)
                                       (match lookup_entry name d with
                                        | Some (Dir s) => s
                                        | _ => []
                                        end)) es = true).
    { simpl in Hsk.
      destruct (lookup_entry name d) as [[old | sub]|];
        [discriminate | exact Hsk |].
      apply forallb_forall. intros e _. apply same_kinds_nil. }
    destruct (copy_each_merges es IH _ Hnd Hun Hsk0)
      as (s' & Heach & Hout & Hin).
    exists (set_entry name (Dir s') d). unfold copied.
    split; [|split].
    + rewrite copy_node_dir.
      destruct (lookup_entry name d) as [[old | sub]|];
        [contradiction | |]; cbv zeta; now rewrite Heach.
    + intros n Hn. now apply lookup_set_entry_ne.
    + exists (Dir s'). split; [apply lookup_set_entry_eq|].
      now apply merged_at_dir.
Qed.

(** ** Directories in the tree *)

Lemma set_entry_set_entry n x y d :
  set_entry n x (set_entry n y d) = set_entry n x d.
Proof.
  induction d as [|[m z] d IH]; simpl.
  - now rewrite decide_True.
  - destruct (decide (m = n)) as [-> | Hm]; simpl.
    + now rewrite decide_True.
    + rewrite decide_False by exact Hm. now rewrite IH.
Qed.

Lemma find_cons n p d :
  find (n :: p) d
  = match lookup_entry n d with
    | Some y => find_node p y
    | None => None
    end.
Proof. reflexivity. Qed.

Lemma find_put_dir p q s s0 d :
  find p d = Some (Dir s0) ->
  find (p ++ q) (put_dir p s d) = find q s.
Proof.
  revert d. induction p as [|n p IH]; intros d H; [reflexivity|].
  rewrite find_cons in H. simpl put_dir.
  destruct (lookup_entry n d) as [[data | s1]|] eqn:E.
  - destruct p; discriminate.
  - change ((n :: p) ++ q) with (n :: (p ++ q)).
    rewrite find_cons, lookup_set_entry_eq. apply (IH s1 H).
  - discriminate.
Qed.

Lemma put_dir_put_dir p s1 s2 s0 d :
  find p d = Some (Dir s0) ->
  put_dir p s2 (put_dir p s1 d) = put_dir p s2 d.
Proof.
  revert d. induction p as [|n p IH]; intros d H; [reflexivity|].
  rewrite find_cons in H. simpl put_dir.
  destruct (lookup_entry n d) as [[data | s]|] eqn:E.
  - destruct p; discriminate.
  - rewrite lookup_set_entry_eq, set_entry_set_entry, (IH s H).
    reflexivity.
  - discriminate.
Qed.

Lemma put_dir_same p s d : find p d = Some (Dir s) -> put_dir p s d = d.
Proof.
  revert d. induction p as [|n p IH]; intros d H.
  - now injection H.
  - rewrite find_cons in H. simpl.
    destruct (lookup_entry n d) as [[data | s1]|] eqn:E.
    + destruct p; discriminate.
    + rewrite (IH s1 H). now apply set_entry_same.
    + discriminate.
Qed.

(** Outside the directory [p], the tree is as it was. *)
Lemma put_dir_frame p s d q :
  ~ (exists r, q = p ++ r) ->
  file_at q (put_dir p s d) = file_at q d
  /\ dir_at q (put_dir p s d) = dir_at q d.
Proof.
  revert d q. induction p as [|n p IH]; intros d q Hq.
  - exfalso. apply Hq. now exists q.
  - simpl put_dir.
    destruct (lookup_entry n d) as [[data | s1]|] eqn:E; [now split | | now split].
    destruct q as [|m q]; [now split|].
    unfold file_at, dir_at. rewrite !file_at_node_cons, !dir_at_node_cons.
    destruct (decide (n = m)) as [<- | Hnm].
    + rewrite lookup_set_entry_eq, E. apply (IH s1 q).
      intros [r ->]. apply Hq. now exists r.
    + rewrite lookup_set_entry_ne by exact Hnm. now split.
Qed.

Lemma entries_at_nil p : entries_at p [] = [].
Proof. now destruct p. Qed.

(** After [mkdir_p] the directory is there, with the entries it had. *)
Lemma mkdir_p_find q d d' :
  mkdir_p q d = Some d' -> find q d' = Some (Dir (entries_at q d)).
Proof.
  revert d d'. induction q as [|n q IH]; intros d d' H.
  - now injection H as <-.
  - simpl in H. unfold entries_at. rewrite !find_cons.
    destruct (lookup_entry n d) as [[data | s]|] eqn:E; [discriminate | |].
    + destruct (mkdir_p q s) as [s'|] eqn:Es; [|discriminate].
      injection H as <-. rewrite lookup_set_entry_eq.
      apply (IH s s' Es).
    + destruct (mkdir_p q []) as [s'|] eqn:Es; [|discriminate].
      injection H as <-. rewrite lookup_set_entry_eq.
      pose proof (IH [] s' Es) as Hs'. unfold find in Hs'. rewrite Hs'.
      now rewrite entries_at_nil.
Qed.

(** [mkdir_p] leaves every regular file as it is. *)
Lemma mkdir_p_files q d d' p :
  mkdir_p q d = Some d' -> file_at p d' = file_at p d.
Proof.
  revert d d' p. induction q as [|n q IH]; intros d d' p H.
  - now injection H as <-.
  - simpl in H. destruct p as [|m p]; [reflexivity|].
    unfold file_at. rewrite !file_at_node_cons.
    destruct (lookup_entry n d) as [[data | s]|] eqn:E; [discriminate | |].
    + destruct (mkdir_p q s) as [s'|] eqn:Es; [|discriminate].
      injection H as <-.
      destruct (decide (n = m)) as [<- | Hnm].
      * rewrite lookup_set_entry_eq, E. apply (IH s s' p Es).
      * now rewrite lookup_set_entry_ne.
    + destruct (mkdir_p q []) as [s'|] eqn:Es; [|discriminate].
      injection H as <-.
      destruct (decide (n = m)) as [<- | Hnm].
      * rewrite lookup_set_entry_eq, E.
        pose proof (IH [] s' p Es) as Hs'. unfold file_at in Hs'.
        rewrite Hs'. now destruct p.
      * now rewrite lookup_set_entry_ne.
Qed.

(** Strictly below a path, [entries_at] holds what the tree holds. *)
Lemma find_below_entries_at q p d :
  p <> [] -> find_node p (Dir (entries_at q d)) = find (q ++ p) d.
Proof.
  intros Hp. rewrite find_app. unfold entries_at.
  destruct (find q d) as [[data | s]|]; [|reflexivity|].
  - destruct p as [|n p]; [contradiction|]. reflexivity.
  - destruct p as [|n p]; [contradiction|]. reflexivity.
Qed.

(** ** Placing the archive *)

Lemma copy_each_failed es : forall s, snd (copy_each es (s, true)) = true.
Proof.
  induction es as [|[n c] es IH]; intros s; [reflexivity|].
  simpl. destruct (copy_node n c s) as [s1 f]. apply IH.
Qed.

Lemma with_fs_same w : with_fs (fs w) w = w.
Proof. now destruct w. Qed.

(** The placement loop, when no copy fails, is the loop of [copytree]. *)
Lemma place_items_copy_each latest items :
  forall w d0 d',
    find latest (fs w) = Some (Dir d0) ->
    copy_each items (d0, false) = (d', false) ->
    place_items latest items w
    = (Ret tt, with_fs (put_dir latest d' (fs w)) w,
       map (fun e => Copy (latest ++ [fst e])) items).
Proof.
  induction items as [|[n c] rest IH]; intros w d0 d' Hl Hc.
  - injection Hc as <-. simpl. unfold ret.
    now rewrite (put_dir_same _ _ _ Hl), with_fs_same.
  - simpl in Hc. destruct (copy_node n c d0) as [s f] eqn:E.
    destruct f.
    { pose proof (copy_each_failed rest s) as Hf. rewrite Hc in Hf.
      discriminate. }
    simpl place_items. unfold bind, place_item. rewrite Hl, E.
    assert (Hl1 : find latest (fs (with_fs (put_dir latest s (fs w)) w))
                  = Some (Dir s)).
    { simpl. rewrite <- (app_nil_r latest) at 1.
      now rewrite (find_put_dir _ _ _ _ _ Hl). }
    rewrite (IH _ s d' Hl1 Hc). simpl.
    now rewrite (put_dir_put_dir _ _ _ _ _ Hl).
Qed.

(** The children of the archive's wrapper directory, placed into the
    directory [d0], when every one of them meets only entries of its own
    kinds. *)
Lemma copy_each_children items d0 :
  unique_names (Dir items) = true ->
  forallb (fun e => same_kinds (fst e) (snd e) d0) items = true ->
  exists d',
    copy_each items (d0, false) = (d', false)
    /\ merged_at (Dir items) (Some (Dir d0)) (Dir d').
Proof.
  intros Hun Hsk. simpl in Hun. apply andb_true_iff in Hun as [Hnd Hun].
  apply bool_decide_eq_true in Hnd.
  destruct (copy_each_merges items) with (s0 := d0)
    as (d' & Heach & Hout & Hin); try assumption.
  { apply Forall_forall. intros e _ name d. apply copy_node_merges. }
  exists d'. split; [exact Heach|]. now apply merged_at_dir.
Qed.

Lemma observe_put_dir p q s s0 d :
  find p d = Some (Dir s0) ->
  file_at (p ++ q) (put_dir p s d) = file_at q s
  /\ dir_at (p ++ q) (put_dir p s d) = dir_at q s.
Proof.
  intros H. unfold file_at, dir_at, file_at_node, dir_at_node.
  pose proof (find_put_dir p q s s0 d H) as Hf. unfold find in Hf.
  now rewrite Hf.
Qed.

Lemma observe_entries_at q p d :
  p <> [] ->
  file_at p (entries_at q d) = file_at (q ++ p) d
  /\ dir_at p (entries_at q d) = dir_at (q ++ p) d.
Proof.
  intros Hp. unfold file_at, dir_at, file_at_node, dir_at_node.
  pose proof (find_below_entries_at q p d Hp) as Hf. unfold find in Hf.
  now rewrite Hf.
Qed.

(** C5.  The step with the marker absent, both directories creatable, the
    download and the extraction done, and an archive whose wrapper
    directory [cmdline-tools] holds [items], each directory of it with one
    entry per name and each entry meeting under [latest] only entries of
    its own kind (a file no directory, a directory no file).  The step
    returns; it copies each child of the wrapper to its own name under
    [latest], so the wrapper itself is not placed; below [latest] the
    regular files are those of the archive, at their paths below the
    wrapper and with the archive's text, together with the files that were
    there at other paths, unchanged; the directories are those of the
    archive together with those that were there; and no file outside
    [latest] is changed. *)
Theorem cmdline_tools_merge h android_sdk env_map w fs1 fs2 zdata tree items :
  let latest := latest_dir android_sdk in
  let url :=
    cmdline_tools_url h
      (dict_get env_map (u "ANDROID_CMDLINE_TOOLS") (u "11076708")) in
  exists_in (sdkmanager_bin h android_sdk) (fs w) = false ->
  mkdir_p android_sdk (fs w) = Some fs1 ->
  mkdir_p latest fs1 = Some fs2 ->
  urlretrieve h url (with_fs fs2 w) = Some zdata ->
  zip_tree h zdata = Some tree ->
  find [u "cmdline-tools"] tree = Some (Dir items) ->
  unique_names (Dir items) = true ->
  forallb (fun e => same_kinds (fst e) (snd e) (entries_at latest (fs w))) items
  = true ->
  let run := install_android_cmdline h android_sdk env_map w in
  let fs' := fs (snd (fst run)) in
  fst (fst run) = Ret tt
  /\ copies (snd run) = map (fun e => latest ++ [fst e]) items
  /\ (forall p,
        file_at (latest ++ p) fs'
        = match file_at p items with
          | Some data => Some data
          | None => file_at (latest ++ p) (fs w)
          end)
  /\ (forall p,
        p <> [] ->
        dir_at (latest ++ p) fs'
        = dir_at p items || dir_at (latest ++ p) (fs w))
  /\ (forall q,
        ~ (exists r, q = latest ++ r) ->
        file_at q fs' = file_at q (fs w)).
Proof.
  intros latest url Hmarker Hd1 Hd2 Hurl Hzip Htree Hun Hsk.
  subst latest. unfold latest_dir in *.
  set (latest := android_sdk ++ [u "cmdline-tools"; u "latest"]) in *.
  (* the directory [latest] after the two mkdir *)
  assert (Hlatest1 : find latest fs1 = find latest (fs w)).
  { unfold latest. rewrite find_app.
    rewrite (mkdir_p_find _ _ _ Hd1).
    now rewrite find_below_entries_at. }
  assert (Hentries : entries_at latest fs1 = entries_at latest (fs w)).
  { unfold entries_at. now rewrite Hlatest1. }
  pose proof (mkdir_p_find _ _ _ Hd2) as Hl2. rewrite Hentries in Hl2.
  destruct (copy_each_children items _ Hun Hsk) as (d' & Heach & Hmerged).
  (* the run *)
  assert (Hrun :
    install_android_cmdline h android_sdk env_map w
    = (Ret tt, with_fs (put_dir latest d' fs2) w,
       [Log (u "Installing Android cmdline-tools "
             ++ dict_get env_map (u "ANDROID_CMDLINE_TOOLS") (u "11076708")
             ++ u " into " ++ path_str h android_sdk ++ u " ...");
        Mkdir android_sdk; Mkdir latest;
        Log (u "Downloading: " ++ url); Download url; Unzip]
       ++ map (fun e => Copy (latest ++ [fst e])) items)).
  { unfold install_android_cmdline.
    unfold bind at 1. unfold path_exists at 1. rewrite Hmarker.
    unfold bind, log, emit, mkdir. rewrite Hd1.
    cbn [fs with_fs]. fold latest. rewrite Hd2.
    unfold download, bind, log, emit. fold url.
    change (with_fs fs2 (with_fs fs1 w)) with (with_fs fs2 w).
    rewrite Hurl. unfold unzip. rewrite Hzip.
    unfold bind, emit, ret, iterdir. rewrite Htree. unfold ret.
    rewrite (place_items_copy_each latest items (with_fs fs2 w) _ d' Hl2 Heach).
    reflexivity. }
  cbv zeta. rewrite Hrun. cbn [fst snd fs with_fs].
  split; [reflexivity|]. split; [|split; [|split]].
  - cbn [app copies]. clear. induction items as [|[n c] items IH];
      [reflexivity|]. simpl. now rewrite IH.
  - intros p. rewrite (proj1 (observe_put_dir _ p d' _ _ Hl2)).
    destruct (Hmerged p) as [Hfile _]. unfold file_at. rewrite Hfile.
    destruct (file_at_node p (Dir items)); [reflexivity|].
    destruct p as [|n p].
    + rewrite app_nil_r.
      change (file_at_node latest (Dir (fs w))) with (file_at latest (fs w)).
      rewrite <- (mkdir_p_files _ _ _ latest Hd1).
      rewrite <- (mkdir_p_files _ _ _ latest Hd2).
      unfold file_at, file_at_node.
      change (find_node latest (Dir fs2)) with (find latest fs2).
      now rewrite (mkdir_p_find _ _ _ Hd2).
    + now apply observe_entries_at.
  - intros p Hp. rewrite (proj2 (observe_put_dir _ p d' _ _ Hl2)).
    destruct (Hmerged p) as [_ Hdir]. unfold dir_at. rewrite Hdir.
    f_equal. now apply observe_entries_at.
  - intros q Hq.
    rewrite (proj1 (put_dir_frame latest d' fs2 q Hq)).
    rewrite (mkdir_p_files _ _ _ q Hd2).
    apply (mkdir_p_files _ _ _ q Hd1).
Qed.

(** ** The properties at sample inputs *)

Lemma ref_takes_precedence_witness :
  spawned (snd (install_flutter (sample_host false all_succeed)
                  sample_flutter_root ref_env fresh_world))
  = [git_clone_default (sample_host false all_succeed) sample_flutter_root;
     git_fetch_ref (sample_host false all_succeed) sample_flutter_root (u "3.19.0");
     git_checkout_ref (sample_host false all_succeed) sample_flutter_root (u "3.19.0")].
Proof.
  destruct (ref_takes_precedence (sample_host false all_succeed)
              sample_flutter_root ref_env fresh_world eq_refl) as (_ & Href & _).
  assert (Hne : strip (dict_get ref_env (u "FLUTTER_REF") []) <> [])
    by (vm_compute; discriminate).
  destruct (Href Hne) as (_ & Hall & _).
  apply Hall. vm_compute. reflexivity.
Defined.

Lemma package_failure_aborts_witness :
  spawned (snd (install_android_packages
                  (sample_host false (fail_on (u "ndk;26.1.10909125")))
                  sample_android_sdk ∅ sample_flutter_root installed_world))
  = [licenses_call (sample_host false (fail_on (u "ndk;26.1.10909125")))
       sample_android_sdk
       (android_env (sample_host false (fail_on (u "ndk;26.1.10909125")))
          sample_android_sdk (environ installed_world));
     packages_call (sample_host false (fail_on (u "ndk;26.1.10909125")))
       sample_android_sdk ∅
       (android_env (sample_host false (fail_on (u "ndk;26.1.10909125")))
          sample_android_sdk (environ installed_world))].
Proof.
  apply (package_failure_aborts
           (sample_host false (fail_on (u "ndk;26.1.10909125")))
           sample_android_sdk ∅ sample_flutter_root installed_world
           1%Z (u "failed")).
  - vm_compute. do 4 right. left. reflexivity.
  - discriminate.
Defined.

Lemma license_failure_contained_witness :
  fst (fst (install_android_packages
              (sample_host false (fail_on (u "--licenses")))
              sample_android_sdk ∅ sample_flutter_root installed_world))
  = Ret tt.
Proof.
  destruct (license_failure_contained
              (sample_host false (fail_on (u "--licenses")))
              sample_android_sdk ∅ sample_flutter_root installed_world
              1%Z (u "failed")) as (o & rest & Ht & Hret).
  - vm_compute. right. left. reflexivity.
  - discriminate.
  - apply Hret.
    assert (Hall : all_exited_zero
                     (skipn 5 (snd (install_android_packages
                                      (sample_host false (fail_on (u "--licenses")))
                                      sample_android_sdk ∅ sample_flutter_root
                                      installed_world))) = true)
      by (vm_compute; reflexivity).
    rewrite Ht in Hall. exact Hall.
Defined.

Lemma precache_flags_witness :
  argv (precache_call (sample_host true all_succeed) sample_flutter_root
          (android_env (sample_host true all_succeed) sample_android_sdk
             (environ windows_world)))
  = [u "/repo/.tooling/flutter/bin/flutter.bat"; u "precache";
     u "--android"; u "--windows"]
  /\ exists before text,
       snd (install_android_packages (sample_host true all_succeed)
              sample_android_sdk ∅ sample_flutter_root windows_world)
       = before
         ++ [Spawn (precache_call (sample_host true all_succeed)
                      sample_flutter_root
                      (android_env (sample_host true all_succeed)
                         sample_android_sdk (environ windows_world)))
               (Exited 0 text);
             Out text].
Proof.
  destruct (precache_flags (sample_host true all_succeed) sample_android_sdk
              ∅ sample_flutter_root windows_world)
    as (Hargv & _ & _ & Hboth & _ & Hlast).
  split.
  - rewrite Hargv, (Hboth eq_refl). vm_compute. reflexivity.
  - apply Hlast. vm_compute. reflexivity.
Defined.

Lemma java_missing_names_one_command_witness :
  fst (fst (ensure_prereqs (sample_host true all_fail) windows_world))
  = Raise (SystemExit java_missing)
  /\ is_infix (u "winget") java_missing = false.
Proof.
  destruct (java_missing_names_one_command (sample_host true all_fail)
              windows_world) as (Hexit & _ & _ & Hwinget & _).
  - apply (bool_decide_eq_true_1 _). reflexivity.
  - apply (bool_decide_eq_false_1 _). reflexivity.
  - apply (bool_decide_eq_false_1 _). reflexivity.
  - split; [exact Hexit | exact Hwinget].
Defined.

Lemma cmdline_tools_merge_witness :
  file_at (latest_dir sample_android_sdk ++ [u "README"])
    (fs (snd (fst (install_android_cmdline (sample_host false all_succeed)
                     sample_android_sdk ∅ readme_world))))
  = Some (u "read me")
  /\ file_at (latest_dir sample_android_sdk ++ [u "NOTICE"])
       (fs (snd (fst (install_android_cmdline (sample_host false all_succeed)
                        sample_android_sdk ∅ readme_world))))
     = Some (u "notice")
  /\ file_at (latest_dir sample_android_sdk ++ [u "bin"; u "sdkmanager"])
       (fs (snd (fst (install_android_cmdline (sample_host false all_succeed)
                        sample_android_sdk ∅ readme_world))))
     = Some (u "#!/bin/sh")
  /\ dir_at (latest_dir sample_android_sdk ++ [u "lib"])
       (fs (snd (fst (install_android_cmdline (sample_host false all_succeed)
                        sample_android_sdk ∅ readme_world))))
     = true.
Proof.
  destruct (cmdline_tools_merge (sample_host false all_succeed)
              sample_android_sdk ∅ readme_world
              (fs readme_world) (fs readme_world) (u "PK")
              sample_archive sample_items
              eq_refl eq_refl eq_refl eq_refl eq_refl eq_refl eq_refl eq_refl)
    as (_ & _ & Hfiles & Hdirs & _).
  split; [exact (Hfiles [u "README"])|].
  split; [exact (Hfiles [u "NOTICE"])|].
  split; [exact (Hfiles [u "bin"; u "sdkmanager"])|].
  apply (Hdirs [u "lib"]). discriminate.
Defined.

(** ** Where the specification says more than the code does *)

(** C4 as it is worded fails on a key that has two lines: the file of
    [fresh_world] holds the well-formed line [ANDROID_NDK=25.0], and the
    value for [ANDROID_NDK] is [27.0], that of the later line. *)
Lemma config_precedence_earlier_line :
  In (u "ANDROID_NDK=25.0") (splitlines sample_env_text)
  /\ parse_line (u "ANDROID_NDK=25.0") = Some (u "ANDROID_NDK", u "25.0")
  /\ (exists m,
        load_env_file [u "repo"; u ".env"] fresh_world
        = (Ret m, fresh_world, [])
        /\ dict_get m (u "ANDROID_NDK") (u "26.1.10909125") = u "27.0")
  /\ u "27.0" <> u "25.0".
Proof.
  split; [vm_compute; do 3 right; left; reflexivity|].
  split; [reflexivity|].
  split; [|discriminate].
  eexists. split; reflexivity.
Qed.

(** C8 as it is worded fails for a value whose text between its quotes
    starts and ends with a quote again.  The value of [line] is [inner]
    between two double quotes, [inner] being [x] between two double
    quotes; the loader assigns [x] and not [inner], since [strip] with a
    quote takes every such quote off the ends.  The same for [inner]
    between two apostrophes. *)
Lemma config_parsing_quotes_in_quotes :
  let inner := [QUOTE] ++ u "x" ++ [QUOTE] in
  let line := u "K=" ++ [QUOTE] ++ inner ++ [QUOTE] in
  let w := with_fs [(u ".env", File (line ++ [LF]))] foo_bar_world in
  splitlines (line ++ [LF]) = [line]
  /\ parse_line line = Some (u "K", u "x")
  /\ (exists m,
        load_env_file [u ".env"] w = (Ret m, w, [])
        /\ m !! u "K" = Some (u "x"))
  /\ u "x" <> inner
  /\ parse_line (u "K='" ++ inner ++ u "'") = Some (u "K", u "x").
Proof.
  cbv zeta. split; [reflexivity|]. split; [reflexivity|].
  split; [|split; [discriminate | reflexivity]].
  eexists. split; [reflexivity|]. vm_compute. reflexivity.
Qed.

(** C5 as it is worded fails when a file of the archive meets a
    directory: the step returns, the archive's [NOTICE] is not at
    [latest/NOTICE], which still is a directory, and the file
    [latest/NOTICE/NOTICE], at a path where the archive has no file, is
    overwritten with the archive's text. *)
Lemma cmdline_tools_file_meets_directory :
  fst (fst (install_android_cmdline (sample_host false all_succeed)
              sample_android_sdk ∅ notice_dir_world))
  = Ret tt
  /\ file_at [u "NOTICE"] sample_items = Some (u "notice")
  /\ file_at (latest_dir sample_android_sdk ++ [u "NOTICE"])
       (fs (snd (fst (install_android_cmdline (sample_host false all_succeed)
                        sample_android_sdk ∅ notice_dir_world))))
     = None
  /\ file_at [u "NOTICE"; u "NOTICE"] sample_items = None
  /\ file_at (latest_dir sample_android_sdk ++ [u "NOTICE"; u "NOTICE"])
       (fs notice_dir_world)
     = Some (u "old")
  /\ file_at (latest_dir sample_android_sdk ++ [u "NOTICE"; u "NOTICE"])
       (fs (snd (fst (install_android_cmdline (sample_host false all_succeed)
                        sample_android_sdk ∅ notice_dir_world))))
     = Some (u "notice").
Proof. repeat split; vm_compute; reflexivity. Qed.

(** When a directory of the archive meets a regular file, [copytree]
    raises: the step fails, the file stays, and the children of the
    wrapper that come later are not placed. *)
Lemma cmdline_tools_directory_meets_file :
  fst (fst (install_android_cmdline (sample_host false all_succeed)
              sample_android_sdk ∅ lib_file_world))
  = Raise (OSError (u "copy failed"))
  /\ file_at (latest_dir sample_android_sdk ++ [u "lib"])
       (fs (snd (fst (install_android_cmdline (sample_host false all_succeed)
                        sample_android_sdk ∅ lib_file_world))))
     = Some (u "old")
  /\ file_at (latest_dir sample_android_sdk ++ [u "bin"; u "sdkmanager"])
       (fs (snd (fst (install_android_cmdline (sample_host false all_succeed)
                        sample_android_sdk ∅ lib_file_world))))
     = Some (u "#!/bin/sh")
  /\ file_at (latest_dir sample_android_sdk ++ [u "NOTICE"])
       (fs (snd (fst (install_android_cmdline (sample_host false all_succeed)
                        sample_android_sdk ∅ lib_file_world))))
     = None.
Proof. repeat split; vm_compute; reflexivity. Qed.

(** * Further properties *)

(** ** Lines *)

Lemma not_linebreak_not_cr c : is_linebreak c = false -> (c =? CR) = false.
Proof.
  intros H. destruct (N.eqb_spec c CR) as [-> | Hne]; [discriminate H | reflexivity].
Qed.

Lemma splitlines_from_line l :
  forall cur rest,
    one_line l = true ->
    splitlines_from cur (l ++ LF :: rest)
    = (rev cur ++ l) :: splitlines_from [] rest.
Proof.
  induction l as [|c l IH]; intros cur rest Hl.
  - simpl. now rewrite app_nil_r.
  - unfold one_line in Hl. simpl in Hl. apply andb_true_iff in Hl as [Hc Hl].
    apply negb_true_iff in Hc.
    change ((c :: l) ++ LF :: rest) with (c :: (l ++ LF :: rest)).
    cbn [splitlines_from]. rewrite (not_linebreak_not_cr c Hc), Hc.
    rewrite (IH (c :: cur) rest Hl). simpl. now rewrite <- app_assoc.
Qed.

Lemma splitlines_from_crlf_line l :
  forall cur rest,
    one_line l = true ->
    splitlines_from cur (l ++ CR :: LF :: rest)
    = (rev cur ++ l) :: splitlines_from [] rest.
Proof.
  induction l as [|c l IH]; intros cur rest Hl.
  - simpl. now rewrite app_nil_r.
  - unfold one_line in Hl. simpl in Hl. apply andb_true_iff in Hl as [Hc Hl].
    apply negb_true_iff in Hc.
    change ((c :: l) ++ CR :: LF :: rest) with (c :: (l ++ CR :: LF :: rest)).
    cbn [splitlines_from]. rewrite (not_linebreak_not_cr c Hc), Hc.
    rewrite (IH (c :: cur) rest Hl). simpl. now rewrite <- app_assoc.
Qed.

(** Lines without a line boundary, written one after the other and
    each ended by a line feed, or each by a carriage return and a line
    feed, are the lines [splitlines] reads back. *)
Lemma splitlines_of_written_lines ls :
  forallb one_line ls = true ->
  splitlines (concat (map (fun l => l ++ [LF]) ls)) = ls
  /\ splitlines (concat (map (fun l => l ++ [CR; LF]) ls)) = ls.
Proof.
  unfold splitlines. induction ls as [|l ls IH]; intros H; [now split|].
  simpl in H. apply andb_true_iff in H as [Hl Hls].
  destruct (IH Hls) as [IH1 IH2]. split; simpl.
  - rewrite <- app_assoc. simpl.
    now rewrite (splitlines_from_line l [] _ Hl), IH1.
  - rewrite <- app_assoc. simpl.
    now rewrite (splitlines_from_crlf_line l [] _ Hl), IH2.
Qed.

(** ** Keys and values of the override file *)

Lemma split1_spec c s :
  contains_char c s = true ->
  exists k v, split1 c s = (k, v) /\ s = k ++ c :: v /\ contains_char c k = false.
Proof.
  induction s as [|x s IH]; simpl; [discriminate|].
  destruct (N.eqb_spec x c) as [-> | Hne].
  - intros _. now exists [], s.
  - rewrite (proj2 (N.eqb_neq c x)) by congruence. simpl. intros H.
    destruct (IH H) as (k & v & Hs & -> & Hk). rewrite Hs.
    exists (x :: k), v. repeat split. simpl.
    now rewrite (proj2 (N.eqb_neq c x)) by congruence.
Qed.

(** What a line of the override file can assign.  The key holds no
    [=], has no blank at either end and does not start with [#]; the value
    has no double quote at either end; and the stripped line is the raw
    key, the first [=], and the raw value. *)
Lemma parse_line_shape line K V :
  parse_line line = Some (K, V) ->
  contains_char EQUALS K = false
  /\ ends_free is_space K = true
  /\ startswith_char HASH K = false
  /\ ends_free (N.eqb QUOTE) V = true
  /\ exists k v,
       strip line = k ++ EQUALS :: v
       /\ contains_char EQUALS k = false
       /\ K = strip k
       /\ V = strip_char QUOTE (strip_char APOSTROPHE (strip v)).
Proof.
  unfold parse_line.
  destruct (strip line) as [|c s] eqn:Es; [discriminate|].
  cbn [orb]. destruct (startswith_char HASH (c :: s)) eqn:Eh; [discriminate|].
  destruct (contains_char EQUALS (c :: s)) eqn:Ec; [|discriminate].
  cbn [negb orb].
  destruct (split1_spec EQUALS (c :: s) Ec) as (k & v & Hsp & Hs & Hk).
  rewrite Hsp. intros [= <- <-].
  split; [|split; [|split; [|split]]].
  - destruct (contains_char EQUALS (strip k)) eqn:E; [|reflexivity].
    apply strip_with_incl in E. congruence.
  - apply strip_with_clean.
  - destruct k as [|x k]; [reflexivity|].
    injection Hs as <- Hs.
    assert (Hc : is_space c = false).
    { apply (ends_free_head is_space c s). rewrite <- Es. apply strip_with_clean. }
    unfold strip, strip_with. rewrite lstrip_with_keep by exact Hc.
    destruct (rstrip_with_keeps_head is_space c k Hc) as (r & ->).
    exact Eh.
  - apply strip_with_clean.
  - now exists k, v.
Qed.

(** Every entry of the loaded mapping was there before or is assigned by
    a line. *)
Lemma load_lines_from_line ls :
  forall m K V,
    load_lines ls m !! K = Some V ->
    m !! K = Some V \/ exists l, In l ls /\ parse_line l = Some (K, V).
Proof.
  induction ls as [|l ls IH]; intros m K V H; [now left|].
  rewrite load_lines_cons in H. destruct (IH _ K V H) as [Hm | (l' & Hin & Hp)].
  - destruct (parse_line l) as [[k v]|] eqn:E; [|now left].
    destruct (decide (k = K)) as [-> | Hne].
    + rewrite lookup_insert_eq in Hm. injection Hm as ->.
      right. exists l. split; [now left | exact E].
    + rewrite lookup_insert_ne in Hm by exact Hne. now left.
  - right. exists l'. split; [now right | exact Hp].
Qed.

Lemma one_line_rev l : one_line (rev l) = one_line l.
Proof.
  unfold one_line. induction l as [|c l IH]; [reflexivity|].
  simpl. rewrite forallb_app, IH. simpl. rewrite andb_true_r. apply andb_comm.
Qed.

Lemma splitlines_from_one_line n :
  forall s cur l,
    (length s <= n)%nat ->
    one_line cur = true ->
    In l (splitlines_from cur s) ->
    one_line l = true.
Proof.
  induction n as [|n IH]; intros s cur l Hn Hcur Hin.
  - destruct s; [|simpl in Hn; lia]. simpl in Hin.
    destruct cur; [contradiction|]. destruct Hin as [<- | []].
    now rewrite one_line_rev.
  - destruct s as [|c s].
    { simpl in Hin. destruct cur; [contradiction|]. destruct Hin as [<- | []].
      now rewrite one_line_rev. }
    simpl in Hn. simpl in Hin.
    destruct (c =? CR) eqn:Ecr.
    + destruct s as [|c' s'].
      * destruct Hin as [<- | Hin]; [now rewrite one_line_rev | contradiction].
      * destruct (c' =? LF).
        -- destruct Hin as [<- | Hin]; [now rewrite one_line_rev|].
           apply (IH s' [] l); [simpl in Hn; lia | reflexivity | exact Hin].
        -- destruct Hin as [<- | Hin]; [now rewrite one_line_rev|].
           apply (IH (c' :: s') [] l); [lia | reflexivity | exact Hin].
    + destruct (is_linebreak c) eqn:Elb.
      * destruct Hin as [<- | Hin]; [now rewrite one_line_rev|].
        apply (IH s [] l); [lia | reflexivity | exact Hin].
      * apply (IH s (c :: cur) l); [lia | | exact Hin].
        unfold one_line in *. simpl. now rewrite Elb.
Qed.

(** No line that [splitlines] returns holds a line boundary. *)
Lemma splitlines_lines s l :
  In l (splitlines s) -> one_line l = true.
Proof.
  intros H. now apply (splitlines_from_one_line (length s) s [] l).
Qed.

Lemma one_line_no_break l c :
  one_line l = true -> is_linebreak c = true -> contains_char c l = false.
Proof.
  intros Hl Hc. unfold contains_char.
  destruct (existsb (N.eqb c) l) eqn:E; [|reflexivity].
  apply existsb_exists in E as (x & Hx & Hcx). apply N.eqb_eq in Hcx. subst x.
  unfold one_line in Hl. rewrite forallb_forall in Hl.
  specialize (Hl c Hx). now rewrite Hc in Hl.
Qed.

(** X1.  [load_env_file] only reads, and what it returns comes from the
    lines of the file: the world is left as it was and nothing is printed,
    and every entry of the mapping it returns is assigned by a line of the
    file, with a key that holds no [=], has no blank at either end and does
    not start with [#], a value with no double quote at either end, and no
    line boundary in either of them. *)
Theorem load_env_file_reads_only path w :
  snd (fst (load_env_file path w)) = w
  /\ snd (load_env_file path w) = []
  /\ (forall m K V,
        fst (fst (load_env_file path w)) = Ret m ->
        m !! K = Some V ->
        (exists text l,
            find path (fs w) = Some (File text)
            /\ In l (splitlines text)
            /\ parse_line l = Some (K, V))
        /\ contains_char EQUALS K = false
        /\ ends_free is_space K = true
        /\ startswith_char HASH K = false
        /\ ends_free (N.eqb QUOTE) V = true
        /\ forall c,
             is_linebreak c = true ->
             contains_char c K = false /\ contains_char c V = false).
Proof.
  unfold load_env_file.
  destruct (find path (fs w)) as [[text | d]|]; cbn [fst snd].
  - split; [reflexivity|]. split; [reflexivity|].
    intros m K V [= <-] Hm.
    destruct (load_lines_from_line _ _ _ _ Hm) as [Hm0 | (l & Hin & Hp)].
    { rewrite lookup_empty in Hm0. discriminate. }
    destruct (parse_line_shape l K V Hp)
      as (H1 & H2 & H3 & H4 & k & v & Hs & _ & HK & HV).
    split; [now exists text, l|].
    split; [exact H1|]. split; [exact H2|]. split; [exact H3|].
    split; [exact H4|].
    intros c Hc.
    pose proof (one_line_no_break l c (splitlines_lines _ _ Hin) Hc) as Hl.
    assert (Hline : contains_char c (k ++ EQUALS :: v) = false).
    { destruct (contains_char c (k ++ EQUALS :: v)) eqn:E; [|reflexivity].
      rewrite <- Hs in E. apply strip_with_incl in E. congruence. }
    rewrite contains_char_app in Hline. apply orb_false_elim in Hline as [Hk Hv].
    simpl in Hv. apply orb_false_elim in Hv as [_ Hv].
    split.
    + destruct (contains_char c K) eqn:E; [|reflexivity].
      rewrite HK in E. apply strip_with_incl in E. congruence.
    + destruct (contains_char c V) eqn:E; [|reflexivity].
      rewrite HV in E. unfold strip_char in E.
      do 3 apply strip_with_incl in E. congruence.
  - split; [reflexivity|]. split; [reflexivity|]. discriminate.
  - split; [reflexivity|]. split; [reflexivity|].
    intros m K V [= <-] Hm. rewrite lookup_empty in Hm. discriminate.
Qed.

(** X2.  Line endings do not matter to the loader: lines without a line
    boundary load to the same mapping whether the file ends each of them
    with a line feed or with a carriage return and a line feed. *)
Theorem load_env_file_line_endings path w1 w2 ls :
  forallb one_line ls = true ->
  find path (fs w1) = Some (File (concat (map (fun l => l ++ [LF]) ls))) ->
  find path (fs w2) = Some (File (concat (map (fun l => l ++ [CR; LF]) ls))) ->
  fst (fst (load_env_file path w1)) = Ret (load_lines ls ∅)
  /\ fst (fst (load_env_file path w2)) = Ret (load_lines ls ∅).
Proof.
  intros Hls H1 H2. destruct (splitlines_of_written_lines ls Hls) as [E1 E2].
  rewrite (load_env_file_text _ _ _ H1), (load_env_file_text _ _ _ H2).
  cbn [fst]. now rewrite E1, E2.
Qed.

Lemma load_env_file_line_endings_witness :
  fst (fst (load_env_file [u ".env"] foo_bar_world))
  = Ret (load_lines foo_bar_lines ∅)
  /\ fst (fst (load_env_file [u ".env"] foo_bar_crlf_world))
     = Ret (load_lines foo_bar_lines ∅).
Proof.
  apply (load_env_file_line_endings [u ".env"] foo_bar_world
           foo_bar_crlf_world foo_bar_lines); reflexivity.
Defined.

(** ** Prerequisites, in every case *)

(** Decide the next membership test of the goal. *)
Ltac decide_on_path :=
  match goal with
  | |- context [bool_decide (?x ∈ on_path ?w)] =>
      let E := fresh "Epath" in
      destruct (bool_decide (x ∈ on_path w)) eqn:E;
      [apply bool_decide_eq_true in E | apply bool_decide_eq_false in E];
      cbn [negb fst snd app ret raise is_Exception]
  end.

(** X3.  [ensure_prereqs] returns exactly when [git] is found and [java]
    is found in the world the step leaves; everything else ends in a
    [SystemExit], never in the error of the install attempt; and without
    [git] it exits with [git_missing] at once. *)
Theorem ensure_prereqs_outcome h w :
  let run := ensure_prereqs h w in
  let r := fst (fst run) in
  let w' := snd (fst run) in
  (r = Ret tt <-> u "git" ∈ on_path w /\ u "java" ∈ on_path w')
  /\ (r = Ret tt \/ r = Raise (SystemExit git_missing)
      \/ r = Raise (SystemExit java_missing))
  /\ (u "git" ∉ on_path w ->
      run = (Raise (SystemExit git_missing), w, [])).
Proof.
  cbv zeta. unfold ensure_prereqs, bind, have_cmd, try_except, log, emit.
  decide_on_path.
  2:{ split; [split; [discriminate | tauto]|]. split; [tauto | reflexivity]. }
  decide_on_path.
  { split; [tauto|]. split; [tauto | contradiction]. }
  destruct (is_windows h); cbn [ret fst snd].
  - decide_on_path.
    + run_checked_step; cbn [is_Exception fst snd app ret].
      all: decide_on_path.
      all: split; [split; [try discriminate; tauto | tauto]|].
      all: split; [tauto | contradiction].
    + decide_on_path; [contradiction|].
      split; [split; [discriminate | tauto]|]. split; [tauto | contradiction].
  - decide_on_path; [contradiction|].
    split; [split; [discriminate | tauto]|]. split; [tauto | contradiction].
Qed.

(** X4.  The one subprocess [ensure_prereqs] can run is the unattended
    OpenJDK install, and it runs it exactly on a windows-family host with
    [git] and [winget] found and [java] missing; in every other case it
    runs none and leaves the world as it is. *)
Theorem ensure_prereqs_install_attempt h w :
  let run := ensure_prereqs h w in
  let attempt :=
    is_windows h && bool_decide (u "git" ∈ on_path w)
    && negb (bool_decide (u "java" ∈ on_path w))
    && bool_decide (u "winget" ∈ on_path w) in
  spawned (snd run) = (if attempt then [cmd winget_openjdk] else [])
  /\ snd (fst run)
     = (if attempt then snd (spawn h (cmd winget_openjdk) w) else w).
Proof.
  cbv zeta. unfold ensure_prereqs, bind, have_cmd, try_except, log, emit.
  decide_on_path; [|now rewrite andb_false_r].
  decide_on_path; [now rewrite andb_false_r|].
  destruct (is_windows h); cbn [ret fst snd andb].
  - decide_on_path.
    + run_checked_step; cbn [is_Exception fst snd app ret];
        rewrite Hspawn; decide_on_path; split; reflexivity.
    + decide_on_path; [contradiction|]. split; reflexivity.
  - decide_on_path; [contradiction|]. split; reflexivity.
Qed.

(** ** The version-controlled tool *)

Lemma install_flutter_absent h flutter_root env_map w :
  exists_in (flutter_bin h flutter_root) (fs w) = false ->
  install_flutter h flutter_root env_map w
  = (log (u "Installing Flutter into " ++ path_str h flutter_root ++ u " ...") >>
     mkdir (parent flutter_root) >>
     match strip (dict_get env_map (u "FLUTTER_REF") []) with
     | _ :: _ =>
         run_checked h (git_clone_default h flutter_root) >>
         run_checked h
           (git_fetch_ref h flutter_root
              (strip (dict_get env_map (u "FLUTTER_REF") []))) >>
         run_checked h
           (git_checkout_ref h flutter_root
              (strip (dict_get env_map (u "FLUTTER_REF") [])))
     | [] =>
         run_checked h
           (git_clone_channel h flutter_root
              (dict_get env_map (u "FLUTTER_CHANNEL") (u "stable")))
     end) w.
Proof.
  intros H. unfold install_flutter. unfold bind at 1.
  unfold path_exists at 1. rewrite H. apply pair_eta3.
Qed.

(** X5.  A ref of blanks only is no ref: [install_flutter] runs as it does
    without the [FLUTTER_REF] entry, by the channel. *)
Theorem blank_ref_is_no_ref h flutter_root env_map w ref :
  strip ref = [] ->
  install_flutter h flutter_root (<[u "FLUTTER_REF" := ref]> env_map) w
  = install_flutter h flutter_root (delete (u "FLUTTER_REF") env_map) w.
Proof.
  intros Hblank.
  destruct (exists_in (flutter_bin h flutter_root) (fs w)) eqn:E.
  - now rewrite !install_flutter_present.
  - rewrite !install_flutter_absent by exact E. unfold dict_get.
    rewrite lookup_insert_eq, lookup_delete_eq. cbn [default from_option id].
    rewrite Hblank.
    rewrite lookup_insert_ne, lookup_delete_ne
      by (intros H; symmetry in H; now apply channel_key_is_not_ref in H).
    reflexivity.
Qed.

Lemma blank_ref_is_no_ref_witness :
  install_flutter (sample_host false all_succeed) sample_flutter_root
    (<[u "FLUTTER_REF" := u "   "]> ∅) fresh_world
  = install_flutter (sample_host false all_succeed) sample_flutter_root
      (delete (u "FLUTTER_REF") ∅) fresh_world.
Proof.
  apply (blank_ref_is_no_ref (sample_host false all_succeed)
           sample_flutter_root ∅ fresh_world (u "   ")).
  reflexivity.
Defined.

(** ** What copying and making directories keep *)

Lemma node_kept_refl x : node_kept x x.
Proof. now intros p k. Qed.

Lemma node_kept_trans x y z : node_kept x y -> node_kept y z -> node_kept x z.
Proof. intros H1 H2 p k H. now apply H2, H1. Qed.

Lemma node_kept_dir d d' :
  (forall n y, lookup_entry n d = Some y ->
               exists y', lookup_entry n d' = Some y' /\ node_kept y y') ->
  node_kept (Dir d) (Dir d').
Proof.
  intros H [|n p] k; [easy|]. simpl.
  destruct (lookup_entry n d) as [y|] eqn:E; [|discriminate].
  destruct (H n y E) as (y' & -> & Hy). apply Hy.
Qed.

Lemma set_entry_kept n x d :
  (forall y, lookup_entry n d = Some y -> node_kept y x) ->
  node_kept (Dir d) (Dir (set_entry n x d)).
Proof.
  intros H. apply node_kept_dir. intros m y Hm.
  destruct (decide (n = m)) as [<- | Hne].
  - exists x. split; [apply lookup_set_entry_eq | now apply H].
  - exists y. split; [now rewrite lookup_set_entry_ne | apply node_kept_refl].
Qed.

Lemma node_kept_files old data : node_kept (File old) (File data).
Proof. intros [|n p] k; [easy | discriminate]. Qed.

Lemma copy_each_kept es :
  Forall (fun e => forall name d,
              node_kept (Dir d) (Dir (fst (copy_node name (snd e) d)))) es ->
  forall acc, node_kept (Dir (fst acc)) (Dir (fst (copy_each es acc))).
Proof.
  induction 1 as [|[n c] es Hc Hes IH]; intros acc; [apply node_kept_refl|].
  simpl. specialize (Hc n (fst acc)). simpl in Hc.
  destruct (copy_node n c (fst acc)) as [s f].
  eapply node_kept_trans; [exact Hc | apply (IH (s, snd acc || f))].
Qed.

(** A copy removes nothing and changes the kind of nothing. *)
Lemma copy_node_kept item :
  forall name d, node_kept (Dir d) (Dir (fst (copy_node name item d))).
Proof.
  induction item as [data | es IH] using node_induction; intros name d.
  - simpl. unfold copy2.
    destruct (lookup_entry name d) as [[old | sub]|] eqn:E.
    + apply set_entry_kept. intros y Hy. rewrite E in Hy.
      injection Hy as <-. apply node_kept_files.
    + destruct (lookup_entry name sub) as [[old | sub']|] eqn:E';
        [| apply node_kept_refl |].
      * apply set_entry_kept. intros y Hy. rewrite E in Hy.
        injection Hy as <-. apply set_entry_kept. intros y Hy.
        rewrite E' in Hy. injection Hy as <-. apply node_kept_files.
      * apply set_entry_kept. intros y Hy. rewrite E in Hy.
        injection Hy as <-. apply set_entry_kept. intros y Hy.
        rewrite E' in Hy. discriminate.
    + apply set_entry_kept. intros y Hy. rewrite E in Hy. discriminate.
  - rewrite copy_node_dir.
    destruct (lookup_entry name d) as [[old | sub]|] eqn:E;
      [apply node_kept_refl | |]; cbv zeta.
    + pose proof (copy_each_kept es IH (sub, false)) as Hk.
      destruct (copy_each es (sub, false)) as [s f]. simpl in *.
      apply set_entry_kept. intros y Hy. rewrite E in Hy. now injection Hy as <-.
    + destruct (copy_each es ([], false)) as [s f]. simpl.
      apply set_entry_kept. intros y Hy. rewrite E in Hy. discriminate.
Qed.

Lemma put_dir_kept p s s0 d :
  find p d = Some (Dir s0) ->
  node_kept (Dir s0) (Dir s) ->
  node_kept (Dir d) (Dir (put_dir p s d)).
Proof.
  revert d. induction p as [|n p IH]; intros d H Hk.
  - injection H as <-. exact Hk.
  - rewrite find_cons in H. simpl put_dir.
    destruct (lookup_entry n d) as [[data | s1]|] eqn:E.
    + destruct p; discriminate.
    + apply set_entry_kept. intros y Hy. rewrite E in Hy. injection Hy as <-.
      now apply IH.
    + discriminate.
Qed.

Lemma mkdir_p_kept p :
  forall d d', mkdir_p p d = Some d' -> node_kept (Dir d) (Dir d').
Proof.
  induction p as [|n p IH]; intros d d' H.
  - injection H as <-. apply node_kept_refl.
  - simpl in H.
    destruct (lookup_entry n d) as [[data | s]|] eqn:E; [discriminate | |].
    + destruct (mkdir_p p s) as [s'|] eqn:Es; [|discriminate].
      injection H as <-. apply set_entry_kept. intros y Hy. rewrite E in Hy.
      injection Hy as <-. now apply IH.
    + destruct (mkdir_p p []) as [s'|] eqn:Es; [|discriminate].
      injection H as <-. apply set_entry_kept. intros y Hy. rewrite E in Hy.
      discriminate.
Qed.

(** The placement loop, however it ends: the world it leaves differs in
    the directory [latest] only, which has kept what it held; the loop runs
    no subprocess, and without a copy it leaves the world as it is. *)
Lemma place_items_any latest items :
  forall w d0,
    find latest (fs w) = Some (Dir d0) ->
    exists d',
      snd (fst (place_items latest items w))
      = with_fs (put_dir latest d' (fs w)) w
      /\ node_kept (Dir d0) (Dir d')
      /\ spawned (snd (place_items latest items w)) = []
      /\ (copies (snd (place_items latest items w)) = [] -> d' = d0).
Proof.
  induction items as [|[n c] rest IH]; intros w d0 Hl.
  - exists d0. simpl. rewrite (put_dir_same _ _ _ Hl), with_fs_same.
    repeat split. apply node_kept_refl.
  - simpl place_items. unfold bind, place_item. rewrite Hl.
    pose proof (copy_node_kept c n d0) as Hk.
    destruct (copy_node n c d0) as [d1 f] eqn:E. simpl in Hk.
    destruct f.
    + exists d1. cbn [fst snd spawned copies]. repeat split; [exact Hk|].
      discriminate.
    + assert (Hl1 : find latest (fs (with_fs (put_dir latest d1 (fs w)) w))
                    = Some (Dir d1)).
      { simpl. rewrite <- (app_nil_r latest) at 1.
        now rewrite (find_put_dir _ _ _ _ _ Hl). }
      destruct (IH _ d1 Hl1) as (d' & Hw & Hk' & Hs & _).
      destruct (place_items latest rest (with_fs (put_dir latest d1 (fs w)) w))
        as [[r w2] t2].
      cbn [fst snd] in *. exists d'. subst w2. simpl.
      rewrite (put_dir_put_dir _ _ _ _ _ Hl).
      repeat split; [now apply (node_kept_trans _ (Dir d1)) | exact Hs|].
      discriminate.
Qed.

(** ** The command-line tools, in every case *)

Lemma kept_dirs_and_files d d' :
  node_kept (Dir d) (Dir d') ->
  (forall p, dir_at p d = true -> dir_at p d' = true)
  /\ (forall p, file_at p d <> None -> file_at p d' <> None).
Proof.
  intros H. unfold dir_at, file_at, dir_at_node, file_at_node. split; intros p Hp.
  - specialize (H p true). unfold kind_of in H.
    destruct (find_node p (Dir d)) as [[?|?]|]; try discriminate.
    specialize (H eq_refl).
    now destruct (find_node p (Dir d')) as [[?|?]|].
  - specialize (H p false). unfold kind_of in H.
    destruct (find_node p (Dir d)) as [[?|?]|]; try contradiction.
    specialize (H eq_refl).
    now destruct (find_node p (Dir d')) as [[?|?]|].
Qed.

(** The ways [install_android_cmdline] can leave the tree. *)
Lemma install_android_cmdline_tree h android_sdk env_map w :
  let run := install_android_cmdline h android_sdk env_map w in
  let latest := latest_dir android_sdk in
  spawned (snd run) = []
  /\ ((snd (fst run) = w /\ copies (snd run) = [])
      \/ (exists fs1,
            mkdir_p android_sdk (fs w) = Some fs1
            /\ snd (fst run) = with_fs fs1 w /\ copies (snd run) = [])
      \/ (exists fs1 fs2 d0 d',
            mkdir_p android_sdk (fs w) = Some fs1
            /\ mkdir_p latest fs1 = Some fs2
            /\ find latest fs2 = Some (Dir d0)
            /\ node_kept (Dir d0) (Dir d')
            /\ (copies (snd run) = [] -> d' = d0)
            /\ snd (fst run) = with_fs (put_dir latest d' fs2) w)).
Proof.
  cbv zeta. unfold install_android_cmdline, latest_dir.
  unfold download, unzip, iterdir, path_exists, mkdir, log, emit.
  unfold bind, ret, raise. cbv beta.
  destruct (exists_in (sdkmanager_bin h android_sdk) (fs w)).
  { split; [reflexivity|]. left. split; reflexivity. }
  destruct (mkdir_p android_sdk (fs w)) as [fs1|] eqn:E1;
    [|split; [reflexivity|]; left; split; reflexivity].
  cbn [fs with_fs].
  destruct (mkdir_p (android_sdk ++ [u "cmdline-tools"; u "latest"]) fs1)
    as [fs2|] eqn:E2;
    [|split; [reflexivity|]; right; left; exists fs1; split; [reflexivity|]; split; reflexivity].
  pose proof (mkdir_p_find _ _ _ E2) as Hl.
  change (with_fs fs2 (with_fs fs1 w)) with (with_fs fs2 w).
  assert (Hstay : forall P : Prop, exists fs1' fs2' d0 d',
      Some fs1 = Some fs1'
      /\ mkdir_p (android_sdk ++ [u "cmdline-tools"; u "latest"]) fs1' = Some fs2'
      /\ find (android_sdk ++ [u "cmdline-tools"; u "latest"]) fs2' = Some (Dir d0)
      /\ node_kept (Dir d0) (Dir d')
      /\ (P -> d' = d0)
      /\ with_fs fs2 w
         = with_fs (put_dir (android_sdk ++ [u "cmdline-tools"; u "latest"]) d' fs2') w).
  { intros P. eexists fs1, fs2, _, _.
    split; [reflexivity|]. split; [exact E2|]. split; [exact Hl|].
    split; [apply node_kept_refl|]. split; [reflexivity|].
    now rewrite (put_dir_same _ _ _ Hl). }
  match goal with |- context [urlretrieve h ?x ?y] =>
    destruct (urlretrieve h x y) as [zdata|] end;
    [|split; [reflexivity|]; right; right; exact (Hstay _)].
  destruct (zip_tree h zdata) as [tree|];
    [|split; [reflexivity|]; right; right; exact (Hstay _)].
  cbv beta iota.
  destruct (find [u "cmdline-tools"] tree) as [[data | items]|];
    [split; [reflexivity|]; right; right; exact (Hstay _)
    | |split; [reflexivity|]; right; right; exact (Hstay _)].
  destruct (place_items_any (android_sdk ++ [u "cmdline-tools"; u "latest"])
              items (with_fs fs2 w) _ Hl) as (d' & Hw & Hk & Hs & Hc).
  destruct (place_items (android_sdk ++ [u "cmdline-tools"; u "latest"]) items
              (with_fs fs2 w)) as [[r w2] t2].
  cbn [fst snd app spawned copies fs with_fs] in *.
  split; [exact Hs|]. right; right.
  exists fs1, fs2, (entries_at (android_sdk ++ [u "cmdline-tools"; u "latest"]) fs1), d'.
  split; [reflexivity|]. split; [exact E2|]. split; [exact Hl|].
  split; [exact Hk|]. split; [exact Hc|]. rewrite Hw. reflexivity.
Qed.

(** X6.  Whatever happens in it, [install_android_cmdline] runs no
    subprocess and removes nothing: every directory of the tree is still a
    directory afterwards and every regular file still a regular file; no
    file outside [cmdline-tools/latest] is changed; a run that copied
    nothing has changed no file at all; and only the tree of the world
    changes. *)
Theorem install_android_cmdline_keeps h android_sdk env_map w :
  let run := install_android_cmdline h android_sdk env_map w in
  let w' := snd (fst run) in
  spawned (snd run) = []
  /\ w' = with_fs (fs w') w
  /\ (forall p, dir_at p (fs w) = true -> dir_at p (fs w') = true)
  /\ (forall p, file_at p (fs w) <> None -> file_at p (fs w') <> None)
  /\ (forall q,
        ~ (exists r, q = latest_dir android_sdk ++ r) ->
        file_at q (fs w') = file_at q (fs w))
  /\ (copies (snd run) = [] -> forall p, file_at p (fs w') = file_at p (fs w)).
Proof.
  cbv zeta.
  destruct (install_android_cmdline_tree h android_sdk env_map w)
    as (Hs & [(Hw & Hc) | [(fs1 & E1 & Hw & Hc)
                          | (fs1 & fs2 & d0 & d' & E1 & E2 & Hl & Hk & Hc & Hw)]]).
  all: cbv zeta in *; split; [exact Hs|]; rewrite Hw.
  - rewrite with_fs_same. repeat split; auto.
  - cbn [fs with_fs].
    destruct (kept_dirs_and_files _ _ (mkdir_p_kept _ _ _ E1)) as [Hd Hf].
    repeat split; auto; intros; now apply (mkdir_p_files _ _ _ _ E1).
  - cbn [fs with_fs].
    assert (Hall : node_kept (Dir (fs w))
                     (Dir (put_dir (latest_dir android_sdk) d' fs2))).
    { eapply node_kept_trans; [apply (mkdir_p_kept _ _ _ E1)|].
      eapply node_kept_trans; [apply (mkdir_p_kept _ _ _ E2)|].
      now apply (put_dir_kept _ _ d0). }
    destruct (kept_dirs_and_files _ _ Hall) as [Hd Hf].
    repeat split; auto.
    + intros q Hq.
      rewrite (proj1 (put_dir_frame _ d' fs2 q Hq)).
      rewrite (mkdir_p_files _ _ _ q E2). apply (mkdir_p_files _ _ _ q E1).
    + intros Hc0 p. rewrite (Hc Hc0), (put_dir_same _ _ _ Hl).
      rewrite (mkdir_p_files _ _ _ p E2). apply (mkdir_p_files _ _ _ p E1).
Qed.

(** ** The marker of the command-line tools *)

Lemma exists_in_kinds p d :
  exists_in p d
  = (match file_at p d with Some _ => true | None => false end) || dir_at p d.
Proof.
  unfold exists_in, file_at, dir_at, file_at_node, dir_at_node, find.
  now destruct (find_node p (Dir d)) as [[?|?]|].
Qed.

Lemma sdkmanager_bin_below_latest h android_sdk :
  sdkmanager_bin h android_sdk
  = latest_dir android_sdk
    ++ [u "bin"; if is_windows h then u "sdkmanager.bat" else u "sdkmanager"].
Proof.
  unfold sdkmanager_bin, latest_dir. now rewrite <- !app_assoc.
Qed.

(** Two [mkdir] down to [latest] show what was below [latest] before. *)
Lemma latest_after_mkdir android_sdk d fs1 fs2 :
  mkdir_p android_sdk d = Some fs1 ->
  mkdir_p (latest_dir android_sdk) fs1 = Some fs2 ->
  find (latest_dir android_sdk) fs2
  = Some (Dir (entries_at (latest_dir android_sdk) d)).
Proof.
  intros Hd1 Hd2.
  assert (Hlatest1 : find (latest_dir android_sdk) fs1
                     = find (latest_dir android_sdk) d).
  { unfold latest_dir. rewrite find_app.
    rewrite (mkdir_p_find _ _ _ Hd1).
    now rewrite find_below_entries_at. }
  rewrite (mkdir_p_find _ _ _ Hd2). unfold entries_at. now rewrite Hlatest1.
Qed.

(** The run that gets as far as the placement loop and through it. *)
Lemma install_android_cmdline_unpacked
    h android_sdk env_map w fs1 fs2 zdata tree items :
  let latest := latest_dir android_sdk in
  let url :=
    cmdline_tools_url h
      (dict_get env_map (u "ANDROID_CMDLINE_TOOLS") (u "11076708")) in
  exists_in (sdkmanager_bin h android_sdk) (fs w) = false ->
  mkdir_p android_sdk (fs w) = Some fs1 ->
  mkdir_p latest fs1 = Some fs2 ->
  urlretrieve h url (with_fs fs2 w) = Some zdata ->
  zip_tree h zdata = Some tree ->
  find [u "cmdline-tools"] tree = Some (Dir items) ->
  unique_names (Dir items) = true ->
  forallb (fun e => same_kinds (fst e) (snd e) (entries_at latest (fs w))) items
  = true ->
  exists d',
    merged_at (Dir items) (Some (Dir (entries_at latest (fs w)))) (Dir d')
    /\ install_android_cmdline h android_sdk env_map w
       = (Ret tt, with_fs (put_dir latest d' fs2) w,
          [Log (u "Installing Android cmdline-tools "
                ++ dict_get env_map (u "ANDROID_CMDLINE_TOOLS") (u "11076708")
                ++ u " into " ++ path_str h android_sdk ++ u " ...");
           Mkdir android_sdk; Mkdir latest;
           Log (u "Downloading: " ++ url); Download url; Unzip]
          ++ map (fun e => Copy (latest ++ [fst e])) items).
Proof.
  intros latest url Hmarker Hd1 Hd2 Hurl Hzip Htree Hun Hsk.
  pose proof (latest_after_mkdir _ _ _ _ Hd1 Hd2) as Hl2.
  destruct (copy_each_children items _ Hun Hsk) as (d' & Heach & Hmerged).
  exists d'. split; [exact Hmerged|].
  subst latest. unfold latest_dir in *.
  set (latest := android_sdk ++ [u "cmdline-tools"; u "latest"]) in *.
  unfold install_android_cmdline.
  unfold bind at 1. unfold path_exists at 1. rewrite Hmarker.
  unfold bind, log, emit, mkdir. rewrite Hd1.
  cbn [fs with_fs]. fold latest. rewrite Hd2.
  unfold download, bind, log, emit. fold url.
  change (with_fs fs2 (with_fs fs1 w)) with (with_fs fs2 w).
  rewrite Hurl. unfold unzip. rewrite Hzip.
  unfold bind, emit, ret, iterdir. rewrite Htree. unfold ret.
  rewrite (place_items_copy_each latest items (with_fs fs2 w) _ d' Hl2 Heach).
  reflexivity.
Qed.

(** X7.  After a run of [install_android_cmdline] that placed every child
    of the archive's wrapper directory, the marker [sdkmanager_bin] exists
    exactly when the archive holds it at [cmdline-tools/bin].  With it a
    second run does nothing but print that the tools are present; without
    it the run has returned normally all the same, and it is
    [install_android_packages] that raises. *)
Theorem cmdline_tools_marker
    h android_sdk env_map flutter_root w fs1 fs2 zdata tree items :
  let latest := latest_dir android_sdk in
  let url :=
    cmdline_tools_url h
      (dict_get env_map (u "ANDROID_CMDLINE_TOOLS") (u "11076708")) in
  let tool := [u "bin"; if is_windows h then u "sdkmanager.bat" else u "sdkmanager"] in
  exists_in (sdkmanager_bin h android_sdk) (fs w) = false ->
  mkdir_p android_sdk (fs w) = Some fs1 ->
  mkdir_p latest fs1 = Some fs2 ->
  urlretrieve h url (with_fs fs2 w) = Some zdata ->
  zip_tree h zdata = Some tree ->
  find [u "cmdline-tools"] tree = Some (Dir items) ->
  unique_names (Dir items) = true ->
  forallb (fun e => same_kinds (fst e) (snd e) (entries_at latest (fs w))) items
  = true ->
  let run := install_android_cmdline h android_sdk env_map w in
  let w' := snd (fst run) in
  fst (fst run) = Ret tt
  /\ exists_in (sdkmanager_bin h android_sdk) (fs w') = exists_in tool items
  /\ (exists_in tool items = true ->
      install_android_cmdline h android_sdk env_map w'
      = (Ret tt, w', [Log (u "Android cmdline-tools already present.")]))
  /\ (exists_in tool items = false ->
      install_android_packages h android_sdk env_map flutter_root w'
      = (Raise (RuntimeError
                  (u "sdkmanager not found at "
                   ++ path_str h (sdkmanager_bin h android_sdk))),
         w', [])).
Proof.
  intros latest url tool Hmarker Hd1 Hd2 Hurl Hzip Htree Hun Hsk.
  destruct (install_android_cmdline_unpacked h android_sdk env_map w
              fs1 fs2 zdata tree items Hmarker Hd1 Hd2 Hurl Hzip Htree Hun Hsk)
    as (d' & Hmerged & Hrun).
  pose proof (latest_after_mkdir _ _ _ _ Hd1 Hd2) as Hl2.
  cbv zeta. rewrite Hrun. cbn [fst snd fs with_fs].
  assert (Hex : exists_in (sdkmanager_bin h android_sdk)
                  (put_dir (latest_dir android_sdk) d' fs2)
                = exists_in tool items).
  { rewrite sdkmanager_bin_below_latest in Hmarker |- *. fold tool in Hmarker |- *.
    rewrite exists_in_kinds in Hmarker. apply orb_false_elim in Hmarker.
    destruct Hmarker as [Hnofile Hnodir].
    rewrite !exists_in_kinds.
    destruct (observe_put_dir _ tool d' _ _ Hl2) as [-> ->].
    destruct (Hmerged tool) as [Hfile Hdir].
    assert (Htool : tool <> []) by discriminate.
    destruct (observe_entries_at (latest_dir android_sdk) tool (fs w) Htool)
      as [Hf0 Hd0].
    unfold file_at, dir_at in *. rewrite Hfile, Hdir, Hf0, Hd0, Hnodir.
    destruct (file_at_node (latest_dir android_sdk ++ tool) (Dir (fs w)));
      [discriminate|].
    rewrite orb_false_r.
    now destruct (file_at_node tool (Dir items)). }
  split; [reflexivity|]. split; [exact Hex|]. split; intros Htool.
  - apply install_android_cmdline_present. cbn [fs with_fs].
    now rewrite Hex.
  - apply install_android_packages_not_found. cbn [fs with_fs].
    now rewrite Hex.
Qed.

Lemma cmdline_tools_marker_witness :
  install_android_cmdline (sample_host false all_succeed) sample_android_sdk ∅
    (snd (fst (install_android_cmdline (sample_host false all_succeed)
                 sample_android_sdk ∅ readme_world)))
  = (Ret tt,
     snd (fst (install_android_cmdline (sample_host false all_succeed)
                 sample_android_sdk ∅ readme_world)),
     [Log (u "Android cmdline-tools already present.")]).
Proof.
  destruct (cmdline_tools_marker (sample_host false all_succeed)
              sample_android_sdk ∅ sample_flutter_root readme_world
              (fs readme_world) (fs readme_world) (u "PK")
              sample_archive sample_items
              eq_refl eq_refl eq_refl eq_refl eq_refl eq_refl eq_refl eq_refl)
    as (_ & _ & Hagain & _).
  apply Hagain. reflexivity.
Defined.

(** X8.  A download that fails after the two directories were made ends
    [install_android_cmdline] with the error of the download: the download
    is the last thing it does, so nothing is unpacked or copied and no file
    changes; the directories made stay; and the marker is as absent as
    before, so that a later run downloads again. *)
Theorem cmdline_tools_download_fails h android_sdk env_map w fs1 fs2 :
  let latest := latest_dir android_sdk in
  let url :=
    cmdline_tools_url h
      (dict_get env_map (u "ANDROID_CMDLINE_TOOLS") (u "11076708")) in
  exists_in (sdkmanager_bin h android_sdk) (fs w) = false ->
  mkdir_p android_sdk (fs w) = Some fs1 ->
  mkdir_p latest fs1 = Some fs2 ->
  urlretrieve h url (with_fs fs2 w) = None ->
  let run := install_android_cmdline h android_sdk env_map w in
  let w' := snd (fst run) in
  fst (fst run) = Raise (OSError (u "URLError"))
  /\ w' = with_fs fs2 w
  /\ snd run
     = [Log (u "Installing Android cmdline-tools "
             ++ dict_get env_map (u "ANDROID_CMDLINE_TOOLS") (u "11076708")
             ++ u " into " ++ path_str h android_sdk ++ u " ...");
        Mkdir android_sdk; Mkdir latest;
        Log (u "Downloading: " ++ url); Download url]
  /\ copies (snd run) = []
  /\ dir_at latest (fs w') = true
  /\ (forall p, file_at p (fs w') = file_at p (fs w))
  /\ exists_in (sdkmanager_bin h android_sdk) (fs w') = false.
Proof.
  intros latest url Hmarker Hd1 Hd2 Hurl. subst latest.
  pose proof (latest_after_mkdir _ _ _ _ Hd1 Hd2) as Hl2.
  assert (Hrun :
    install_android_cmdline h android_sdk env_map w
    = (Raise (OSError (u "URLError")), with_fs fs2 w,
       [Log (u "Installing Android cmdline-tools "
             ++ dict_get env_map (u "ANDROID_CMDLINE_TOOLS") (u "11076708")
             ++ u " into " ++ path_str h android_sdk ++ u " ...");
        Mkdir android_sdk; Mkdir (latest_dir android_sdk);
        Log (u "Downloading: " ++ url); Download url])).
  { unfold latest_dir in *.
    unfold install_android_cmdline.
    unfold bind at 1. unfold path_exists at 1. rewrite Hmarker.
    unfold bind, log, emit, mkdir. rewrite Hd1.
    cbn [fs with_fs]. rewrite Hd2.
    unfold download, bind, log, emit. fold url.
    change (with_fs fs2 (with_fs fs1 w)) with (with_fs fs2 w).
    rewrite Hurl. reflexivity. }
  cbv zeta. rewrite Hrun. cbn [fst snd fs with_fs].
  split; [reflexivity|]. split; [reflexivity|]. split; [reflexivity|].
  split; [reflexivity|]. split; [|split].
  - unfold dir_at, dir_at_node.
    change (find_node (latest_dir android_sdk) (Dir fs2))
      with (find (latest_dir android_sdk) fs2).
    now rewrite Hl2.
  - intros p. rewrite (mkdir_p_files _ _ _ p Hd2).
    apply (mkdir_p_files _ _ _ p Hd1).
  - rewrite sdkmanager_bin_below_latest in Hmarker |- *.
    unfold exists_in in *. rewrite find_app, Hl2.
    rewrite find_below_entries_at by discriminate. exact Hmarker.
Qed.

Lemma cmdline_tools_download_fails_witness :
  fst (fst (install_android_cmdline (offline (sample_host false all_succeed))
              sample_android_sdk ∅ readme_world))
  = Raise (OSError (u "URLError"))
  /\ exists_in (sdkmanager_bin (offline (sample_host false all_succeed))
                  sample_android_sdk)
       (fs (snd (fst (install_android_cmdline
                        (offline (sample_host false all_succeed))
                        sample_android_sdk ∅ readme_world))))
     = false.
Proof.
  destruct (cmdline_tools_download_fails
              (offline (sample_host false all_succeed))
              sample_android_sdk ∅ readme_world
              (fs readme_world) (fs readme_world)
              eq_refl eq_refl eq_refl eq_refl)
    as (Hraised & _ & _ & _ & _ & _ & Habsent).
  split; [exact Hraised | exact Habsent].
Defined.

(** ** The SDK components, in every case *)

(** X9.  The subprocesses of [install_android_packages] are the licence
    call, the package call, the [config] call and the [precache] call, in
    this order, cut after the first of the last three that does not exit
    with code 0: the call after one of these is run when it exits with
    code 0, and when it does not, it is the last call run and the step
    raises.  Without [sdkmanager] the step raises before it runs or prints
    anything; with it the licence and the package call are always run.
    The step returns exactly when the [precache] call exits with code 0,
    whatever became of the licence call, and then every call but the
    licence call has exited with code 0. *)
Theorem install_android_packages_outcome h android_sdk env_map flutter_root w :
  let env := android_env h android_sdk (environ w) in
  let run := install_android_packages h android_sdk env_map flutter_root w in
  let licences := licenses_call h android_sdk env in
  let packages := packages_call h android_sdk env_map env in
  let config := flutter_config_call h android_sdk flutter_root env in
  let precache := precache_call h flutter_root env in
  let calls := [licences; packages; config; precache] in
  (exists n, spawned (snd run) = firstn n calls)
  /\ (exists_in (sdkmanager_bin h android_sdk) (fs w) = false ->
      run = (Raise (RuntimeError
                      (u "sdkmanager not found at "
                       ++ path_str h (sdkmanager_bin h android_sdk))),
             w, []))
  /\ (exists_in (sdkmanager_bin h android_sdk) (fs w) = true ->
      exists n, spawned (snd run) = firstn (2 + n) calls)
  /\ (fst (fst run) = Ret tt
      <-> exists text, In (Spawn precache (Exited 0 text)) (snd run))
  /\ (fst (fst run) = Ret tt ->
      spawned (snd run) = calls
      /\ forall c o,
           In (Spawn c o) (snd run) ->
           c <> licences ->
           exists text, o = Exited 0 text)
  /\ (forall text,
        In (Spawn packages (Exited 0 text)) (snd run) ->
        exists n, spawned (snd run) = firstn (3 + n) calls)
  /\ (forall text,
        In (Spawn config (Exited 0 text)) (snd run) ->
        spawned (snd run) = calls)
  /\ (forall c o,
        In (Spawn c o) (snd run) ->
        c <> licences ->
        (forall text, o <> Exited 0 text) ->
        (exists before, spawned (snd run) = before ++ [c])
        /\ fst (fst run)
           = Raise (match o with
                    | NotStarted why => OSError why
                    | Exited _ _ =>
                        RuntimeError (u "Command failed: " ++ repr_list h (argv c))
                    end)).
Proof.
  cbv zeta.
  split; [|split; [apply install_android_packages_not_found
                  |split; [|split; [|split; [|split; [|split]]]]]].
  - walk_packages h android_sdk w.
    all: try solve [exists 4%nat; reflexivity].
    all: try solve [exists 3%nat; reflexivity].
    all: try solve [exists 2%nat; reflexivity].
    all: try solve [exists 0%nat; reflexivity].
  - intros Hfound'. revert Hfound'. walk_packages h android_sdk w.
    all: intros Hx; try discriminate Hx.
    all: try solve [exists 2%nat; reflexivity].
    all: try solve [exists 1%nat; reflexivity].
    all: try solve [exists 0%nat; reflexivity].
  - walk_packages h android_sdk w.
    all: split; [try discriminate; intros _; eexists; tauto|].
    all: try solve [intros _; reflexivity].
    all: intros (text' & Hin); exfalso.
    all: repeat match goal with
                | H : _ \/ _ |- _ => destruct H as [H | H]
                | H : False |- _ => destruct H
                end.
    all: try discriminate.
    all: try (match goal with
              | H : Spawn _ _ = Spawn _ _ |- _ => injection H; clear H; intros
              end).
    all: try congruence.
    all: try solve [distinct_calls].
  - walk_packages h android_sdk w.
    all: try discriminate.
    all: intros _; (split; [reflexivity|]).
    all: intros c o Hin Hc.
    all: repeat match goal with
                | H : _ \/ _ |- _ => destruct H as [H | H]
                | H : False |- _ => destruct H
                end.
    all: try discriminate.
    all: injection Hin as <- <-.
    all: try contradiction.
    all: eexists; reflexivity.
  - walk_packages h android_sdk w.
    all: intros text' Hin.
    all: try solve [exists 1%nat; reflexivity].
    all: try solve [exists 0%nat; reflexivity].
    all: exfalso.
    all: repeat match goal with
                | H : _ \/ _ |- _ => destruct H as [H | H]
                | H : False |- _ => destruct H
                end.
    all: try discriminate.
    all: try (match goal with
              | H : Spawn _ _ = Spawn _ _ |- _ => injection H; clear H; intros
              end).
    all: try congruence.
    all: try solve [distinct_calls].
  - walk_packages h android_sdk w.
    all: intros text' Hin.
    all: try solve [reflexivity].
    all: exfalso.
    all: repeat match goal with
                | H : _ \/ _ |- _ => destruct H as [H | H]
                | H : False |- _ => destruct H
                end.
    all: try discriminate.
    all: try (match goal with
              | H : Spawn _ _ = Spawn _ _ |- _ => injection H; clear H; intros
              end).
    all: try congruence.
    all: try solve [distinct_calls].
  - walk_packages h android_sdk w.
    all: intros c o Hin Hc Ho.
    all: repeat match goal with
                | H : _ \/ _ |- _ => destruct H as [H | H]
                | H : False |- _ => destruct H
                end.
    all: try discriminate.
    all: injection Hin as <- <-.
    all: try contradiction.
    all: try solve [exfalso; eapply Ho; reflexivity].
    all: split; [|reflexivity].
    all: try solve [exists []; reflexivity].
    all: try solve [eexists [_]; reflexivity].
    all: try solve [eexists [_; _]; reflexivity].
    all: try solve [eexists [_; _; _]; reflexivity].
Qed.

(** X10.  Every subprocess of [install_android_packages] is given the
    same environment, made once from the one the step starts in: both SDK
    variables are the SDK root, [PATH] is the [cmdline-tools] [bin]
    directory, the [platform-tools] directory and then the inherited
    [PATH] (empty when there was none), and every other variable is passed
    on as inherited.  With [sdkmanager] present the licence call is run,
    so that there is such a subprocess. *)
Theorem android_env_overlay h android_sdk env_map flutter_root w :
  let run := install_android_packages h android_sdk env_map flutter_root w in
  exists env,
    (forall c o, In (Spawn c o) (snd run) -> call_env c = Some env)
    /\ (exists_in (sdkmanager_bin h android_sdk) (fs w) = true ->
        exists c o rest,
          snd run = Log (u "Accepting Android licenses...") :: Spawn c o :: rest
          /\ nth 2 (argv c) [] = u "--licenses")
    /\ env !! u "ANDROID_SDK_ROOT" = Some (path_str h android_sdk)
    /\ env !! u "ANDROID_HOME" = Some (path_str h android_sdk)
    /\ env !! u "PATH"
       = Some (path_str h (android_sdk ++ [u "cmdline-tools"; u "latest"; u "bin"])
               ++ pathsep h
               ++ path_str h (android_sdk ++ [u "platform-tools"])
               ++ pathsep h
               ++ default [] (environ w !! u "PATH"))
    /\ (forall k,
          k <> u "ANDROID_SDK_ROOT" -> k <> u "ANDROID_HOME" -> k <> u "PATH" ->
          env !! k = environ w !! k).
Proof.
  cbv zeta. exists (android_env h android_sdk (environ w)).
  split; [|split].
  - walk_packages h android_sdk w.
    all: intros c o Hin.
    all: repeat match goal with
                | H : _ \/ _ |- _ => destruct H as [H | H]
                | H : False |- _ => destruct H
                end.
    all: try discriminate.
    all: injection Hin as <- _; reflexivity.
  - intros Hfound'. revert Hfound'. walk_packages h android_sdk w.
    all: intros Hx; try discriminate Hx.
    all: do 3 eexists; split; reflexivity.
  - unfold android_env, dict_get.
    assert (H1 : u "PATH" <> u "ANDROID_SDK_ROOT") by discriminate.
    assert (H2 : u "PATH" <> u "ANDROID_HOME") by discriminate.
    assert (H3 : u "ANDROID_HOME" <> u "ANDROID_SDK_ROOT") by discriminate.
    split; [|split; [|split]].
    + now rewrite lookup_insert_ne, lookup_insert_ne, lookup_insert_eq.
    + now rewrite lookup_insert_ne, lookup_insert_eq.
    + rewrite lookup_insert_eq.
      now rewrite lookup_insert_ne, lookup_insert_ne by congruence.
    + intros k Hk1 Hk2 Hk3.
      now rewrite !lookup_insert_ne by congruence.
Qed.

(** ** The native toolchain *)

(** The ways [ensure_msvc_on_windows] can go. *)
Lemma ensure_msvc_cases h w :
  let run := ensure_msvc_on_windows h w in
  (is_windows h = false -> run = (Ret tt, w, []))
  /\ (forall e,
        fst (fst run) = Raise e ->
        forall ev,
          In ev (snd run) -> exists v o, ev = Spawn (vswhere_call h v) o)
  /\ (forall o,
        In (Spawn (cmd winget_buildtools) o) (snd run) ->
        fst (fst run) = Ret tt)
  /\ (forall v text,
        In (Spawn (vswhere_call h v) (Exited 0 text)) (snd run) ->
        strip text <> [] ->
        spawned (snd run) = [vswhere_call h v]).
Proof.
  cbv zeta. unfold ensure_msvc_on_windows.
  destruct (is_windows h); cbn [negb];
    [|split; [reflexivity|]; split; [intros e He; discriminate He|]; split; intros; contradiction].
  split; [discriminate|].
  unfold vc_tools_detected.
  unfold bind, get_world, popen, have_cmd, try_except, log, err, emit, ret,
    raise.
  cbv beta.
  match goal with
  | |- context [List.find ?f ?l] => destruct (List.find f l) as [v|]
  end.
  - destruct (spawn h (vswhere_call h v) w) as [[rc text | why] w1] eqn:Ev.
    + destruct (Z.eqb_spec rc 0) as [-> | Hrc]; cbn [negb fst snd app].
      * destruct (strip text) as [|c s] eqn:Es; cbn [fst snd app].
        -- decide_on_path.
           ++ run_checked_step; cbn [is_Exception fst snd app In].
              all: split; [intros e He; discriminate He|]; split; [reflexivity|].
              all: intros v' text' [H | H]; [|exfalso].
              all: try (injection H as Hv <-; congruence).
              all: repeat match goal with
                          | H : _ \/ _ |- _ => destruct H as [H | H]
                          | H : False |- _ => destruct H
                          end; try discriminate.
              all: injection H as Hc _; unfold vswhere_call, cmd in Hc;
                congruence.
           ++ cbn [In]. split; [intros e He; discriminate He|]. split; [reflexivity|].
              intros v' text' [H | [H | [H | []]]]; try discriminate.
              injection H as _ <-. congruence.
        -- cbn [In]. split; [intros e He; discriminate He|]. split; [reflexivity|].
           intros v' text' [H | [H | []]]; try discriminate.
           injection H as Hc _. intros _. cbn [spawned].
           unfold vswhere_call, cmd in *. congruence.
      * decide_on_path.
        -- run_checked_step; cbn [is_Exception fst snd app In].
           all: split; [intros e He; discriminate He|]; split; [reflexivity|].
           all: intros v' text' H; exfalso.
           all: repeat match goal with
                       | H : _ \/ _ |- _ => destruct H as [H | H]
                       | H : False |- _ => destruct H
                       end; try discriminate.
           all: try (injection H as _ Hz _; congruence).
           all: injection H as Hc _; unfold vswhere_call, cmd in Hc;
             congruence.
        -- cbn [In]. split; [intros e He; discriminate He|]. split; [reflexivity|].
           intros v' text' [H | [H | [H | []]]]; try discriminate.
           injection H as _ Hz _. congruence.
    + cbn [fst snd In]. split; [intros e _ ev [<- | []]; now exists v, (NotStarted why)|].
      split; [intros o [H | []]; injection H as Hc _;
              unfold vswhere_call, cmd in Hc; congruence|].
      intros v' text' [H | []]. discriminate.
  - cbn [fst snd app]. decide_on_path.
    + run_checked_step; cbn [is_Exception fst snd app In].
      all: split; [intros e He; discriminate He|]; split; [reflexivity|].
      all: intros v' text' H; exfalso.
      all: repeat match goal with
                  | H : _ \/ _ |- _ => destruct H as [H | H]
                  | H : False |- _ => destruct H
                  end; try discriminate.
      all: injection H as Hc _; unfold vswhere_call, cmd in Hc; congruence.
    + cbn [In]. split; [intros e He; discriminate He|]. split; [reflexivity|].
      intros v' text' [H | [H | []]]; discriminate.
Qed.

(** A returning run on a windows-family host has found the tools, or has
    said that [winget] is missing, or has run the install. *)
Lemma ensure_msvc_returned h w :
  is_windows h = true ->
  fst (fst (ensure_msvc_on_windows h w)) = Ret tt ->
  In (Log (u "MSVC Build Tools detected.")) (snd (ensure_msvc_on_windows h w))
  \/ In (Err (u "winget is not available. Please install Visual Studio 2022 Build Tools manually."))
       (snd (ensure_msvc_on_windows h w))
  \/ exists o, In (Spawn (cmd winget_buildtools) o) (snd (ensure_msvc_on_windows h w)).
Proof.
  intros Hwin. unfold ensure_msvc_on_windows. rewrite Hwin. cbn [negb].
  unfold vc_tools_detected.
  unfold bind, get_world, popen, have_cmd, try_except, log, err, emit, ret,
    raise.
  cbv beta.
  match goal with
  | |- context [List.find ?f ?l] => destruct (List.find f l) as [v|]
  end.
  - destruct (spawn h (vswhere_call h v) w) as [[rc text | why] w1] eqn:Ev.
    + destruct (Z.eqb_spec rc 0) as [-> | Hrc]; cbn [negb fst snd app].
      * destruct (strip text) as [|c s] eqn:Es; cbn [fst snd app].
        -- decide_on_path.
           ++ run_checked_step; cbn [is_Exception fst snd app In].
              all: intros _; right; right; eexists; tauto.
           ++ cbn [In]. intros _. tauto.
        -- cbn [In]. intros _. tauto.
      * decide_on_path.
        -- run_checked_step; cbn [is_Exception fst snd app In].
           all: intros _; right; right; eexists; tauto.
        -- cbn [In]. intros _. tauto.
    + cbn [fst snd]. discriminate.
  - cbn [fst snd app]. decide_on_path.
    + run_checked_step; cbn [is_Exception fst snd app In].
      all: intros _; right; right; eexists; tauto.
    + cbn [In]. intros _. tauto.
Qed.

(** X11.  [ensure_msvc_on_windows] does nothing on a host that is not of
    the windows family, and on no host does it fail because of the install:
    it returns whatever the [winget] install does.  When it raises, the
    locator is all it can have run: nothing was printed and no install
    tried.  When the locator exits with code 0 and prints a path, it runs
    nothing else.  And a run that returns on a windows-family host has
    found the tools, or has said that [winget] is missing, or has run the
    install. *)
Theorem ensure_msvc_never_fatal h w :
  let run := ensure_msvc_on_windows h w in
  (is_windows h = false -> run = (Ret tt, w, []))
  /\ (forall e,
        fst (fst run) = Raise e ->
        forall ev,
          In ev (snd run) -> exists v o, ev = Spawn (vswhere_call h v) o)
  /\ (forall o,
        In (Spawn (cmd winget_buildtools) o) (snd run) ->
        fst (fst run) = Ret tt)
  /\ (forall v text,
        In (Spawn (vswhere_call h v) (Exited 0 text)) (snd run) ->
        strip text <> [] ->
        spawned (snd run) = [vswhere_call h v])
  /\ (is_windows h = true ->
      fst (fst run) = Ret tt ->
      In (Log (u "MSVC Build Tools detected.")) (snd run)
      \/ In (Err (u "winget is not available. Please install Visual Studio 2022 Build Tools manually."))
           (snd run)
      \/ exists o, In (Spawn (cmd winget_buildtools) o) (snd run)).
Proof.
  cbv zeta.
  destruct (ensure_msvc_cases h w) as (Hoff & Hraised & Hinstall & Hfound).
  split; [exact Hoff|]. split; [exact Hraised|].
  split; [exact Hinstall|]. split; [exact Hfound|].
  apply ensure_msvc_returned.
Qed.

(** ** The whole run *)

Lemma bind_returns {A B} (m : M A) (k : A -> M B) w b :
  fst (fst (bind m k w)) = Ret b ->
  exists a w1 t1 w2 t2,
    m w = (Ret a, w1, t1)
    /\ k a w1 = (Ret b, w2, t2)
    /\ bind m k w = (Ret b, w2, t1 ++ t2).
Proof.
  unfold bind. destruct (m w) as [[[a|e] w1] t1]; [|discriminate].
  destruct (k a w1) as [[r2 w2] t2] eqn:Hk. cbn [fst]. intros ->.
  exists a, w1, t1, w2, t2. now rewrite Hk.
Qed.

Lemma spawned_app t1 t2 : spawned (t1 ++ t2) = spawned t1 ++ spawned t2.
Proof.
  induction t1 as [|[] t1 IH]; cbn [app spawned]; try exact IH.
  - reflexivity.
  - now rewrite IH.
Qed.

Lemma ensure_prereqs_without_git h w :
  u "git" ∉ on_path w ->
  ensure_prereqs h w = (Raise (SystemExit git_missing), w, []).
Proof.
  intros Hgit. unfold ensure_prereqs, bind, have_cmd.
  now rewrite (bool_decide_eq_false_2 _ Hgit).
Qed.

Lemma ensure_prereqs_returned h w w' t :
  ensure_prereqs h w = (Ret tt, w', t) -> u "git" ∈ on_path w.
Proof.
  destruct (decide (u "git" ∈ on_path w)) as [Hgit | Hgit]; [easy|].
  now rewrite (ensure_prereqs_without_git h w Hgit).
Qed.

Lemma install_android_packages_returned h android_sdk env_map flutter_root w w' t :
  let env := android_env h android_sdk (environ w) in
  install_android_packages h android_sdk env_map flutter_root w = (Ret tt, w', t) ->
  spawned t
  = [licenses_call h android_sdk env;
     packages_call h android_sdk env_map env;
     flutter_config_call h android_sdk flutter_root env;
     precache_call h flutter_root env]
  /\ exists text, In (Spawn (precache_call h flutter_root env) (Exited 0 text)) t.
Proof.
  cbv zeta. revert w' t. walk_packages h android_sdk w.
  all: intros w' t Hrun; try discriminate Hrun.
  all: injection Hrun as <- <-.
  all: split; [reflexivity|].
  all: eexists; cbn [app In]; tauto.
Qed.

(** X12.  Without [git], [main] ends before it runs any subprocess or
    downloads anything: all it can have done is print the tooling
    directory and make it.  When there is no [.env], or [.env] is a
    regular file that holds text, and the tooling directory can be made,
    the run ends with the [SystemExit] of the missing [git], and the
    tooling directory has been made all the same. *)
Theorem main_without_git h w :
  u "git" ∉ on_path w ->
  let run := main h w in
  let tooling := cwd w ++ [u ".tooling"] in
  let trace := [Log (u "Tooling directory: " ++ path_str h tooling); Mkdir tooling] in
  (exists e, fst (fst run) = Raise e)
  /\ (snd run = [] \/ snd run = trace)
  /\ (forall d,
        find (cwd w ++ [u ".env"]) (fs w) = None
        \/ (exists text, find (cwd w ++ [u ".env"]) (fs w) = Some (File text)) ->
        mkdir_p tooling (fs w) = Some d ->
        run = (Raise (SystemExit git_missing), with_fs d w, trace)).
Proof.
  intros Hgit. cbv zeta.
  unfold main, get_world, load_env_file, mkdir, log, emit, bind. cbv beta.
  destruct (find (cwd w ++ [u ".env"]) (fs w)) as [[text | sub]|].
  3: destruct (mkdir_p (cwd w ++ [u ".tooling"]) (fs w)) as [d|] eqn:Hd.
  1: destruct (mkdir_p (cwd w ++ [u ".tooling"]) (fs w)) as [d|] eqn:Hd.
  all: try rewrite (ensure_prereqs_without_git h (with_fs _ w) Hgit).
  all: cbn [fst snd app].
  all: split; [eexists; reflexivity|].
  all: split; [tauto|].
  all: intros d' Henv Hd'; try discriminate.
  all: try (now injection Hd' as <-).
  destruct Henv as [Henv | (text & Henv)]; discriminate.
Qed.

Lemma main_without_git_witness :
  main (sample_host false all_succeed) foo_bar_world
  = (Raise (SystemExit git_missing),
     with_fs (fs foo_bar_world ++ [(u ".tooling", Dir [])]) foo_bar_world,
     [Log (u "Tooling directory: /.tooling"); Mkdir [u ".tooling"]]).
Proof.
  assert (Hgit : u "git" ∉ on_path foo_bar_world)
    by (apply (bool_decide_eq_false_1 _); reflexivity).
  destruct (main_without_git (sample_host false all_succeed) foo_bar_world Hgit)
    as (_ & _ & Hrun).
  apply (Hrun (fs foo_bar_world ++ [(u ".tooling", Dir [])])).
  - right. eexists. reflexivity.
  - reflexivity.
Defined.

Lemma bind_returned {A B} (m : M A) (k : A -> M B) w b w2 t :
  bind m k w = (Ret b, w2, t) ->
  exists a w1 t1 t2,
    m w = (Ret a, w1, t1) /\ k a w1 = (Ret b, w2, t2) /\ t = t1 ++ t2.
Proof.
  intros H.
  destruct (bind_returns m k w b) as (a & w1 & t1 & w2' & t2 & Hm & Hk & Hb);
    [now rewrite H|].
  rewrite H in Hb. injection Hb as -> ->.
  now exists a, w1, t1, t2.
Qed.

Lemma ensure_msvc_off_windows h w :
  is_windows h = false -> ensure_msvc_on_windows h w = (Ret tt, w, []).
Proof. intros H. unfold ensure_msvc_on_windows. now rewrite H. Qed.

Lemma log_returned msg w a w1 t :
  log msg w = (Ret a, w1, t) -> w1 = w /\ t = [Log msg].
Proof. unfold log, emit. generalize (Log msg). now intros e [= <- <-]. Qed.

(** Take the first step of a sequence that has returned apart. *)
Ltac first_step H Hm a w1 t1 :=
  let t2 := fresh "rest" in
  apply bind_returned in H;
  destruct H as (a & w1 & t1 & t2 & Hm & H & ->).

(** X13.  [main] returns only after every step has: [git] was found,
    [.env] was no directory, the tooling directory could be made, and the
    four calls of [install_android_packages] were run in their order, the
    [precache] call exiting with code 0; off a windows-family host no
    subprocess follows them.  The run has then printed that the bootstrap
    is complete. *)
Theorem main_returns h w :
  let run := main h w in
  let tooling := cwd w ++ [u ".tooling"] in
  let flutter_root := tooling ++ [u "flutter"] in
  let android_sdk := tooling ++ [u "android-sdk"] in
  let env_map :=
    match find (cwd w ++ [u ".env"]) (fs w) with
    | Some (File text) => load_lines (splitlines text) ∅
    | _ => ∅
    end in
  fst (fst run) = Ret tt ->
  u "git" ∈ on_path w
  /\ dir_at (cwd w ++ [u ".env"]) (fs w) = false
  /\ (exists d, mkdir_p tooling (fs w) = Some d)
  /\ (exists env before after,
        spawned (snd run)
        = before
          ++ [licenses_call h android_sdk env;
              packages_call h android_sdk env_map env;
              flutter_config_call h android_sdk flutter_root env;
              precache_call h flutter_root env]
          ++ after
        /\ (is_windows h = false -> after = [])
        /\ exists text,
             In (Spawn (precache_call h flutter_root env) (Exited 0 text))
               (snd run))
  /\ In (Log (LF :: u "Bootstrap complete.")) (snd run).
Proof.
  cbv zeta. destruct (main h w) as [[r w'] t] eqn:H. cbn [fst snd].
  intros ->. unfold main in H.
  first_step H Hworld wa wb ta. injection Hworld as <- <- <-.
  first_step H Henv env_map w1 t1.
  first_step H Hlog x2 w2 t2. apply log_returned in Hlog as [-> ->].
  first_step H Hmkdir x3 w3 t3.
  first_step H Hpre x4 w4 t4.
  first_step H Hflutter x5 w5 t5.
  first_step H Hcmdline x6 w6 t6.
  first_step H Hpkgs x7 w7 t7.
  first_step H Hmsvc x8 w8 t8.
  first_step H Hl1 y1 v1 s1. apply log_returned in Hl1 as [-> ->].
  first_step H Hl2 y2 v2 s2. apply log_returned in Hl2 as [-> ->].
  first_step H Hl3 y3 v3 s3. apply log_returned in Hl3 as [-> ->].
  first_step H Hl4 y4 v4 s4. apply log_returned in Hl4 as [-> ->].
  first_step H Hl5 y5 v5 s5. apply log_returned in Hl5 as [-> ->].
  destruct x3, x4, x5, x6, x7, x8.
  match type of H with _ = (_, _, ?r) => rename r into tail end.
  (* the override file *)
  unfold load_env_file in Henv.
  assert (Henv' : dir_at (cwd w ++ [u ".env"]) (fs w) = false
                  /\ env_map = match find (cwd w ++ [u ".env"]) (fs w) with
                               | Some (File text) => load_lines (splitlines text) ∅
                               | _ => ∅
                               end
                  /\ w1 = w /\ t1 = []).
  { unfold dir_at, dir_at_node.
    change (find_node (cwd w ++ [u ".env"]) (Dir (fs w)))
      with (find (cwd w ++ [u ".env"]) (fs w)).
    destruct (find (cwd w ++ [u ".env"]) (fs w)) as [[text | sub]|];
      try discriminate; now injection Henv as <- <- <-. }
  clear Henv. destruct Henv' as (Hnodir & -> & -> & ->).
  (* the tooling directory *)
  unfold mkdir in Hmkdir.
  destruct (mkdir_p (cwd w ++ [u ".tooling"]) (fs w)) as [d|] eqn:Hd;
    [|discriminate].
  injection Hmkdir as <- <-.
  (* the steps *)
  pose proof (ensure_prereqs_returned _ _ _ _ Hpre) as Hgit.
  cbn [on_path with_fs] in Hgit.
  pose proof (proj1 (install_android_cmdline_tree h
                       ((cwd w ++ [u ".tooling"]) ++ [u "android-sdk"])
                       (match find (cwd w ++ [u ".env"]) (fs w) with
                        | Some (File text) => load_lines (splitlines text) ∅
                        | _ => ∅
                        end) w5)) as Hquiet.
  cbv zeta in Hquiet. rewrite Hcmdline in Hquiet. cbn [snd] in Hquiet.
  destruct (install_android_packages_returned _ _ _ _ _ _ _ Hpkgs)
    as (Hcalls & text & Hin).
  split; [exact Hgit|]. split; [exact Hnodir|]. split; [now exists d|].
  split.
  - exists (android_env h ((cwd w ++ [u ".tooling"]) ++ [u "android-sdk"])
              (environ w6)),
      (spawned t4 ++ spawned t5), (spawned t8 ++ spawned tail).
    split; [|split].
    + rewrite !spawned_app, Hquiet, Hcalls. cbn [spawned app].
      rewrite <- !app_assoc. reflexivity.
    + intros Hoff. rewrite Hoff in H. injection H as <- <-.
      rewrite (ensure_msvc_off_windows h _ Hoff) in Hmsvc.
      now injection Hmsvc as <- <-.
    + exists text. rewrite !in_app_iff. tauto.
  - rewrite !in_app_iff. cbn [In]. tauto.
Qed.

Lemma main_returns_witness :
  u "git" ∈ on_path installed_world
  /\ In (Log (LF :: u "Bootstrap complete."))
       (snd (main (sample_host false all_succeed) installed_world)).
Proof.
  destruct (main_returns (sample_host false all_succeed) installed_world
              eq_refl)
    as (Hgit & _ & _ & _ & Hlog).
  split; [exact Hgit | exact Hlog].
Defined.
